(** * bookdata: the scraper of booksdata/parsing.py, embedded and verified

    The development follows [BookScraper] method by method.  Python values
    are modelled as the code has them: a [str] is a list of Unicode code
    points, a raised exception is the [Raised] case of [outcome], printed
    diagnostics are appended to a log that is threaded through the
    coroutines, the remote site is a function from request path to reply.

    Limits of the model, stated once:
    - case mapping ([str.lower], the [(?i)] flag) and the digit class
      ([\d], [int], [float]) are modelled on ASCII; other code points are
      neither letters nor digits;
    - a float is modelled by the rational its decimal literal denotes,
      rounding to binary64 is left out;
    - a page is modelled by what BeautifulSoup's selectors find in it;
    - messages of exceptions raised by the interpreter or by pandas are cut
      before the offending value; the informational line printed by each
      successful request is left out of the log. *)

From Stdlib Require Import String Ascii NArith QArith DecimalString.
From stdpp Require Import base option list gmap.

Local Open Scope nat_scope.
Local Open Scope N_scope.
Local Open Scope list_scope.

(** ** Strings *)

Module Py.

(** A Python [str]: a sequence of code points. *)
Abbreviation str := (list N).

Definition of_string (s : string) : str :=
  (λ a, N_of_ascii a) <$> list_ascii_of_string s.

Notation "'py' s" := (of_string s%string) (at level 9, s at level 0, only parsing).

Definition dollar : N := 36.
Definition pound : N := 163.
Definition euro : N := 8364.
Definition newline : N := 10.
Definition dot : N := 46.

Definition is_upper (c : N) : bool := (65 <=? c) && (c <=? 90).
Definition is_digit (c : N) : bool := (48 <=? c) && (c <=? 57).

Definition lower_char (c : N) : N := if is_upper c then c + 32 else c.

(** [s.lower()] *)
Definition lower (s : str) : str := lower_char <$> s.

(** [s[start:]] for a non-negative literal [start]. *)
Definition slice_from (start : nat) (s : str) : str := drop start s.

(** [s[start:-back]] for literals [start >= 0] and [back > 0]: the stop
    index is [len(s) - back], clamped at 0, and the slice is empty when the
    stop is not after the start. *)
Definition slice (start back : nat) (s : str) : str :=
  take (length s - back - start)%nat (drop start s).

(** [str(n)] for a non-negative [int]. *)
Definition str_of_nat (n : nat) : str :=
  of_string (NilZero.string_of_uint (Nat.to_uint n)).

(** [range(lo, hi)] as the list it iterates over; [range(0)] is [range 0 0]. *)
Definition range (lo hi : nat) : list nat := seq lo (hi - lo)%nat.

End Py.

Import Py.

(** ** Exceptions and outcomes *)

Inductive exn : Type :=
| ValueError (msg : string)
| TypeError (msg : string)
| KeyError (msg : string)
| AttributeError (msg : string)
| IndexError (msg : string)
| ClientResponseError (status : nat)
| ConnectionTimeoutError
| TimeoutError.

(** What a call does: it returns a value or raises. *)
Inductive outcome (A : Type) : Type :=
| Returned (a : A)
| Raised (e : exn).
Arguments Returned {A} a.
Arguments Raised {A} e.

#[global] Instance outcome_ret : MRet outcome := λ A a, Returned a.
#[global] Instance outcome_bind : MBind outcome := λ A B f m,
  match m with
  | Returned a => f a
  | Raised e => Raised e
  end.
#[global] Instance outcome_fmap : FMap outcome := λ A B f m,
  match m with
  | Returned a => Returned (f a)
  | Raised e => Raised e
  end.

(** A comprehension [[f(x) for x in xs]]: the elements are computed from
    left to right and the first exception ends the loop. *)
Fixpoint comprehension {A B} (f : A → outcome B) (xs : list A) : outcome (list B) :=
  match xs with
  | [] => Returned []
  | x :: xs' => y ← f x; ys ← comprehension f xs'; mret (y :: ys)
  end.

(** ** Insertion-ordered dictionaries

    [scrape] iterates over a [dict] it has built, so the order of the keys
    and the fate of a repeated key matter: assigning to a key that is
    present keeps its position and replaces its value. *)

Section odict.
Context {K V : Type} `{EqDecision K}.

(** [d[k] = v] *)
Fixpoint dict_set (k : K) (v : V) (d : list (K * V)) : list (K * V) :=
  match d with
  | [] => [(k, v)]
  | (k', v') :: d' =>
      if decide (k = k') then (k, v) :: d' else (k', v') :: dict_set k v d'
  end.

(** [{key(x): val(x) for x in xs}] *)
Definition dict_comprehension {A} (key : A → K) (val : A → V) (xs : list A)
  : list (K * V) :=
  foldl (λ d x, dict_set (key x) (val x) d) [] xs.

(** [{**d1, **d2}] *)
Definition dict_merge (d1 d2 : list (K * V)) : list (K * V) :=
  foldl (λ d kv, dict_set kv.1 kv.2 d) d1 d2.

(** The distinct elements of a list, each at its first occurrence. *)
Fixpoint first_occurrences (l : list K) : list K :=
  match l with
  | [] => []
  | k :: l' => k :: filter (λ k', k' ≠ k) (first_occurrences l')
  end.

End odict.

(** ** Pages

    What the selectors of the scraper find in a page once BeautifulSoup has
    parsed it.  Texts are the results of [get_text(strip=True)]. *)

(** An anchor matched by [ul a[href^='../books/']]: the selector only
    matches anchors that carry an [href]. *)
Record category_anchor := {
  anchor_text : str;
  anchor_href : str
}.

(** A row of the attribute table: [select_one("th")] and
    [select_one("td")], each [None] when the row has no such cell. *)
Record table_row := {
  row_th : option str;
  row_td : option str
}.

Record markup := {
  (** [select("ul a[href^='../books/']")] *)
  category_anchors : list category_anchor;
  (** [select("article.product_pod > h3 > a")], each with [get("href")] *)
  product_anchors : list (option str);
  (** [select_one("ul.pager li.current")], with its text *)
  pager_current : option str;
  (** [select_one("article.product_page div.col-sm-6.product_main > h1")],
      with its text *)
  product_title : option str;
  (** [select_one("... > p[class^=star-rating ]")], with
      [get("class", "")]: the list of class tokens *)
  star_rating : option (list str);
  (** [select_one("article.product_page > table.table.table-striped")],
      with the rows [select("tr")] finds in it *)
  product_table : option (list table_row)
}.

Definition blank_page : markup :=
  {| category_anchors := []; product_anchors := []; pager_current := None;
     product_title := None; star_rating := None; product_table := None |}.

(** ** Page parsers *)

(** [_parse_category_paths]: a dict comprehension, so of two anchors with
    the same lowered text the later one wins. *)
Definition _parse_category_paths (m : markup) : gmap str str :=
  foldl (λ d a, <[lower (anchor_text a) := slice 3 11 (anchor_href a)]> d)
        ∅ (category_anchors m).

Definition not_subscriptable : exn :=
  TypeError "'NoneType' object is not subscriptable".

(** [_parse_product_paths]: [element.get("href")[9:]] for each product
    anchor; an anchor without [href] gives [None], which cannot be sliced. *)
Definition _parse_product_paths (m : markup) : outcome (list str) :=
  comprehension (λ href : option str,
                   match href with
                   | Some h => Returned (slice_from 9 h)
                   | None => Raised not_subscriptable
                   end)
                (product_anchors m).

(** [int(c)] for a one-character string [c]. *)
Definition int_of_char (c : N) : outcome nat :=
  if is_digit c then Returned (N.to_nat (c - 48))
  else Raised (ValueError "invalid literal for int() with base 10").

(** [_get_page_count]: the range of the pages after the first one, read off
    the LAST CHARACTER of the pager's text. *)
Definition _get_page_count (m : markup) : outcome (list nat) :=
  match pager_current m with
  | Some text =>
      match last text with
      | None => Raised (IndexError "string index out of range")
      | Some c => n ← int_of_char c; mret (range 2 (n + 1))
      end
  | None => Returned (range 0 0)
  end.

(** A raw product record: field name to text, in insertion order. *)
Definition record := list (str * str).

Definition no_attribute (name : string) : exn :=
  AttributeError ("'NoneType' object has no attribute '" ++ name ++ "'").

(** [select_one("... > p[class^=star-rating ]").get("class", "")[1]] *)
Definition rating_token (m : markup) : outcome str :=
  match star_rating m with
  | None => Raised (no_attribute "get")
  | Some classes =>
      match classes !! 1%nat with
      | Some token => Returned token
      | None => Raised (IndexError "list index out of range")
      end
  end.

(** [{th.get_text(): td.get_text() for tr in table.select("tr")}]: the key
    of a row is computed before its value. *)
Fixpoint table_dict (rows : list table_row) (d : record) : outcome record :=
  match rows with
  | [] => Returned d
  | tr :: rows' =>
      match row_th tr with
      | None => Raised (no_attribute "get_text")
      | Some k =>
          match row_td tr with
          | None => Raised (no_attribute "get_text")
          | Some v => table_dict rows' (dict_set k v d)
          end
      end
  end.

Definition base_record (product_name url rating : str) : record :=
  [(py "Product name", product_name); (py "URL", url); (py "Rating", rating)].

(** [_parse_product_info]: when the title's text is empty neither [return]
    is reached and the function returns [None]. *)
Definition _parse_product_info (m : markup) (url : str) : outcome (option record) :=
  match product_title m with
  | None => Raised (no_attribute "get_text")
  | Some product_name =>
      if decide (product_name = []) then Returned None
      else
        match product_table m with
        | Some rows =>
            rating ← rating_token m;
            attributes ← table_dict rows [];
            mret (Some (dict_merge (base_record product_name url rating) attributes))
        | None =>
            rating ← rating_token m;
            mret (Some (base_record product_name url rating))
        end
  end.

(** ** The normalization pipeline *)

(** A cell of an object column of a [DataFrame]: text, a float, or the
    missing value. *)
Inductive cell : Type :=
| Text (s : str)
| Float (q : Q)
| NaN.

(** A [DataFrame]: its columns in order, each with its label. *)
Definition DataFrame := list (str * list cell).

Definition column (label : str) (df : DataFrame) : option (list cell) :=
  (λ found : nat * (str * list cell), found.2.2)
    <$> list_find (λ c : str * list cell, c.1 = label) df.

(** [_convert_rating] *)
Definition _convert_rating (rating : cell) : outcome Q :=
  match rating with
  | Text s =>
      let r := lower s in
      if decide (r = py "one") then Returned 1%Q
      else if decide (r = py "two") then Returned 2%Q
      else if decide (r = py "three") then Returned 3%Q
      else if decide (r = py "four") then Returned 4%Q
      else if decide (r = py "five") then Returned 5%Q
      else Raised (ValueError "Rating must be parsable")
  | _ => Raised (TypeError "Rating must be string")
  end.

(** *** Regular expressions of the pipeline *)

(** Does [pattern] match at the head of [s], ignoring case? *)
Fixpoint matches_at (pattern s : str) : bool :=
  match pattern, s with
  | [], _ => true
  | p :: pattern', c :: s' =>
      bool_decide (lower_char p = lower_char c) && matches_at pattern' s'
  | _ :: _, [] => false
  end.

(** The alternatives of a group are tried in order. *)
Definition match_length (alternatives : list str) (s : str) : option nat :=
  (λ found : nat * str, length found.2)
    <$> list_find (λ alt : str, matches_at alt s = true) alternatives.

(** [re.sub("(?i)(a|b|...)", repl, s)]: the matches are found from left to
    right and do not overlap; [skip] counts the characters of the current
    match still to pass over. *)
Fixpoint sub_alternatives (alternatives : list str) (repl : str) (skip : nat)
    (s : str) : str :=
  match s with
  | [] => []
  | c :: s' =>
      match skip with
      | S skip' => sub_alternatives alternatives repl skip' s'
      | O =>
          match match_length alternatives s with
          | Some (S n) => repl ++ sub_alternatives alternatives repl n s'
          | _ => c :: sub_alternatives alternatives repl 0 s'
          end
      end
  end.

Definition zero_synonyms : list str :=
  [py "Free"; py "Give Away"; py "Gratis"; py "No charge"].

(** [re.sub(r"[^\d.]", "", s)] *)
Definition strip_non_numeric (s : str) : str :=
  filter (λ c, is_digit c = true ∨ c = dot) s.

(** The [replace({...}, regex=True)] of [_parse_prices] on one cell: the
    two substitutions in the order of the dict, on text only. *)
Definition replace_price_cell (c : cell) : cell :=
  match c with
  | Text s => Text (strip_non_numeric (sub_alternatives zero_synonyms (py "0") 0 s))
  | _ => c
  end.

Definition isna (c : cell) : bool :=
  match c with NaN => true | _ => false end.

(** The value of a run of decimal digits. *)
Definition digits_value (ds : str) : N :=
  foldl (λ acc d, 10 * acc + (d - 48)) 0 ds.

Definition pow10 (k : nat) : positive := Nat.iter k (Pos.mul 10) 1%positive.

(** The longest run of digits at the head of [s], and what follows it. *)
Fixpoint leading_digits (s : str) : str * str :=
  match s with
  | c :: s' =>
      if is_digit c then
        let '(ds, rest) := leading_digits s' in (c :: ds, rest)
      else ([], s)
  | [] => ([], [])
  end.

(** [float(s)] on text made of digits and dots, which is all the second
    substitution leaves: at most one dot, and a digit on one side of it. *)
Definition float_of_str (s : str) : outcome Q :=
  let '(int_part, rest) := leading_digits s in
  let malformed := Raised (ValueError "could not convert string to float") in
  match rest with
  | [] =>
      if decide (int_part = []) then malformed
      else Returned (Qmake (Z.of_N (digits_value int_part)) 1)
  | c :: frac_part =>
      if bool_decide (c = dot) && forallb is_digit frac_part
         && negb (bool_decide (int_part ++ frac_part = [])) then
        Returned (Qmake (Z.of_N (digits_value (int_part ++ frac_part)))
                        (pow10 (length frac_part)))
      else malformed
  end.

(** [astype(float)] on one cell. *)
Definition astype_float (c : cell) : outcome cell :=
  match c with
  | Text s => q ← float_of_str s; mret (Float q)
  | _ => Returned c
  end.

Definition price_columns : list str :=
  [py "Price (excl. tax)"; py "Price (incl. tax)"; py "Tax"].

(** [df[labels]]: every label must be a column of [df]. *)
Definition select_columns (labels : list str) (df : DataFrame) : outcome DataFrame :=
  comprehension (λ label : str,
                   match column label df with
                   | Some cells => Returned (label, cells)
                   | None => Raised (KeyError "not in index")
                   end)
                labels.

(** [_parse_prices]: the columns are converted when [isna()] finds no
    missing cell among the substituted ones, and returned as substituted
    otherwise. *)
Definition _parse_prices (df : DataFrame) : outcome DataFrame :=
  if forallb (λ label, bool_decide (column label df = None)) price_columns then
    Raised (ValueError "A tax column and product price columns don't exist")
  else
    selected ← select_columns price_columns df;
    let extracted : DataFrame :=
      (λ c : str * list cell, (c.1, replace_price_cell <$> c.2)) <$> selected in
    if existsb (λ c : str * list cell, existsb isna c.2) extracted then
      Returned extracted
    else
      comprehension (λ c : str * list cell,
                       cells ← comprehension astype_float c.2; mret (c.1, cells))
                    extracted.

Definition is_currency_symbol (c : N) : bool :=
  bool_decide (c = dollar) || bool_decide (c = pound) || bool_decide (c = euro).

(** The pattern [.*([$£€]).*] tried at the head of [s]: the first [.*] is
    greedy, so it takes every character up to the end of the line and then
    gives them back one at a time until a currency symbol follows it.  The
    result is the text of the group. *)
Fixpoint match_currency_here (s : str) : option N :=
  match s with
  | [] => None
  | c :: s' =>
      let stop_here := if is_currency_symbol c then Some c else None in
      if bool_decide (c = newline) then stop_here
      else
        match match_currency_here s' with
        | Some symbol => Some symbol
        | None => stop_here
        end
  end.

(** [re.search]: the pattern is tried at each position from the left. *)
Fixpoint search_currency (s : str) : option N :=
  match match_currency_here s with
  | Some symbol => Some symbol
  | None =>
      match s with
      | [] => None
      | _ :: s' => search_currency s'
      end
  end.

(** [.str.extract(r".*([$£€]).*")[0]] on one cell: a cell that is no text
    gives a missing value. *)
Definition extract_currency (c : cell) : cell :=
  match c with
  | Text s =>
      match search_currency s with
      | Some symbol => Text [symbol]
      | None => NaN
      end
  | _ => NaN
  end.

Definition is_text (c : cell) : bool :=
  match c with Text _ => true | _ => false end.

(** [series.str]: pandas refuses the accessor, with an [AttributeError],
    for a column that is not of text.  A column that holds a text cell is
    an object column which the accessor takes, with its floats and missing
    values; a column of floats and missing values only is a float column,
    which it refuses; a column without any row is an object column. *)
Definition str_accessor (cells : list cell) : outcome (list cell) :=
  if existsb is_text cells || bool_decide (cells = []) then Returned cells
  else Raised (AttributeError "Can only use .str accessor with string values!").

(** [_parse_currency] *)
Definition _parse_currency (df : DataFrame) : outcome (list cell) :=
  match column (py "Price (incl. tax)") df with
  | None => Raised (ValueError "Product price columns don't exist")
  | Some cells =>
      match str_accessor cells with
      | Returned texts => Returned (extract_currency <$> texts)
      | Raised e => Raised e
      end
  end.

(** ** Coroutines: outcomes with a log of diagnostics *)

(** The lines the scraper prints when something goes wrong. *)
Inductive diagnostic : Type :=
| HttpErrorLine        (* "The HTTP Error: ..." *)
| TimeoutLine          (* "The timeout is reached: ..." *)
| ParsingErrorLine     (* "The parsing result in the error: ..." *)
| OtherErrorLine       (* "The error: ..." *)
| NoPathsLine.         (* "Paths to products of the specified category are not found" *)

Definition coroutine (A : Type) : Type :=
  list diagnostic → outcome A * list diagnostic.

#[global] Instance coroutine_ret : MRet coroutine := λ A a log, (Returned a, log).
#[global] Instance coroutine_bind : MBind coroutine := λ A B f m log,
  match m log with
  | (Returned a, log') => f a log'
  | (Raised e, log') => (Raised e, log')
  end.

Definition print (d : diagnostic) : coroutine () :=
  λ log, (Returned (), log ++ [d]).

(** A call that touches no log. *)
Definition call {A} (o : outcome A) : coroutine A := λ log, (o, log).

(** *** Exception groups *)

(** aiohttp derives [ConnectionTimeoutError] from [ClientError] (through
    [ServerTimeoutError] and [ClientConnectionError]).  The [TimeoutError]
    of a total timeout is the builtin one, no [ClientError]. *)
Definition is_ClientError (e : exn) : bool :=
  match e with
  | ClientResponseError _ | ConnectionTimeoutError => true
  | _ => false
  end.

Definition is_ConnectionTimeoutError (e : exn) : bool :=
  match e with ConnectionTimeoutError => true | _ => false end.

Definition is_parsing_error (e : exn) : bool :=
  match e with AttributeError _ | IndexError _ => true | _ => false end.

(** One [except* C as err: print(...)] clause: it takes the members of the
    group that are instances of [C], prints its line once if there is any,
    and leaves the others to the clauses below. *)
Definition except_star (is_instance : exn → bool) (line : diagnostic)
    (group : list exn) : list diagnostic * list exn :=
  let matched := filter (λ e, is_instance e = true) group in
  let others := filter (λ e, is_instance e ≠ true) group in
  (if decide (matched = []) then [] else [line], others).

(** The clauses of the two cohorts, in their textual order.  The clauses
    for [KeyboardInterrupt] and [SystemExit] match no member of [exn]; every
    member of [exn] is an [Exception], so the last clause leaves nothing to
    raise again. *)
Definition cohort_handlers (group : list exn) : list diagnostic :=
  let '(l1, g1) := except_star is_ClientError HttpErrorLine group in
  let '(l2, g2) := except_star is_ConnectionTimeoutError TimeoutLine g1 in
  let '(l3, g3) := except_star is_parsing_error ParsingErrorLine g2 in
  let '(l4, _) := except_star (λ _, true) OtherErrorLine g3 in
  l1 ++ l2 ++ l3 ++ l4.

Definition raised_of {A} (tasks : list (outcome A)) : list exn :=
  omap (λ t, match t with Raised e => Some e | Returned _ => None end) tasks.

Definition results_of {A} (tasks : list (outcome A)) : list A :=
  omap (λ t, match t with Returned a => Some a | Raised _ => None end) tasks.

(** [async with TaskGroup() as tg: tasks = [tg.create_task(...) ...]]: the
    block is left normally when every task has returned, and with the group
    of the raised exceptions otherwise.  Once a task has failed the group
    cancels the ones still running, so the group of a run holds the
    exceptions of some of the failing tasks, one at least; here it holds
    those of all of them.  The clauses above only ask which classes occur
    in the group: what is stated below on the lines printed is stated for
    cohorts whose failures are of one class, or as what every line printed
    goes back to, and holds of every such group. *)
Definition TaskGroup {A} (tasks : list (outcome A)) : list A + list exn :=
  match raised_of tasks with
  | [] => inl (results_of tasks)
  | group => inr group
  end.

(** ** The crawl *)

(** What comes of a request: a response with its status; no connection
    before the connect timeout; or no complete answer before the total
    timeout. *)
Inductive reply : Type :=
| Response (status : nat) (body : markup)
| NoConnection
| NoReply.

Section Crawl.

(** [base_url], read from the configuration file. *)
Variable base_url : str.
(** The remote site, by request path. *)
Variable site : str → reply.

(** [_request_to_page]: [raise_for_status] raises from status 400 on.  A
    connect timeout is raised by aiohttp as [ConnectionTimeoutError], the
    total timeout as [asyncio.TimeoutError], which is the builtin
    [TimeoutError]. *)
Definition _request_to_page (path : str) : outcome markup :=
  match site path with
  | Response status body =>
      if decide (400 ≤ status)%nat then Raised (ClientResponseError status)
      else Returned body
  | NoConnection => Raised ConnectionTimeoutError
  | NoReply => Raised TimeoutError
  end.

Definition index_path : str := py "category/books_1/index.html".

(** [f"category/{path_to_category}/index.html"] *)
Definition listing_path (path_to_category : str) : str :=
  py "category/" ++ path_to_category ++ py "/index.html".

(** [f"category/{path_to_category}/page-{page_number}.html"] *)
Definition page_path (path_to_category : str) (page_number : nat) : str :=
  py "category/" ++ path_to_category ++ py "/page-" ++ str_of_nat page_number
    ++ py ".html".

(** [for task in tasks: results.extend(self._parse_product_paths(task.result()))] *)
Fixpoint extend_each (results : list str) (bodies : list markup)
    : outcome (list str) :=
  match bodies with
  | [] => Returned results
  | body :: bodies' =>
      paths ← _parse_product_paths body; extend_each (results ++ paths) bodies'
  end.

Definition print_all (lines : list diagnostic) : coroutine () :=
  foldr (λ line rest, print line;; rest) (mret ()) lines.

(** [_collect_paths]: the [else] branch of the [try] lies outside the reach
    of its [except*] clauses. *)
Definition _collect_paths (category : str) : coroutine (list str) :=
  index ← call (_request_to_page index_path);
  match _parse_category_paths index !! lower category with
  | None => call (Raised (ValueError "Not found the category: None"))
  | Some path_to_category =>
      if decide (path_to_category = []) then
        call (Raised (ValueError "Not found the category: "))
      else
        markup ← call (_request_to_page (listing_path path_to_category));
        first ← call (_parse_product_paths markup);
        page_count ← call (_get_page_count markup);
        results ←
          (if decide (page_count = []) then mret first
           else
             match TaskGroup ((λ page_number,
                                 _request_to_page (page_path path_to_category page_number))
                              <$> page_count) with
             | inr group => print_all (cohort_handlers group);; mret first
             | inl bodies => call (extend_each first bodies)
             end);
        (if decide (results = []) then print NoPathsLine else mret ());;
        mret results
  end.

(** The tasks the comprehension of [scrape] creates, in the order of their
    creation: one per element of [paths]. *)
Definition detail_tasks (paths : list str) : list (outcome markup) :=
  _request_to_page <$> paths.

(** [scrape]: [tasks] is a dict keyed by URL; one task is created per path,
    and the dict keeps one entry per URL.  Without paths, and after a
    failed cohort, the function ends without [return]: it returns [None]. *)
Definition scrape (category : str) : coroutine (option (list (option record))) :=
  paths ← _collect_paths category;
  if decide (paths = []) then mret None
  else
    let tasks : list (str * outcome markup) :=
      dict_comprehension (λ path, base_url ++ path) _request_to_page paths in
    match TaskGroup (detail_tasks paths) with
    | inr group => print_all (cohort_handlers group);; mret None
    | inl _ =>
        records ← call (comprehension
                          (λ item : str * outcome markup,
                             body ← item.2; _parse_product_info body item.1)
                          tasks);
        mret (Some records)
    end.

End Crawl.

(** ** Vocabulary of the statements *)

Definition is_lower (c : N) : bool := (97 <=? c) && (c <=? 122).

(** [s] spells the lower-case word [w] letter by letter, each letter in
    either case. *)
Fixpoint case_variant (w s : str) : bool :=
  match w, s with
  | [], [] => true
  | a :: w', c :: s' =>
      (bool_decide (c = a) || bool_decide (c = a - 32)) && case_variant w' s'
  | _, _ => false
  end.



Definition rating_words : list str :=
  [py "one"; py "two"; py "three"; py "four"; py "five"].

(** The [ValueError] of [_collect_paths]: its message is an f-string that
    ends with the value the lookup gave, [None] or the empty string. *)
Definition is_category_not_found (e : exn) : bool :=
  match e with
  | ValueError msg => String.prefix "Not found the category: " msg
  | _ => false
  end.



(** A text cut at its newlines: the first line and the lines after it. *)
Fixpoint split_lines (s : str) : str * list str :=
  match s with
  | [] => ([], [])
  | c :: s' =>
      let '(line, others) := split_lines s' in
      if bool_decide (c = newline) then ([], line :: others)
      else (c :: line, others)
  end.

Definition lines (s : str) : list str :=
  (split_lines s).1 :: (split_lines s).2.



(** The frame [_parse_prices] returns: the three price columns. *)
Definition price_frame (excl incl tax : list cell) : DataFrame :=
  [(py "Price (excl. tax)", excl); (py "Price (incl. tax)", incl); (py "Tax", tax)].

(** The outcome of a coroutine started with a given log. *)
Definition outcome_of {A} (c : coroutine A) (log : list diagnostic) : outcome A :=
  (c log).1.

(** The entry a dict comprehension makes of one element. *)
Definition entry_of {A K V} (key : A → K) (val : A → V) (x : A) : K * V :=
  (key x, val x).

(** What [scrape] computes for the entry of one path: the body its task
    has fetched, parsed with the URL of the page. *)
Definition record_of_path (base_url : str) (site : str → reply) (path : str)
    : outcome (option record) :=
  body ← _request_to_page site path; _parse_product_info body (base_url ++ path).

(** The exceptions of the requests of a cohort that fail, in the order of
    the paths. *)
Definition failures_of (site : str → reply) (paths : list str) : list exn :=
  raised_of (_request_to_page site <$> paths).

(** The lines a cohort prints for the failures of its requests: "The HTTP
    Error", "The error", or both in this order; the first one alone when
    every failure is a client error, the second one alone when every
    failure is the [TimeoutError] of a total timeout. *)
Definition failure_lines (failures : list exn) (lines : list diagnostic) : Prop :=
  lines ∈ [[HttpErrorLine]; [OtherErrorLine]; [HttpErrorLine; OtherErrorLine]]
  ∧ (Forall (λ e, is_ClientError e = true) failures → lines = [HttpErrorLine])
  ∧ (Forall (λ e, e = TimeoutError) failures → lines = [OtherErrorLine]).

(** The line [_collect_paths] prints before returning an empty list. *)
Definition no_paths_line (results : list str) : list diagnostic :=
  if decide (results = []) then [NoPathsLine] else [].

(** A page that only has a pager. *)
Definition page_with_pager (text : str) : markup :=
  {| category_anchors := []; product_anchors := []; pager_current := Some text;
     product_title := None; star_rating := None; product_table := None |}.

(** A detail page with a title and a rating, without attribute table. *)
Definition detail_page (title : option str) : markup :=
  {| category_anchors := []; product_anchors := []; pager_current := None;
     product_title := title;
     star_rating := Some [py "star-rating"; py "Three"];
     product_table := None |}.

(** ** Small sites, for the examples *)

(** A site given by the pages it serves; every other path is a 404. *)
Definition site_of (pages : list (str * reply)) (path : str) : reply :=
  match list_find (λ p : str * reply, p.1 = path) pages with
  | Some found => found.2.2
  | None => Response 404 blank_page
  end.

Definition index_page : markup :=
  {| category_anchors :=
       [ {| anchor_text := py "Travel";
            anchor_href := py "../books/travel_2/index.html" |};
         {| anchor_text := py "Default";
            anchor_href := py "../books/default_15/index.html" |};
         {| anchor_text := py "Default Category";
            anchor_href := py "../books/other_16/index.html" |};
         {| anchor_text := py "Broken";
            anchor_href := py "../books/x/" |} ];
     product_anchors := []; pager_current := None;
     product_title := None; star_rating := None; product_table := None |}.

Definition listing_page (pager : option str) (hrefs : list (option str)) : markup :=
  {| category_anchors := []; product_anchors := hrefs; pager_current := pager;
     product_title := None; star_rating := None; product_table := None |}.

Definition default_listing : str * reply :=
  (py "category/books/default_15/index.html",
   Response 200 (listing_page (Some (py "Page 1 of 3"))
                   [Some (py "../../../a_1/index.html")])).

Definition default_page_2 : str * reply :=
  (py "category/books/default_15/page-2.html",
   Response 200 (listing_page (Some (py "Page 2 of 3"))
                   [Some (py "../../../b_2/index.html");
                    Some (py "../../../c_3/index.html")])).

Definition default_page_3 (r : reply) : str * reply :=
  (py "category/books/default_15/page-3.html", r).

Definition last_listing : markup :=
  listing_page (Some (py "Page 3 of 3")) [Some (py "../../../d_4/index.html")].

(** Three listing pages; the third one is served, or fails. *)
Definition site_three_pages (third : reply) : str → reply :=
  site_of [ (py "category/books_1/index.html", Response 200 index_page);
            default_listing; default_page_2; default_page_3 third ].

Definition travel_listing (hrefs : list (option str)) : str * reply :=
  (py "category/books/travel_2/index.html", Response 200 (listing_page None hrefs)).

(** One listing page without pager, with the given product anchors, and
    the detail page of the product [t_1]. *)
Definition site_one_page (hrefs : list (option str)) (detail : reply) : str → reply :=
  site_of [ (py "category/books_1/index.html", Response 200 index_page);
            travel_listing hrefs;
            (py "t_1/index.html", detail) ].

Definition shop_url : str := py "https://books.toscrape.com/catalogue/".

(** A category of twelve listing pages, of which the site serves the first
    three here; each shows one product. *)
Definition site_twelve_pages : str → reply :=
  site_of [ (py "category/books_1/index.html", Response 200 index_page);
            (py "category/books/default_15/index.html",
             Response 200 (listing_page (Some (py "Page 1 of 12"))
                             [Some (py "../../../a_1/index.html")]));
            (py "category/books/default_15/page-2.html",
             Response 200 (listing_page (Some (py "Page 2 of 12"))
                             [Some (py "../../../b_2/index.html")]));
            (py "category/books/default_15/page-3.html",
             Response 200 (listing_page (Some (py "Page 3 of 12"))
                             [Some (py "../../../c_3/index.html")])) ].



(** * The rest of the scraper *)

(** ** Availability *)

Definition stock_synonyms : list str :=
  [py "Not in stock"; py "Out of stock"; py "Sold out"; py "Unavailable"].

(** The [replace({...}, regex=True)] of [_parse_product_availability] on
    one cell. *)
Definition replace_availability_cell (c : cell) : cell :=
  match c with
  | Text s => Text (strip_non_numeric (sub_alternatives stock_synonyms (py "0") 0 s))
  | _ => c
  end.

(** [_parse_product_availability]: the same two returns as [_parse_prices],
    on the one column "Availability". *)
Definition _parse_product_availability (df : DataFrame) : outcome (list cell) :=
  match column (py "Availability") df with
  | None => Raised (ValueError "Product availability column doesn't exist")
  | Some cells =>
      let extracted := replace_availability_cell <$> cells in
      if existsb isna extracted then Returned extracted
      else comprehension astype_float extracted
  end.

(** ** Vocabulary of the further statements *)

(** Text made of digits and dots. *)
Definition numeric (s : str) : Prop :=
  Forall (λ c, is_digit c = true ∨ c = dot) s.

Definition count_dots (s : str) : nat :=
  length (filter (λ c, c = dot) s).

(** Numeric text that [float] accepts: a digit, and at most one dot. *)
Definition well_formed_number (s : str) : bool :=
  bool_decide (count_dots s ≤ 1)%nat && existsb is_digit s.

(** The number a run of digits with [decimals] digits after the dot
    stands for. *)
Definition decimal_value (digits : str) (decimals : nat) : Q :=
  Qmake (Z.of_N (digits_value digits)) (pow10 decimals).

(** The [ValueError] of a failed conversion. *)
Definition malformed_float : exn := ValueError "could not convert string to float".

(** No alternative starts with the letter [c], in either case. *)
Definition starts_none (alternatives : list str) (c : N) : bool :=
  forallb (λ alt : str,
             match alt with
             | [] => false
             | p :: _ => negb (bool_decide (lower_char p = lower_char c))
             end)
          alternatives.

(** [alt] fails to match [t] at a character of [t] itself, whatever
    follows [t]. *)
Fixpoint mismatch_within (alt t : str) : bool :=
  match alt, t with
  | p :: alt', c :: t' =>
      negb (bool_decide (lower_char p = lower_char c)) || mismatch_within alt' t'
  | _, _ => false
  end.

(** No alternative matches at any position of [t], whatever follows [t]. *)
Fixpoint no_match_within (alternatives : list str) (t : str) : bool :=
  match t with
  | [] => true
  | _ :: t' =>
      forallb (λ alt, mismatch_within alt t) alternatives
      && no_match_within alternatives t'
  end.

(** A cell converts to a float once [replace] has run on it. *)
Definition cell_converts (replace : cell → cell) (c : cell) : bool :=
  match replace c with
  | Text t => well_formed_number t
  | _ => true
  end.

(** What the "Availability" text of a product reads as: the number [N] of
    "In stock (N available)", and zero for a synonym of "not in stock" in
    any case. *)
Definition availability_reads (c : cell) (q : Q) : Prop :=
  (∃ ds, forallb is_digit ds = true ∧ ds ≠ []
         ∧ c = Text (py "In stock (" ++ ds ++ py " available)")
         ∧ q = decimal_value ds 0)
  ∨ (∃ s w, w ∈ stock_synonyms ∧ lower s = lower w ∧ c = Text s ∧ q = 0 # 1).

(** [d.get(k)] on an insertion-ordered dictionary. *)
Fixpoint dict_get {K V} `{EqDecision K} (k : K) (d : list (K * V)) : option V :=
  match d with
  | [] => None
  | (k', v) :: d' => if decide (k = k') then Some v else dict_get k d'
  end.

(** The data cell of the last row of a table whose header cell reads [k]. *)
Definition table_cell (k : str) (rows : list table_row) : option str :=
  last (omap (λ tr, if decide (row_th tr = Some k) then row_td tr else None) rows).

(** The rows of the attribute table of a page, none when it has no table. *)
Definition table_rows (m : markup) : list table_row :=
  default [] (product_table m).

(** ** Further small sites *)

Definition travel_pages : list (str * reply) :=
  [ (py "category/books_1/index.html", Response 200 index_page);
    travel_listing [Some (py "../../../t_1/index.html")] ].

(** The same site with one more page, outside the catalogue. *)
Definition travel_pages_and_stray : list (str * reply) :=
  (py "zzz", Response 200 (detail_page (Some (py "Stray")))) :: travel_pages.

(** ** The session of the scraper

    [self._session] holds a [ClientSession] or [None].  The sessions the
    scraper has created are kept in a heap and [_session] points into it;
    [console] holds the lines printed.

    [__init__] builds one connector when connector settings or name servers
    are given, and none otherwise, and [__aenter__] creates every session
    on it: with [None] the session makes a connector of its own, otherwise
    all the sessions share the connector of [__init__].  In aiohttp,
    [session.close()] closes the connector of the session and drops it, and
    [session.closed] is [self._connector is None or self._connector.closed]. *)

Record scraper := {
  (** [self._connector]: the connector of [__init__] with its [closed]
      flag, or [None] *)
  _connector : option bool;
  (** [self._session] *)
  _session : option nat;
  (** for each session created: has it dropped its connector? *)
  sessions : list bool;
  console : list string
}.

(** The scraper as [__init__] leaves it, with a connector or without. *)
Definition new_scraper (with_connector : bool) : scraper :=
  {| _connector := if with_connector then Some false else None;
     _session := None; sessions := []; console := [] |}.

(** The connector of [__init__] is there and closed. *)
Definition connector_closed (s : scraper) : bool :=
  default false (_connector s).

(** [session.closed], for the session at [i]. *)
Definition session_closed (s : scraper) (i : nat) : bool :=
  default true (sessions s !! i) || connector_closed s.

(** [__aenter__]: a session is created unless an open one is held. *)
Definition __aenter__ (s : scraper) : scraper :=
  let fresh :=
    {| _connector := _connector s;
       _session := Some (length (sessions s));
       sessions := sessions s ++ [false];
       console := console s |} in
  match _session s with
  | None => fresh
  | Some i => if session_closed s i then fresh else s
  end.

(** [__aexit__]: the session held is closed, and its connector with it,
    or, when it is closed already, a line is printed. *)
Definition __aexit__ (s : scraper) : scraper :=
  match _session s with
  | None => s
  | Some i =>
      if session_closed s i then
        {| _connector := _connector s;
           _session := _session s; sessions := sessions s;
           console := console s ++ ["ClientSession have already closed"%string] |}
      else
        {| _connector := (λ _, true) <$> _connector s;
           _session := _session s; sessions := <[i := true]> (sessions s);
           console := console s |}
  end.

Inductive session_call : Type := Enter | Exit.

Definition session_step (s : scraper) (c : session_call) : scraper :=
  match c with
  | Enter => __aenter__ s
  | Exit => __aexit__ s
  end.

(** The scraper after a sequence of calls on a new one. *)
Definition after_calls (with_connector : bool) (calls : list session_call) : scraper :=
  foldl session_step (new_scraper with_connector) calls.

(** The number of sessions that are open. *)
Definition open_sessions (s : scraper) : nat :=
  length (filter (λ i, session_closed s i = false) (seq 0 (length (sessions s)))).

(** The session held is in the heap, and every other session is closed. *)
Definition session_invariant (s : scraper) : Prop :=
  (∀ i, _session s = Some i → (i < length (sessions s))%nat)
  ∧ (∀ j, (j < length (sessions s))%nat → session_closed s j = false →
          _session s = Some j).

(** Every session created so far is closed. *)
Definition all_closed (s : scraper) : Prop :=
  ∀ i, (i < length (sessions s))%nat → session_closed s i = true.

(** ** [save_data]

    The table [save_data] works on: the columns, and the index column when
    [set_index] has made one. *)

Record frame := {
  frame_index : option (str * list cell);
  frame_columns : DataFrame
}.

(** [DataFrame()] *)
Definition empty_frame : frame :=
  {| frame_index := None; frame_columns := [] |}.

(** A list of records without [None] entry. *)
Fixpoint all_records (data : list (option record)) : option (list record) :=
  match data with
  | [] => Some []
  | Some r :: data' => cons r <$> all_records data'
  | None :: _ => None
  end.

(** The cell of a record in the column [label]. *)
Definition record_cell (label : str) (r : record) : cell :=
  match dict_get label r with
  | Some text => Text text
  | None => NaN
  end.

(** The labels of [DataFrame(data)]: the keys of the dicts, in the order in
    which they first appear. *)
Definition record_labels (records : list record) : list str :=
  first_occurrences (concat ((λ r : record, r.*1) <$> records)).

(** [DataFrame(data)] for a list of dicts: one column per key, one row per
    dict, a missing value where a dict lacks the key. *)
Definition frame_of_records (records : list record) : DataFrame :=
  (λ label : str, (label, record_cell label <$> records)) <$> record_labels records.

(** [df.set_index(label)] *)
Definition set_index (label : string) (df : DataFrame) : outcome frame :=
  match column (of_string label) df with
  | Some cells =>
      Returned {| frame_index := Some (of_string label, cells);
                  frame_columns :=
                    filter (λ c : str * list cell, c.1 ≠ of_string label) df |}
  | None => Raised (KeyError ("None of ['" ++ label ++ "'] are in the columns"))
  end.

(** [df[label]] *)
Definition getitem (label : string) (fr : frame) : outcome (list cell) :=
  match column (of_string label) (frame_columns fr) with
  | Some cells => Returned cells
  | None => Raised (KeyError label)
  end.

(** [df[label] = cells] *)
Definition setitem (label : str) (cells : list cell) (fr : frame) : frame :=
  {| frame_index := frame_index fr;
     frame_columns := dict_set label cells (frame_columns fr) |}.

(** [df[labels] = other]: the columns of [other] are assigned to the labels
    in order. *)
Definition setitems (other : DataFrame) (fr : frame) : frame :=
  foldl (λ fr c, setitem c.1 c.2 fr) fr other.

Section Save.

Variable base_url : str.
Variable site : str → reply.
(** What pandas makes of a list that holds [None] beside dicts; left open. *)
Variable DataFrame_of_mixed : list (option record) → outcome DataFrame.
(** [df.to_csv(path)] and [df.to_excel(path)]: they write the file, or
    raise; what they do is left open. *)
Variable to_csv : frame → option str → outcome ().
Variable to_excel : frame → option str → outcome ().

(** [DataFrame(data)] *)
Definition DataFrame_of (data : list (option record)) : outcome DataFrame :=
  match all_records data with
  | Some records => Returned (frame_of_records records)
  | None => DataFrame_of_mixed data
  end.

(** The steps of [save_data] on the table, in the order of the source, and
    the [match] on the format at the end.  The message of the last
    [ValueError] is cut before the format it quotes. *)
Definition save_table (data : list (option record)) (fmt : str) (path : option str)
    (product_name_as_index rating_as_float parse_prices parse_currency
       parse_product_availability : bool) : outcome (option frame) :=
  df ← DataFrame_of data;
  fr ← (if product_name_as_index then set_index "Product name" df
        else Returned {| frame_index := None; frame_columns := df |});
  fr ← (if rating_as_float then
          ratings ← getitem "Rating" fr;
          floats ← comprehension (λ c, q ← _convert_rating c; mret (Float q)) ratings;
          mret (setitem (py "Rating") floats fr)
        else Returned fr);
  fr ← (if parse_currency then
          currency ← _parse_currency (frame_columns fr);
          mret (setitem (py "Currency") currency fr)
        else Returned fr);
  fr ← (if parse_prices then
          prices ← _parse_prices (frame_columns fr);
          mret (setitems prices fr)
        else Returned fr);
  fr ← (if parse_product_availability then
          availability ← _parse_product_availability (frame_columns fr);
          mret (setitem (py "Availability") availability fr)
        else Returned fr);
  if decide (fmt = py "df") then Returned (Some fr)
  else if decide (fmt = py "csv") then to_csv fr path;; mret None
  else if decide (fmt = py "excel") then to_excel fr path;; mret None
  else Raised (ValueError "Unsupported format: ").

(** [save_data]: its outcome, the log of the crawl, and the line it prints
    itself when [scrape] has given no data. *)
Definition save_data (category fmt : str) (path : option str)
    (product_name_as_index rating_as_float parse_prices parse_currency
       parse_product_availability : bool) (log : list diagnostic)
    : outcome (option frame) * list diagnostic * list string :=
  match scrape base_url site category log with
  | (Raised e, log') => (Raised e, log', [])
  | (Returned None, log') | (Returned (Some []), log') =>
      (Returned (Some empty_frame), log',
       ["The scrape() method didn't return data"%string])
  | (Returned (Some data), log') =>
      (save_table data fmt path product_name_as_index rating_as_float
         parse_prices parse_currency parse_product_availability,
       log', [])
  end.

End Save.

(** The line [save_data] prints when [scrape] has given no data. *)
Definition no_data_line : string := "The scrape() method didn't return data".

(** The table after the four steps of [save_data]: the columns of [df] with
    "Rating", "Currency", the three price columns and "Availability" set. *)
Definition normalized_frame (df : DataFrame) (ratings currency : list cell)
    (prices : DataFrame) (availability : list cell) : frame :=
  {| frame_index := None;
     frame_columns :=
       dict_set (py "Availability") availability
         (dict_merge
            (dict_set (py "Currency") currency (dict_set (py "Rating") ratings df))
            prices) |}.

(** [df["Rating"].apply(self._convert_rating)] *)
Definition convert_ratings (cells : list cell) : outcome (list cell) :=
  comprehension (λ c, q ← _convert_rating c; mret (Float q)) cells.

(** A detail page with its attribute table, and the site that serves it. *)
Definition tea_page : markup :=
  {| category_anchors := []; product_anchors := []; pager_current := None;
     product_title := Some (py "Tea");
     star_rating := Some [py "star-rating"; py "Three"];
     product_table :=
       Some [ {| row_th := Some (py "UPC"); row_td := Some (py "a897fe39b1053632") |};
              {| row_th := Some (py "Price (excl. tax)");
                 row_td := Some (pound :: py "51.77") |};
              {| row_th := Some (py "Price (incl. tax)");
                 row_td := Some (pound :: py "51.77") |};
              {| row_th := Some (py "Tax"); row_td := Some (pound :: py "0.00") |};
              {| row_th := Some (py "Availability");
                 row_td := Some (py "In stock (22 available)") |} ] |}.

Definition tea_record : record :=
  [ (py "Product name", py "Tea");
    (py "URL", shop_url ++ py "t_1/index.html");
    (py "Rating", py "Three");
    (py "UPC", py "a897fe39b1053632");
    (py "Price (excl. tax)", pound :: py "51.77");
    (py "Price (incl. tax)", pound :: py "51.77");
    (py "Tax", pound :: py "0.00");
    (py "Availability", py "In stock (22 available)") ].

Definition tea_site : str → reply :=
  site_one_page [Some (py "../../../t_1/index.html")] (Response 200 tea_page).

(** Stand-ins for what [save_data] leaves to pandas. *)
Definition no_mixed_frame (data : list (option record)) : outcome DataFrame :=
  Raised (TypeError "a list with None").
Definition file_written (fr : frame) (path : option str) : outcome () :=
  Returned ().

(** * Properties *)

(** ** Characters and words *)

Lemma lower_char_variant (a c : N) :
  is_lower a = true →
  bool_decide (c = a) || bool_decide (c = a - 32) = true ↔ lower_char c = a.
Proof.
  unfold is_lower, lower_char, is_upper. intros Ha.
  apply andb_true_iff in Ha as [Ha1 Ha2].
  apply N.leb_le in Ha1, Ha2.
  rewrite orb_true_iff, !bool_decide_eq_true.
  destruct (65 <=? c) eqn:E1; destruct (c <=? 90) eqn:E2; simpl;
    try apply N.leb_le in E1; try apply N.leb_gt in E1;
    try apply N.leb_le in E2; try apply N.leb_gt in E2; lia.
Qed.

Lemma case_variant_lower (w s : str) :
  forallb is_lower w = true →
  case_variant w s = true ↔ lower s = w.
Proof.
  revert s. induction w as [|a w IH]; intros [|c s] Hw; simpl in *;
    try (split; [discriminate | discriminate || congruence]); [done |].
  apply andb_true_iff in Hw as [Ha Hw].
  rewrite andb_true_iff, (lower_char_variant a c Ha), (IH s Hw).
  unfold lower. simpl. split; [intros [-> ->]; done | intros [= -> ->]; done].
Qed.

(** ** Rating *)

(** C7: each of the words one, two, three, four, five, its letters in any
    case, converts to 1.0, 2.0, 3.0, 4.0, 5.0; every other text raises the
    [ValueError] "Rating must be parsable". *)
Theorem convert_rating_words (s : str) :
  (case_variant (py "one") s = true → _convert_rating (Text s) = Returned 1%Q) ∧
  (case_variant (py "two") s = true → _convert_rating (Text s) = Returned 2%Q) ∧
  (case_variant (py "three") s = true → _convert_rating (Text s) = Returned 3%Q) ∧
  (case_variant (py "four") s = true → _convert_rating (Text s) = Returned 4%Q) ∧
  (case_variant (py "five") s = true → _convert_rating (Text s) = Returned 5%Q) ∧
  (existsb (λ w, case_variant w s) rating_words = false →
   _convert_rating (Text s) = Raised (ValueError "Rating must be parsable")).
Proof.
  repeat split; intros H.
  1-5: apply case_variant_lower in H; [| reflexivity];
       unfold _convert_rating; rewrite H; reflexivity.
  assert (Hno : ∀ w, In w rating_words → lower s ≠ w).
  { intros w Hin E.
    assert (Hw : forallb is_lower w = true).
    { unfold rating_words in Hin.
      repeat (destruct Hin as [<-|Hin]; [reflexivity |]). destruct Hin. }
    apply (case_variant_lower w s Hw) in E.
    assert (existsb (λ w, case_variant w s) rating_words = true); [| congruence].
    apply existsb_exists. eauto. }
  unfold _convert_rating.
  repeat match goal with
  | |- context [decide (lower s = ?w)] =>
      destruct (decide (lower s = w)) as [E|_];
      [exfalso; apply (Hno w); [| exact E]; unfold rating_words;
       repeat first [left; reflexivity | right] |]
  end.
  reflexivity.
Qed.

Lemma convert_rating_words_witness :
  _convert_rating (Text (py "FiVe")) = Returned 5%Q ∧
  _convert_rating (Text (py "ONE")) = Returned 1%Q ∧
  _convert_rating (Text (py "six")) = Raised (ValueError "Rating must be parsable").
Proof.
  split; [| split].
  - apply (convert_rating_words (py "FiVe")). reflexivity.
  - apply (convert_rating_words (py "ONE")). reflexivity.
  - apply (convert_rating_words (py "six")). reflexivity.
Defined.

(** ** Dictionaries *)

Section dict_facts.
Context {A K V : Type} `{EqDecision A} `{EqDecision K}.
Variable key : A → K.
Variable val : A → V.
Hypothesis key_inj : ∀ x y, key x = key y → x = y.

Local Abbreviation entry := (entry_of key val).

Lemma dict_set_entries (x : A) (l : list A) :
  dict_set (key x) (val x) (entry <$> l)
  = entry <$> (if decide (x ∈ l) then l else l ++ [x]).
Proof.
  induction l as [|y l IH].
  { destruct (decide (x ∈ [])) as [Hin|_]; [by apply elem_of_nil in Hin | done]. }
  rewrite fmap_cons.
  change (dict_set (key x) (val x) (entry y :: (entry <$> l)))
    with (if decide (key x = key y) then entry x :: (entry <$> l)
          else entry y :: dict_set (key x) (val x) (entry <$> l)).
  destruct (decide (key x = key y)) as [E|N].
  - apply key_inj in E as ->.
    rewrite decide_True by apply list_elem_of_here. done.
  - rewrite IH. destruct (decide (x ∈ l)) as [Hin|Hin].
    + rewrite decide_True by (by apply list_elem_of_further). done.
    + rewrite decide_False; [done |].
      intros Hc. apply elem_of_cons in Hc as [->|Hc]; [by apply N | by apply Hin].
Qed.

Lemma dict_fold_entries (xs l : list A) :
  foldl (λ d x, dict_set (key x) (val x) d) (entry <$> l) xs
  = entry <$> (l ++ filter (λ y, y ∉ l) (first_occurrences xs)).
Proof.
  revert l. induction xs as [|x xs IH]; intros l; simpl.
  { by rewrite app_nil_r. }
  rewrite dict_set_entries. destruct (decide (x ∈ l)) as [Hin|Hin].
  - rewrite IH, filter_cons_False by (intros ?; done).
    rewrite list_filter_filter_l; [done |].
    intros y Hy ->. by apply Hy.
  - rewrite IH, filter_cons_True by done.
    rewrite <- app_assoc. simpl. do 3 f_equal.
    rewrite list_filter_filter. apply list_filter_iff.
    intros y. rewrite elem_of_app, list_elem_of_singleton. tauto.
Qed.

(** A dict built by comprehension holds one entry per distinct element, at
    the place of its first occurrence. *)
Lemma dict_comprehension_entries (xs : list A) :
  dict_comprehension key val xs = entry <$> first_occurrences xs.
Proof.
  unfold dict_comprehension.
  change (@nil (K * V)) with (entry <$> []).
  rewrite (dict_fold_entries xs []). rewrite app_nil_l.
  f_equal. induction (first_occurrences xs) as [|y l IH]; [done |].
  rewrite filter_cons_True by apply not_elem_of_nil. by rewrite IH.
Qed.

End dict_facts.

Lemma elem_of_first_occurrences {K} `{EqDecision K} (l : list K) (k : K) :
  k ∈ first_occurrences l ↔ k ∈ l.
Proof.
  induction l as [|x l IH]; simpl; [done |].
  rewrite !elem_of_cons, list_elem_of_filter, IH.
  destruct (decide (k = x)); tauto.
Qed.

Lemma NoDup_first_occurrences {K} `{EqDecision K} (l : list K) :
  NoDup (first_occurrences l).
Proof.
  induction l as [|x l IH]; simpl; [constructor |].
  constructor; [| by apply NoDup_filter].
  rewrite list_elem_of_filter. intros [Hx _]. by apply Hx.
Qed.

Lemma length_first_occurrences {K} `{EqDecision K} (l : list K) :
  (length (first_occurrences l) ≤ length l)%nat.
Proof.
  induction l as [|x l IH]; simpl; [lia |].
  pose proof (length_filter (λ k', k' ≠ x) (first_occurrences l)). lia.
Qed.

(** ** Coroutines and task groups *)

Lemma print_all_run (lines log : list diagnostic) :
  print_all lines log = (Returned (), log ++ lines).
Proof.
  revert log. induction lines as [|d lines IH]; intros log; simpl.
  - by rewrite app_nil_r.
  - unfold mbind, coroutine_bind, print. rewrite IH, <- app_assoc. done.
Qed.

Lemma TaskGroup_all_returned {A} (tasks : list (outcome A)) (results : list A) :
  Forall2 (λ t a, t = Returned a) tasks results → TaskGroup tasks = inl results.
Proof.
  intros H. unfold TaskGroup.
  assert (raised_of tasks = [] ∧ results_of tasks = results) as [-> ->]; [| done].
  induction H as [|t a tasks results -> _ [IH1 IH2]]; [done |].
  change (raised_of (Returned a :: tasks)) with (raised_of tasks).
  change (results_of (Returned a :: tasks)) with (a :: results_of tasks).
  by rewrite IH1, IH2.
Qed.

Lemma elem_of_raised_of {A} (tasks : list (outcome A)) (e : exn) :
  e ∈ raised_of tasks ↔ Raised e ∈ tasks.
Proof.
  unfold raised_of. rewrite list_elem_of_omap. split.
  - intros ([a|e'] & Hin & Heq); [done |]. by injection Heq as ->.
  - intros Hin. by exists (Raised e).
Qed.

Lemma TaskGroup_some_raised {A} (tasks : list (outcome A)) (e : exn) :
  Raised e ∈ tasks →
  ∃ group, TaskGroup tasks = inr group ∧ group ≠ []
           ∧ Forall (λ e', Raised e' ∈ tasks) group.
Proof.
  intros Hin. apply elem_of_raised_of in Hin. unfold TaskGroup.
  destruct (raised_of tasks) as [|e0 group] eqn:E.
  { by apply elem_of_nil in Hin. }
  exists (e0 :: group). split; [done |]. split; [done |].
  rewrite <- E. apply Forall_forall. intros e'. apply elem_of_raised_of.
Qed.

Lemma TaskGroup_inl_inv {A} (tasks : list (outcome A)) (results : list A) :
  TaskGroup tasks = inl results → tasks = Returned <$> results.
Proof.
  unfold TaskGroup. destruct (raised_of tasks) eqn:E; [| done].
  intros [= <-]. induction tasks as [|[a|e] tasks IH]; [done | |].
  - change (results_of (Returned a :: tasks)) with (a :: results_of tasks).
    rewrite fmap_cons. f_equal. by apply IH.
  - done.
Qed.

(** A group of request failures is taken whole by the first clause. *)
Lemma cohort_handlers_client_errors (group : list exn) :
  group ≠ [] → Forall (λ e, is_ClientError e = true) group →
  cohort_handlers group = [HttpErrorLine].
Proof.
  intros Hne Hall. unfold cohort_handlers, except_star.
  assert (filter (λ e, is_ClientError e = true) group = group) as ->.
  { clear Hne. induction Hall as [|e l He _ IH]; [done |].
    by rewrite filter_cons_True, IH. }
  assert (filter (λ e, is_ClientError e ≠ true) group = []) as ->.
  { clear Hne. induction Hall as [|e l He _ IH]; [done |].
    by rewrite filter_cons_False by (intros ?; done). }
  rewrite decide_False by done. done.
Qed.

Lemma existsb_eq {A} (f g : A → bool) (l : list A) :
  (∀ x, f x = g x) → existsb f l = existsb g l.
Proof. intros H. induction l as [|x l IH]; [done |]. simpl. by rewrite H, IH. Qed.

Lemma existsb_filter {A} (f : A → bool) (P : A → Prop) `{∀ x, Decision (P x)}
    (l : list A) :
  existsb f (filter P l) = existsb (λ x, bool_decide (P x) && f x) l.
Proof.
  induction l as [|x l IH]; [done |]. rewrite filter_cons. cbn [existsb].
  destruct (decide (P x)).
  - rewrite bool_decide_eq_true_2 by done. simpl. by rewrite IH.
  - rewrite bool_decide_eq_false_2 by done. simpl. by rewrite IH.
Qed.

Lemma except_star_spec (is_instance : exn → bool) (line : diagnostic)
    (group : list exn) :
  except_star is_instance line group
  = (if existsb is_instance group then [line] else [],
     filter (λ e, is_instance e ≠ true) group).
Proof.
  unfold except_star. f_equal.
  destruct (existsb is_instance group) eqn:Ex.
  - apply existsb_exists in Ex as (e & Hin & He).
    rewrite decide_False; [done |]. intros E.
    assert (e ∈ filter (λ e, is_instance e = true) group) as H.
    { apply list_elem_of_filter. split; [done | by apply list_elem_of_In]. }
    rewrite E in H. by apply elem_of_nil in H.
  - rewrite decide_True; [done |].
    destruct (filter (λ e, is_instance e = true) group) as [|x l] eqn:E; [done |].
    assert (x ∈ filter (λ e, is_instance e = true) group) as H
      by (rewrite E; apply list_elem_of_here).
    apply list_elem_of_filter in H as [Hx Hin].
    assert (existsb is_instance group = true); [| congruence].
    apply existsb_exists. exists x. split; [by apply list_elem_of_In | done].
Qed.

(** The lines of the clauses, read off the classes in the group. *)
Lemma cohort_handlers_eq (group : list exn) :
  cohort_handlers group
  = (if existsb is_ClientError group then [HttpErrorLine] else [])
    ++ (if existsb is_parsing_error group then [ParsingErrorLine] else [])
    ++ (if existsb (λ e, negb (is_ClientError e) && negb (is_parsing_error e)) group
        then [OtherErrorLine] else []).
Proof.
  unfold cohort_handlers. rewrite !except_star_spec, !existsb_filter.
  match goal with
  | |- (if _ then _ else _) ++ (if ?b then _ else _) ++ (if ?c then _ else _)
       ++ (if ?d then _ else _) = _ =>
      assert (Hb : b = false);
      [| assert (Hc : c = existsb is_parsing_error group);
         [| assert (Hd : d = existsb (λ e, negb (is_ClientError e)
                                            && negb (is_parsing_error e)) group);
            [| by rewrite Hb, Hc, Hd]]]
  end.
  - induction group as [|e group IH]; [done |]. cbn [existsb]. rewrite IH.
    by destruct e.
  - apply existsb_eq. intros e. by destruct e.
  - apply existsb_eq. intros e. by destruct e.
Qed.

Lemma existsb_false_Forall {A} (f : A → bool) (l : list A) :
  existsb f l = false ↔ Forall (λ x, f x = false) l.
Proof.
  induction l as [|x l IH]; [by split |]. cbn [existsb].
  rewrite orb_false_iff, Forall_cons, IH. done.
Qed.

Section crawl_facts.
Variable base_url : str.
Variable site : str → reply.

(** A request fails with a client error or with the [TimeoutError] of the
    total timeout. *)
Lemma request_raises (path : str) (e : exn) :
  _request_to_page site path = Raised e →
  is_ClientError e = true ∨ e = TimeoutError.
Proof.
  unfold _request_to_page. destruct (site path) as [status body| |].
  - case_decide; [intros [= <-]; by left | done].
  - intros [= <-]. by left.
  - intros [= <-]. by right.
Qed.

Lemma failures_of_requests (paths : list str) :
  Forall (λ e, is_ClientError e = true ∨ e = TimeoutError) (failures_of site paths).
Proof.
  apply Forall_forall. intros e He.
  apply elem_of_raised_of, list_elem_of_fmap in He as (p & He & _).
  by apply (request_raises p).
Qed.

Lemma TaskGroup_inr_inv {A} (tasks : list (outcome A)) (group : list exn) :
  TaskGroup tasks = inr group → group = raised_of tasks ∧ group ≠ [].
Proof.
  unfold TaskGroup. destruct (raised_of tasks) as [|e l]; [done |].
  by intros [= <-].
Qed.

(** What a cohort prints when requests of it have failed. *)
Lemma cohort_handlers_requests (paths : list str) (group : list exn) :
  TaskGroup (_request_to_page site <$> paths) = inr group →
  failure_lines (failures_of site paths) (cohort_handlers group).
Proof.
  intros [-> Hne]%TaskGroup_inr_inv. fold (failures_of site paths) in *.
  pose proof (failures_of_requests paths) as Hall.
  rewrite cohort_handlers_eq.
  assert (existsb is_parsing_error (failures_of site paths) = false) as ->.
  { apply existsb_false_Forall. eapply Forall_impl; [exact Hall |].
    intros e [He| ->]; [by destruct e | done]. }
  cbn [app].
  destruct (existsb is_ClientError (failures_of site paths)) eqn:E1;
    destruct (existsb (λ e, negb (is_ClientError e) && negb (is_parsing_error e))
                      (failures_of site paths)) eqn:E2; cbn [app].
  - split; [| split].
    + apply list_elem_of_In. simpl. auto.
    + intros H. apply existsb_exists in E2 as (e & He & He2).
      rewrite Forall_forall in H. apply list_elem_of_In in He.
      rewrite (H e He) in He2. done.
    + intros H. apply existsb_exists in E1 as (e & He & He1).
      rewrite Forall_forall in H. apply list_elem_of_In in He.
      rewrite (H e He) in He1. done.
  - split; [| split].
    + apply list_elem_of_In. simpl. auto.
    + done.
    + intros H. apply existsb_exists in E1 as (e & He & He1).
      rewrite Forall_forall in H. apply list_elem_of_In in He.
      rewrite (H e He) in He1. done.
  - split; [| split].
    + apply list_elem_of_In. simpl. auto.
    + intros H. apply existsb_exists in E2 as (e & He & He2).
      rewrite Forall_forall in H. apply list_elem_of_In in He.
      rewrite (H e He) in He2. done.
    + done.
  - exfalso. destruct (failures_of site paths) as [|e l]; [done |].
    cbn [existsb] in E1, E2. apply orb_false_iff in E1 as [E1 _].
    apply orb_false_iff in E2 as [E2 _].
    apply Forall_cons in Hall as [[He| ->] _]; [congruence | done].
Qed.

(** Where [_collect_paths] stands once it has the first page, its paths and
    the range of the pages left. *)
Lemma collect_paths_after_first_page
    (category : str) (index : markup) (path : str) (markup : markup)
    (first : list str) (page_count : list nat) (log : list diagnostic) :
  _request_to_page site index_path = Returned index →
  _parse_category_paths index !! lower category = Some path →
  path ≠ [] →
  _request_to_page site (listing_path path) = Returned markup →
  _parse_product_paths markup = Returned first →
  _get_page_count markup = Returned page_count →
  _collect_paths site category log =
    if decide (page_count = []) then (Returned first, log ++ no_paths_line first)
    else
      match TaskGroup ((λ n, _request_to_page site (page_path path n)) <$> page_count) with
      | inr group =>
          (Returned first, (log ++ cohort_handlers group) ++ no_paths_line first)
      | inl bodies =>
          match extend_each first bodies with
          | Returned results => (Returned results, log ++ no_paths_line results)
          | Raised e => (Raised e, log)
          end
      end.
Proof.
  intros Hindex Hcat Hpath Hlisting Hfirst Hcount.
  unfold _collect_paths, mbind, coroutine_bind, call.
  rewrite Hindex. cbv beta iota. rewrite Hcat, decide_False by done.
  rewrite Hlisting. cbv beta iota. rewrite Hfirst. cbv beta iota.
  rewrite Hcount. cbv beta iota.
  assert (Hend : ∀ results log',
    (let (o, log'') :=
       (if decide (results = []) then print NoPathsLine else mret ()) log' in
     match o with
     | Returned _ => @mret coroutine _ _ results log''
     | Raised e => (Raised e, log'')
     end) = (Returned results, log' ++ no_paths_line results)).
  { intros results log'. unfold no_paths_line.
    destruct (decide (results = [])); simpl; [done |].
    unfold mret, coroutine_ret. by rewrite app_nil_r. }
  destruct (decide (page_count = [])).
  { unfold mret at 1, coroutine_ret at 1. apply Hend. }
  destruct (TaskGroup _) as [bodies|group].
  - destruct (extend_each first bodies); [apply Hend | done].
  - rewrite print_all_run. unfold mret at 1, coroutine_ret at 1. apply Hend.
Qed.

End crawl_facts.



(** ** The pagination cohort *)



(** ** The detail cohort *)

Lemma comprehension_returns {A B} (f : A → outcome B) (xs : list A) (ys : list B) :
  Forall2 (λ x y, f x = Returned y) xs ys → comprehension f xs = Returned ys.
Proof.
  induction 1 as [|x y xs ys Hx _ IH]; simpl; [done |].
  by rewrite Hx, IH.
Qed.



Section scrape_facts.
Variable base_url : str.
Variable site : str → reply.

(** Where [scrape] stands once [_collect_paths] has returned paths. *)
Lemma scrape_after_paths (category : str) (paths : list str)
    (log log' : list diagnostic) :
  _collect_paths site category log = (Returned paths, log') →
  paths ≠ [] →
  scrape base_url site category log =
    match TaskGroup (detail_tasks site paths) with
    | inr group => (Returned None, log' ++ cohort_handlers group)
    | inl _ =>
        match comprehension (record_of_path base_url site) (first_occurrences paths) with
        | Returned records => (Returned (Some records), log')
        | Raised e => (Raised e, log')
        end
    end.
Proof.
  intros Hpaths Hne. unfold scrape, mbind at 1, coroutine_bind at 1.
  rewrite Hpaths, decide_False by done.
  destruct (TaskGroup _) as [bodies|group].
  - unfold mbind, coroutine_bind, call.
    rewrite (dict_comprehension_entries (λ path, base_url ++ path)
               (_request_to_page site)) by (intros x y; apply app_inv_head).
    assert (∀ l : list str,
      comprehension (λ item : str * outcome markup,
                       body ← item.2; _parse_product_info body item.1)
                    (entry_of (λ path, base_url ++ path) (_request_to_page site) <$> l)
      = comprehension (record_of_path base_url site) l) as ->.
    { induction l as [|x l IH]; [done |]. rewrite fmap_cons. simpl. by rewrite IH. }
    by destruct (comprehension (record_of_path base_url site) _).
  - unfold mbind, coroutine_bind. by rewrite print_all_run.
Qed.

End scrape_facts.

(** ** Failures of cohort members *)




Lemma first_occurrences_NoDup {K} `{EqDecision K} (l : list K) :
  NoDup l → first_occurrences l = l.
Proof.
  induction 1 as [|x l Hx _ IH]; simpl; [done |].
  rewrite IH. f_equal. clear IH.
  induction l as [|y l IH]; [done |].
  apply not_elem_of_cons in Hx as [Hxy Hx].
  rewrite filter_cons_True by done. by rewrite IH.
Qed.

Lemma first_occurrences_length_NoDup {K} `{EqDecision K} (l : list K) :
  length (first_occurrences l) = length l ↔ NoDup l.
Proof.
  split; [| by intros ->%first_occurrences_NoDup].
  induction l as [|x l IH]; simpl; [constructor |].
  intros Hlen.
  pose proof (length_first_occurrences l) as H1.
  pose proof (length_filter (λ k', k' ≠ x) (first_occurrences l)) as H2.
  constructor; [| apply IH; lia].
  intros Hx. apply elem_of_first_occurrences in Hx.
  pose proof (length_filter_lt (λ k', k' ≠ x) (first_occurrences l) x Hx) as H3.
  assert (¬ x ≠ x) as H4 by (intros ?; done). specialize (H3 H4). lia.
Qed.

Lemma TaskGroup_requests_returned (site : str → reply) (paths : list str) :
  Forall (λ p, ∃ body, _request_to_page site p = Returned body) paths →
  ∃ bodies, TaskGroup (detail_tasks site paths) = inl bodies.
Proof.
  intros Hall.
  assert (∃ bodies, Forall2 (λ t b, t = Returned b)
                            (detail_tasks site paths) bodies)
    as [bodies Hb].
  { induction Hall as [|p paths [body Hp] _ [bodies IH]].
    - exists []. constructor.
    - exists (body :: bodies). unfold detail_tasks in *. rewrite fmap_cons.
      by constructor. }
  exists bodies. by apply TaskGroup_all_returned.
Qed.

(** The records of a successful detail cohort. *)
Lemma scrape_records (base_url : str) (site : str → reply) (category : str)
    (log log' : list diagnostic) (paths : list str)
    (records : list (option record)) :
  _collect_paths site category log = (Returned paths, log') →
  paths ≠ [] →
  Forall2 (λ path r, ∃ body,
             _request_to_page site path = Returned body
             ∧ _parse_product_info body (base_url ++ path) = Returned r)
          (first_occurrences paths) records →
  scrape base_url site category log = (Returned (Some records), log').
Proof.
  intros Hpaths Hne Hall.
  rewrite (scrape_after_paths base_url site category paths log log' Hpaths Hne).
  destruct (TaskGroup_requests_returned site paths) as [bodies ->].
  { apply Forall_forall. intros p Hp.
    apply elem_of_first_occurrences in Hp.
    destruct (proj1 (list_elem_of_lookup _ _) Hp) as [i Hi].
    destruct (Forall2_lookup_l _ _ _ _ _ Hall Hi) as (r & _ & body & Hbody & _).
    by exists body. }
  rewrite (comprehension_returns _ _ records); [done |].
  eapply Forall2_impl; [exact Hall |].
  intros p r (body & Hbody & Hr). unfold record_of_path. by rewrite Hbody.
Qed.

(** C5, as the code has it: the detail cohort has one task per path, and
    [scrape] keeps the tasks in a dict keyed by URL, so on total cohort
    success it yields one record per DISTINCT path, in the order of the
    first occurrences; there are as many records as paths exactly when no
    path is repeated. *)
Theorem scrape_one_record_per_distinct_path
    (base_url : str) (site : str → reply) (category : str)
    (log log' : list diagnostic) (paths : list str)
    (records : list (option record)) :
  _collect_paths site category log = (Returned paths, log') →
  paths ≠ [] →
  Forall2 (λ path r, ∃ body,
             _request_to_page site path = Returned body
             ∧ _parse_product_info body (base_url ++ path) = Returned r)
          (first_occurrences paths) records →
  length (detail_tasks site paths) = length paths
  ∧ scrape base_url site category log = (Returned (Some records), log')
  ∧ length records = length (first_occurrences paths)
  ∧ (length records ≤ length paths)%nat
  ∧ (length records = length paths ↔ NoDup paths).
Proof.
  intros Hpaths Hne Hall.
  pose proof (Forall2_length _ _ _ Hall) as Hlen.
  split; [apply length_fmap |].
  split; [by eapply scrape_records |].
  split; [done |]. rewrite <- Hlen.
  split; [apply length_first_occurrences | apply first_occurrences_length_NoDup].
Qed.

Lemma scrape_one_record_per_distinct_path_witness :
  scrape shop_url
    (site_one_page [Some (py "../../../t_1/index.html");
                    Some (py "../../../t_1/index.html")]
       (Response 200 (detail_page (Some (py "Tea")))))
    (py "travel") []
  = (Returned (Some [Some (base_record (py "Tea")
                             (shop_url ++ py "t_1/index.html") (py "Three"))]),
     []).
Proof.
  refine (proj1 (proj2 (scrape_one_record_per_distinct_path shop_url _ (py "travel") [] []
                   [py "t_1/index.html"; py "t_1/index.html"] _ _ _ _)));
    try reflexivity; try discriminate.
  repeat constructor. eexists. split; reflexivity.
Defined.

(** C5 as stated fails: the listing shows the same product twice, the
    crawl returns two paths, and [scrape] yields one record. *)
Lemma scrape_collapses_duplicate_paths :
  let site := site_one_page [Some (py "../../../t_1/index.html");
                             Some (py "../../../t_1/index.html")]
                (Response 200 (detail_page (Some (py "Tea")))) in
  ∃ records,
    outcome_of (_collect_paths site (py "travel")) []
      = Returned [py "t_1/index.html"; py "t_1/index.html"]
    ∧ outcome_of (scrape shop_url site (py "travel")) [] = Returned (Some records)
    ∧ length records = 1%nat.
Proof. cbv zeta. eexists. split; [| split]; reflexivity. Qed.

(** ** Products without a title text *)

(** C9: a detail page whose title element is there with an empty text
    makes [_parse_product_info] return [None], without raising; so the list
    [scrape] returns after a successful cohort has a [None] entry for the
    path of such a page. *)
Theorem parse_product_info_empty_title
    (base_url : str) (site : str → reply) (category : str)
    (log log' : list diagnostic) (paths : list str)
    (records : list (option record)) (p : str) (m : markup) :
  product_title m = Some [] →
  (∀ url, _parse_product_info m url = Returned None)
  ∧ (_collect_paths site category log = (Returned paths, log') →
     Forall2 (λ path r, ∃ body,
                _request_to_page site path = Returned body
                ∧ _parse_product_info body (base_url ++ path) = Returned r)
             (first_occurrences paths) records →
     p ∈ paths →
     _request_to_page site p = Returned m →
     scrape base_url site category log = (Returned (Some records), log')
     ∧ None ∈ records).
Proof.
  intros Htitle.
  assert (Hnone : ∀ url, _parse_product_info m url = Returned None).
  { intros url. unfold _parse_product_info. rewrite Htitle. done. }
  split; [exact Hnone |].
  intros Hpaths Hall Hp Hm.
  split.
  { eapply scrape_records; [done | | done].
    intros ->. by apply elem_of_nil in Hp. }
  apply elem_of_first_occurrences in Hp.
  destruct (proj1 (list_elem_of_lookup _ _) Hp) as [i Hi].
  destruct (Forall2_lookup_l _ _ _ _ _ Hall Hi) as (r & Hr & body & Hbody & Hparse).
  rewrite Hm in Hbody. injection Hbody as <-.
  rewrite Hnone in Hparse. injection Hparse as <-.
  apply list_elem_of_lookup. eauto.
Qed.

Lemma parse_product_info_empty_title_witness :
  (∀ url, _parse_product_info (detail_page (Some [])) url = Returned None)
  ∧ scrape shop_url
      (site_one_page [Some (py "../../../t_1/index.html")]
         (Response 200 (detail_page (Some []))))
      (py "Travel") []
    = (Returned (Some [None]), [])
  ∧ None ∈ [@None record].
Proof.
  pose proof (parse_product_info_empty_title shop_url
                (site_one_page [Some (py "../../../t_1/index.html")]
                   (Response 200 (detail_page (Some []))))
                (py "Travel") [] [] [py "t_1/index.html"] [None]
                (py "t_1/index.html") (detail_page (Some [])) eq_refl) as [H1 H2].
  split; [exact H1 |]. apply H2; try reflexivity.
  - repeat constructor. eexists. split; reflexivity.
  - apply list_elem_of_here.
Defined.

(** ** Category lookup *)

Lemma category_fold_lookup_ne (d : gmap str str) (l : list category_anchor) (k : str) :
  Forall (λ a, lower (anchor_text a) ≠ k) l →
  foldl (λ d a, <[lower (anchor_text a) := slice 3 11 (anchor_href a)]> d) d l !! k
  = d !! k.
Proof.
  intros H. revert d. induction H as [|a l Ha _ IH]; intros d; simpl; [done |].
  rewrite IH. by apply lookup_insert_ne.
Qed.


(** The entry of a key is made from the last anchor with that text. *)
Lemma parse_category_paths_last (m : markup) (before after : list category_anchor)
    (a : category_anchor) :
  category_anchors m = before ++ a :: after →
  Forall (λ b, lower (anchor_text b) ≠ lower (anchor_text a)) after →
  _parse_category_paths m !! lower (anchor_text a) = Some (slice 3 11 (anchor_href a)).
Proof.
  intros Hm Hafter. unfold _parse_category_paths.
  rewrite Hm, foldl_app. simpl.
  rewrite category_fold_lookup_ne by done. apply lookup_insert_eq.
Qed.

Lemma collect_paths_absent (site : str → reply) (index : markup) (category : str)
    (log : list diagnostic) :
  _request_to_page site index_path = Returned index →
  _parse_category_paths index !! lower category = None →
  _collect_paths site category log
  = (Raised (ValueError "Not found the category: None"), log).
Proof.
  intros Hindex Hcat. unfold _collect_paths, mbind, coroutine_bind, call.
  rewrite Hindex. cbv beta iota. by rewrite Hcat.
Qed.

Lemma drop_app_length' {A} (a b : list A) (n : nat) :
  length a = n → drop n (a ++ b) = b.
Proof. intros <-. apply drop_app_length. Qed.








(** C10: when the lowered name is a key of the map and its path is the
    empty string, the crawl stops where it stops for an absent name, with
    the [ValueError] of the same [raise] statement and the log untouched;
    the path of an anchor is empty as soon as its [href] has at most the 14
    characters that [[3:-11]] cuts off. *)
Theorem empty_category_path_is_not_found
    (site : str → reply) (index : markup) (category : str)
    (log : list diagnostic) :
  _request_to_page site index_path = Returned index →
  _parse_category_paths index !! lower category = Some [] →
  (∃ e, _collect_paths site category log = (Raised e, log)
        ∧ e = ValueError "Not found the category: "
        ∧ is_category_not_found e = true)
  ∧ (∀ absent, _parse_category_paths index !! lower absent = None →
       ∃ e, _collect_paths site absent log = (Raised e, log)
            ∧ is_category_not_found e = true)
  ∧ (∀ before a after,
       category_anchors index = before ++ a :: after →
       Forall (λ b, lower (anchor_text b) ≠ lower (anchor_text a)) after →
       (length (anchor_href a) ≤ 14)%nat →
       _parse_category_paths index !! lower (anchor_text a) = Some []).
Proof.
  intros Hindex Hcat. split; [| split].
  - exists (ValueError "Not found the category: ").
    split; [| split; reflexivity].
    unfold _collect_paths, mbind, coroutine_bind, call.
    rewrite Hindex. cbv beta iota. by rewrite Hcat.
  - intros absent Habsent. exists (ValueError "Not found the category: None").
    split; [| reflexivity].
    by apply (collect_paths_absent site index).
  - intros before a after Hanchors Hafter Hlen.
    rewrite (parse_category_paths_last index before after a) by done.
    f_equal. unfold slice.
    replace (length (anchor_href a) - 11 - 3)%nat with 0%nat by lia. done.
Qed.

Lemma empty_category_path_is_not_found_witness :
  _collect_paths (site_three_pages NoReply) (py "BROKEN") []
    = (Raised (ValueError "Not found the category: "), [])
  ∧ _parse_category_paths index_page !! lower (py "Broken") = Some [].
Proof.
  destruct (empty_category_path_is_not_found (site_three_pages NoReply) index_page
              (py "BROKEN") [] eq_refl eq_refl) as ((e & H1 & -> & _) & _ & H3).
  split; [exact H1 |].
  refine (H3 (take 3 (category_anchors index_page))
             {| anchor_text := py "Broken"; anchor_href := py "../books/x/" |}
             [] eq_refl _ _).
  - constructor.
  - vm_compute. lia.
Defined.

(** ** Page count *)

Lemma get_page_count_no_pager (m : markup) :
  pager_current m = None → _get_page_count m = Returned [].
Proof. intros H. unfold _get_page_count. by rewrite H. Qed.

(** Only the last character of the pager's text is read. *)
Lemma get_page_count_last_char (m : markup) (text : str) (c : N) :
  pager_current m = Some (text ++ [c]) →
  _get_page_count m =
    if is_digit c then Returned (seq 2 (N.to_nat (c - 48) - 1))
    else Raised (ValueError "invalid literal for int() with base 10").
Proof.
  intros H. unfold _get_page_count. rewrite H, last_snoc.
  unfold int_of_char. destruct (is_digit c); [| done].
  simpl. unfold range. do 2 f_equal. lia.
Qed.

(** C4 at a pager of two digits: of "Page 1 of 12" the code reads "2", so
    the range of the remaining pages is page 2 alone, and the crawl returns
    the paths of pages 1 and 2 although page 3 is served. *)
Theorem page_count_of_twelve_pages :
  _get_page_count (page_with_pager (py "Page 1 of 12")) = Returned [2%nat]
  ∧ outcome_of (_collect_paths site_twelve_pages (py "Default")) []
    = Returned [py "a_1/index.html"; py "b_2/index.html"]
  ∧ _request_to_page site_twelve_pages (page_path (py "books/default_15") 3)
    = Returned (listing_page (Some (py "Page 3 of 12"))
                  [Some (py "../../../c_3/index.html")]).
Proof. split; [| split]; reflexivity. Qed.

(** ** Currency *)











(** ** Prices *)

Lemma isna_replace_price_cell (c : cell) : isna (replace_price_cell c) = isna c.
Proof. by destruct c. Qed.

Lemma existsb_isna (cells : list cell) :
  existsb isna (replace_price_cell <$> cells) = true ↔ NaN ∈ cells.
Proof.
  rewrite existsb_exists. split.
  - intros (c & Hc & Hna). apply list_elem_of_In, list_elem_of_fmap in Hc
      as (c' & -> & Hc'). rewrite isna_replace_price_cell in Hna.
    by destruct c'.
  - intros H. exists NaN. split; [| done].
    apply list_elem_of_In, list_elem_of_fmap. by exists NaN.
Qed.

Lemma astype_float_not_nan (c : cell) (q : Q) :
  astype_float (replace_price_cell c) = Returned (Float q) → c ≠ NaN.
Proof. by intros H ->. Qed.

Lemma parse_prices_selected (df : DataFrame) (excl incl tax : list cell) :
  column (py "Price (excl. tax)") df = Some excl →
  column (py "Price (incl. tax)") df = Some incl →
  column (py "Tax") df = Some tax →
  _parse_prices df =
    let extracted := price_frame (replace_price_cell <$> excl)
                       (replace_price_cell <$> incl) (replace_price_cell <$> tax) in
    if existsb (λ c : str * list cell, existsb isna c.2) extracted then
      Returned extracted
    else
      comprehension (λ c : str * list cell,
                       cells ← comprehension astype_float c.2; mret (c.1, cells))
                    extracted.
Proof.
  intros H1 H2 H3. unfold _parse_prices, select_columns, price_columns.
  cbn [forallb comprehension]. rewrite H1, H2, H3. done.
Qed.

(** The test that decides between the two returns of [_parse_prices] is
    [isna()].  When a cell of the three columns is missing, the columns
    are returned unconverted, their text cells holding the text left by the
    two substitutions (not the original text); when no cell is missing and
    every cell converts, the three columns are returned as floats. *)
Theorem parse_prices_all_or_nothing (df : DataFrame) (excl incl tax : list cell) :
  column (py "Price (excl. tax)") df = Some excl →
  column (py "Price (incl. tax)") df = Some incl →
  column (py "Tax") df = Some tax →
  (NaN ∈ excl ++ incl ++ tax →
   _parse_prices df =
     Returned (price_frame (replace_price_cell <$> excl)
                 (replace_price_cell <$> incl) (replace_price_cell <$> tax)))
  ∧ (∀ qexcl qincl qtax : list Q,
       Forall2 (λ c q, astype_float (replace_price_cell c) = Returned (Float q))
               excl qexcl →
       Forall2 (λ c q, astype_float (replace_price_cell c) = Returned (Float q))
               incl qincl →
       Forall2 (λ c q, astype_float (replace_price_cell c) = Returned (Float q))
               tax qtax →
       _parse_prices df =
         Returned (price_frame (Float <$> qexcl) (Float <$> qincl) (Float <$> qtax))).
Proof.
  intros H1 H2 H3.
  rewrite (parse_prices_selected df excl incl tax H1 H2 H3). cbv zeta.
  unfold price_frame. cbn [existsb snd fst].
  split.
  - intros Hnan. rewrite !elem_of_app in Hnan.
    rewrite <- !existsb_isna in Hnan.
    destruct (existsb isna (replace_price_cell <$> excl)); [done |].
    destruct (existsb isna (replace_price_cell <$> incl)); [done |].
    destruct (existsb isna (replace_price_cell <$> tax)); [done |].
    destruct Hnan as [H|[H|H]]; discriminate H.
  - intros qexcl qincl qtax Hexcl Hincl Htax.
    assert (Hconv : ∀ cells qs,
      Forall2 (λ c q, astype_float (replace_price_cell c) = Returned (Float q))
              cells qs →
      existsb isna (replace_price_cell <$> cells) = false
      ∧ comprehension astype_float (replace_price_cell <$> cells)
        = Returned (Float <$> qs)).
    { intros cells qs H. split.
      - apply not_true_is_false. rewrite existsb_isna.
        intros Hin. destruct (proj1 (list_elem_of_lookup _ _) Hin) as [i Hi].
        destruct (Forall2_lookup_l _ _ _ _ _ H Hi) as (q & _ & Hq).
        by apply astype_float_not_nan in Hq.
      - apply comprehension_returns, Forall2_fmap. by apply H. }
    destruct (Hconv _ _ Hexcl) as [-> Ce], (Hconv _ _ Hincl) as [-> Ci],
             (Hconv _ _ Htax) as [-> Ct].
    cbn [orb comprehension snd fst]. rewrite Ce, Ci, Ct. done.
Qed.

Lemma parse_prices_all_or_nothing_witness :
  _parse_prices (price_frame [Text (pound :: py "51.77"); NaN]
                   [Text (pound :: py "51.77"); Text (py "Free")]
                   [Text (pound :: py "0.00"); Text (py "gratis")])
    = Returned (price_frame [Text (py "51.77"); NaN]
                  [Text (py "51.77"); Text (py "0")]
                  [Text (py "0.00"); Text (py "0")])
  ∧ _parse_prices (price_frame [Text (pound :: py "51.77")]
                     [Text (py "Free")] [Text (pound :: py "0.00")])
    = Returned (price_frame [Float (5177 # 100)] [Float (0 # 1)] [Float (0 # 100)]).
Proof.
  split.
  - refine (proj1 (parse_prices_all_or_nothing
                     (price_frame [Text (pound :: py "51.77"); NaN]
                        [Text (pound :: py "51.77"); Text (py "Free")]
                        [Text (pound :: py "0.00"); Text (py "gratis")])
                     _ _ _ eq_refl eq_refl eq_refl) _).
    apply list_elem_of_In. simpl. auto.
  - refine (proj2 (parse_prices_all_or_nothing
                     (price_frame [Text (pound :: py "51.77")]
                        [Text (py "Free")] [Text (pound :: py "0.00")])
                     _ _ _ eq_refl eq_refl eq_refl)
              [5177 # 100] [0 # 1] [0 # 100] _ _ _); repeat constructor.
Defined.

(** C3 at a cell that does not convert: of the tax "abc" the two
    substitutions leave the empty text, which is no missing value, so the
    guard [isna()] lets the conversion run and [_parse_prices] raises the
    [ValueError] of [astype(float)], where the three columns were to come
    back as they are.  The unconverted columns only come back when a cell
    is missing, and then with the substituted text. *)
Theorem parse_prices_raises_on_unparsable_cell :
  let df := price_frame [Text (pound :: py "51.77")] [Text (pound :: py "51.77")]
              [Text (py "abc")] in
  select_columns price_columns df = Returned df
  ∧ replace_price_cell (Text (py "abc")) = Text []
  ∧ isna (Text []) = false
  ∧ astype_float (Text []) = Raised (ValueError "could not convert string to float")
  ∧ _parse_prices df = Raised (ValueError "could not convert string to float")
  ∧ _parse_prices (price_frame [Text (pound :: py "51.77")]
                     [Text (pound :: py "51.77")] [NaN])
    = Returned (price_frame [Text (py "51.77")] [Text (py "51.77")] [NaN]).
Proof. cbv zeta. repeat split; reflexivity. Qed.

(** * Further properties *)

(** ** Substitutions *)

Lemma lower_char_idemp (c : N) : lower_char (lower_char c) = lower_char c.
Proof.
  unfold lower_char, is_upper.
  destruct (65 <=? c) eqn:E1; destruct (c <=? 90) eqn:E2; simpl;
    rewrite ?E1, ?E2; simpl; try done.
  apply N.leb_le in E1, E2.
  assert ((c + 32 <=? 90) = false) as -> by (apply N.leb_gt; lia).
  by rewrite andb_false_r.
Qed.

Lemma lower_idemp (s : str) : lower (lower s) = lower s.
Proof.
  unfold lower. rewrite <- list_fmap_compose. apply list_fmap_ext.
  intros i c _. apply lower_char_idemp.
Qed.

Lemma matches_at_lower (alt s : str) :
  matches_at alt (lower s) = matches_at alt s.
Proof.
  revert s. induction alt as [|p alt IH]; intros [|c s]; simpl; try done.
  by rewrite lower_char_idemp, IH.
Qed.

Lemma match_length_lower (alternatives : list str) (s : str) :
  match_length alternatives (lower s) = match_length alternatives s.
Proof.
  unfold match_length. f_equal.
  induction alternatives as [|alt alts IH]; [done |].
  cbn [list_find]. rewrite matches_at_lower.
  destruct (decide (matches_at alt s = true)); [done |]. by rewrite IH.
Qed.

Lemma match_length_None (alternatives : list str) (s : str) :
  Forall (λ alt, matches_at alt s = false) alternatives →
  match_length alternatives s = None.
Proof.
  intros H. unfold match_length.
  induction H as [|alt alts Halt _ IH]; [done |].
  cbn [list_find]. rewrite decide_False by (by rewrite Halt).
  destruct (list_find _ alts); [done | done].
Qed.

Lemma mismatch_within_matches_at (alt t rest : str) :
  mismatch_within alt t = true → matches_at alt (t ++ rest) = false.
Proof.
  revert t. induction alt as [|p alt IH]; intros [|c t]; simpl; try done.
  intros [H|H]%orb_true_iff.
  - apply negb_true_iff in H. by rewrite H.
  - rewrite (IH t H). apply andb_false_r.
Qed.

Lemma starts_none_mismatch (alternatives : list str) (c : N) (s : str) :
  starts_none alternatives c = true →
  Forall (λ alt, matches_at alt (c :: s) = false) alternatives.
Proof.
  unfold starts_none. rewrite forallb_forall, Forall_forall.
  intros H alt Halt. specialize (H alt (proj1 (list_elem_of_In _ _) Halt)).
  destruct alt as [|p alt]; [done |]. simpl.
  apply negb_true_iff in H. by rewrite H.
Qed.

(** Characters that start no alternative are copied. *)
Lemma sub_alternatives_copy (alternatives : list str) (repl s : str) :
  Forall (λ c, starts_none alternatives c = true) s →
  sub_alternatives alternatives repl 0 s = s.
Proof.
  induction 1 as [|c s Hc _ IH]; [done |].
  cbn [sub_alternatives].
  rewrite match_length_None by (by apply starts_none_mismatch).
  by rewrite IH.
Qed.

Lemma sub_alternatives_app_start (alternatives : list str) (repl a rest : str) :
  Forall (λ c, starts_none alternatives c = true) a →
  sub_alternatives alternatives repl 0 (a ++ rest)
  = a ++ sub_alternatives alternatives repl 0 rest.
Proof.
  induction 1 as [|c a Hc _ IH]; [done |].
  change ((c :: a) ++ rest) with (c :: (a ++ rest)).
  cbn [sub_alternatives].
  rewrite match_length_None by (by apply starts_none_mismatch).
  by rewrite IH.
Qed.

Lemma sub_alternatives_app_copy (alternatives : list str) (repl t rest : str) :
  no_match_within alternatives t = true →
  sub_alternatives alternatives repl 0 (t ++ rest)
  = t ++ sub_alternatives alternatives repl 0 rest.
Proof.
  induction t as [|c t IH]; [done |].
  cbn [no_match_within]. intros [Hc Ht]%andb_true_iff.
  change ((c :: t) ++ rest) with (c :: (t ++ rest)).
  cbn [sub_alternatives]. rewrite match_length_None.
  - rewrite (IH Ht). done.
  - rewrite forallb_forall in Hc. apply Forall_forall. intros alt Halt.
    apply (mismatch_within_matches_at alt (c :: t) rest).
    apply Hc. by apply list_elem_of_In.
Qed.

Lemma sub_alternatives_skip_all (alternatives : list str) (repl s : str) (skip : nat) :
  (length s ≤ skip)%nat → sub_alternatives alternatives repl skip s = [].
Proof.
  revert skip. induction s as [|c s IH]; intros skip Hlen; [done |].
  destruct skip as [|skip]; simpl in Hlen; [lia |].
  cbn [sub_alternatives]. apply IH. lia.
Qed.

(** A text that is one of the alternatives up to case becomes [repl], when
    no earlier alternative matches it. *)
Lemma sub_alternatives_whole (alternatives : list str) (repl s : str) (n : nat) :
  match_length alternatives (lower s) = Some (S n) → length s = S n →
  sub_alternatives alternatives repl 0 s = repl.
Proof.
  intros Hm Hlen. rewrite match_length_lower in Hm.
  destruct s as [|c s]; [done |]. cbn [sub_alternatives]. rewrite Hm.
  rewrite sub_alternatives_skip_all by (simpl in Hlen; lia).
  apply app_nil_r.
Qed.

(** ** Numeric text *)

Lemma strip_non_numeric_numeric (s : str) : numeric (strip_non_numeric s).
Proof.
  unfold numeric, strip_non_numeric. apply Forall_forall.
  intros c Hc. by apply list_elem_of_filter in Hc as [Hc _].
Qed.

Lemma strip_non_numeric_id (s : str) : numeric s → strip_non_numeric s = s.
Proof.
  unfold numeric, strip_non_numeric.
  induction 1 as [|c s Hc _ IH]; [done |].
  by rewrite filter_cons_True, IH.
Qed.

Lemma numeric_lower_char (c : N) :
  is_digit c = true ∨ c = dot → lower_char c = c ∧ c <= 57.
Proof.
  unfold lower_char, is_upper, is_digit, dot.
  intros [Hc| ->]; [| done].
  apply andb_true_iff in Hc as [H1 H2]. apply N.leb_le in H1, H2.
  assert ((c <=? 90) = true) as -> by (apply N.leb_le; lia).
  assert ((65 <=? c) = false) as -> by (apply N.leb_gt; lia). done.
Qed.

Ltac no_alternative_starts alternatives :=
  let alts := eval vm_compute in alternatives in
  change alternatives with alts;
  cbn [forallb];
  repeat (apply andb_true_intro; split); try done;
  apply negb_true_iff, bool_decide_eq_false;
  let E := fresh in intros E; vm_compute in E; subst; lia.

Lemma numeric_starts_none_zero (c : N) :
  is_digit c = true ∨ c = dot → starts_none zero_synonyms c = true.
Proof.
  intros Hc. destruct (numeric_lower_char c Hc) as [Hlow Hle].
  unfold starts_none. rewrite Hlow. no_alternative_starts zero_synonyms.
Qed.

Lemma numeric_starts_none_stock (c : N) :
  is_digit c = true ∨ c = dot → starts_none stock_synonyms c = true.
Proof.
  intros Hc. destruct (numeric_lower_char c Hc) as [Hlow Hle].
  unfold starts_none. rewrite Hlow. no_alternative_starts stock_synonyms.
Qed.

Lemma leading_digits_app (ip rest : str) :
  forallb is_digit ip = true →
  match rest with [] => True | c :: _ => is_digit c = false end →
  leading_digits (ip ++ rest) = (ip, rest).
Proof.
  intros Hip Hrest. induction ip as [|c ip IH]; simpl in *.
  - destruct rest as [|c rest]; [done |]. simpl. by rewrite Hrest.
  - apply andb_true_iff in Hip as [Hc Hip]. by rewrite Hc, (IH Hip).
Qed.

Lemma numeric_split (s : str) :
  numeric s →
  ∃ ip rest, s = ip ++ rest ∧ forallb is_digit ip = true
             ∧ (rest = [] ∨ ∃ r, rest = dot :: r ∧ numeric r).
Proof.
  induction 1 as [|c s Hc Hs (ip & rest & -> & Hip & Hrest)].
  - exists [], []. auto.
  - destruct (is_digit c) eqn:E.
    + exists (c :: ip), rest. simpl. rewrite E, Hip. auto.
    + destruct Hc as [Hc| ->]; [done |].
      exists [], (dot :: ip ++ rest). split; [done |]. split; [done |].
      right. by exists (ip ++ rest).
Qed.

Lemma digits_no_dot (l : str) :
  forallb is_digit l = true → count_dots l = 0%nat.
Proof.
  unfold count_dots. induction l as [|c l IH]; [done |]. simpl.
  intros [Hc Hl]%andb_true_iff.
  rewrite filter_cons_False; [by apply IH |].
  intros ->. done.
Qed.

Lemma numeric_no_dot (l : str) :
  numeric l → count_dots l = 0%nat → forallb is_digit l = true.
Proof.
  unfold count_dots. induction 1 as [|c l Hc _ IH]; [done |].
  destruct Hc as [Hc| ->].
  - rewrite filter_cons_False by (intros ->; done).
    intros H. simpl. by rewrite Hc, IH.
  - by rewrite filter_cons_True.
Qed.

Lemma existsb_digits (l : str) :
  forallb is_digit l = true → existsb is_digit l = negb (bool_decide (l = [])).
Proof.
  destruct l as [|c l]; [done |]. simpl.
  intros [-> _]%andb_true_iff. done.
Qed.

Lemma count_dots_app (a b : str) :
  count_dots (a ++ b) = (count_dots a + count_dots b)%nat.
Proof. unfold count_dots. by rewrite filter_app, length_app. Qed.

Lemma count_dots_cons_dot (r : str) : count_dots (dot :: r) = S (count_dots r).
Proof. unfold count_dots. by rewrite filter_cons_True by done. Qed.

(** [float] on numeric text with its dot, and without. *)
Lemma float_of_str_decimal (ip fp : str) :
  forallb is_digit ip = true → forallb is_digit fp = true → ip ++ fp ≠ [] →
  float_of_str (ip ++ dot :: fp)
  = Returned (decimal_value (ip ++ fp) (length fp)).
Proof.
  intros Hip Hfp Hne. unfold float_of_str.
  rewrite leading_digits_app by done.
  rewrite (bool_decide_eq_true_2 (dot = dot)) by done. rewrite Hfp.
  by rewrite (bool_decide_eq_false_2 (ip ++ fp = [])) by done.
Qed.

Lemma float_of_str_integer (ip : str) :
  forallb is_digit ip = true → ip ≠ [] →
  float_of_str ip = Returned (decimal_value ip 0).
Proof.
  intros Hip Hne. unfold float_of_str.
  rewrite <- (app_nil_r ip) at 1. rewrite leading_digits_app by done.
  by rewrite decide_False by done.
Qed.

Lemma float_of_numeric_text (s : str) :
  numeric s →
  if well_formed_number s then ∃ q, float_of_str s = Returned q
  else float_of_str s = Raised malformed_float.
Proof.
  intros Hs. destruct (numeric_split s Hs) as (ip & rest & -> & Hip & Hrest).
  unfold well_formed_number.
  destruct Hrest as [->|(r & -> & Hr)].
  - rewrite app_nil_r, (digits_no_dot ip Hip), (existsb_digits ip Hip).
    rewrite bool_decide_eq_true_2 by lia. simpl.
    destruct (decide (ip = [])) as [->|Hne].
    + done.
    + rewrite bool_decide_eq_false_2 by done. simpl.
      eexists. by apply float_of_str_integer.
  - rewrite count_dots_app, (digits_no_dot ip Hip), count_dots_cons_dot.
    destruct (forallb is_digit r) eqn:Er.
    + rewrite (digits_no_dot r Er), bool_decide_eq_true_2 by lia. simpl.
      rewrite existsb_app. simpl.
      rewrite (existsb_digits ip Hip), (existsb_digits r Er).
      destruct (decide (ip ++ r = [])) as [E|Hne].
      * apply app_eq_nil in E as [-> ->]. done.
      * assert (negb (bool_decide (ip = [])) || negb (bool_decide (r = [])) = true)
          as ->.
        { destruct ip, r; done. }
        eexists. by apply float_of_str_decimal.
    + assert (count_dots r ≠ 0%nat).
      { intros E. rewrite (numeric_no_dot r Hr E) in Er. done. }
      rewrite bool_decide_eq_false_2 by lia. simpl.
      unfold float_of_str. rewrite leading_digits_app by done.
      by rewrite Er, andb_false_r.
Qed.

(** ** Conversion of a column *)

Section column_conversion.
Variable replace : cell → cell.
Hypothesis replace_text : ∀ s, ∃ t, replace (Text s) = Text t ∧ numeric t.
Hypothesis replace_float : ∀ q, replace (Float q) = Float q.
Hypothesis replace_nan : replace NaN = NaN.

Lemma existsb_isna_replace (cells : list cell) :
  existsb isna (replace <$> cells) = true ↔ NaN ∈ cells.
Proof.
  induction cells as [|c cells IH]; [by rewrite elem_of_nil |].
  rewrite fmap_cons, elem_of_cons. cbn [existsb].
  rewrite orb_true_iff, IH.
  destruct c as [s|q|].
  - destruct (replace_text s) as (t & -> & _). simpl.
    split; (intros [H|H]; [discriminate H | by right]).
  - rewrite replace_float. simpl.
    split; (intros [H|H]; [discriminate H | by right]).
  - rewrite replace_nan. simpl. split; intros _; by left.
Qed.

Lemma astype_replace_cell (c : cell) :
  c ≠ NaN →
  if cell_converts replace c then ∃ q, astype_float (replace c) = Returned (Float q)
  else astype_float (replace c) = Raised malformed_float.
Proof.
  intros Hc. unfold cell_converts. destruct c as [s|q|]; [| |done].
  - destruct (replace_text s) as (t & -> & Ht).
    pose proof (float_of_numeric_text t Ht) as H. simpl.
    destruct (well_formed_number t); [destruct H as [q ->] | rewrite H];
      simpl; eauto.
  - rewrite replace_float. eauto.
Qed.

Lemma astype_replace_column (cells : list cell) :
  NaN ∉ cells →
  if forallb (cell_converts replace) cells then
    ∃ qs, comprehension astype_float (replace <$> cells) = Returned (Float <$> qs)
  else comprehension astype_float (replace <$> cells) = Raised malformed_float.
Proof.
  induction cells as [|c cells IH]; intros Hnan.
  { by exists []. }
  apply not_elem_of_cons in Hnan as [Hc Hnan]. specialize (IH Hnan).
  rewrite fmap_cons. cbn [forallb comprehension].
  pose proof (astype_replace_cell c (not_eq_sym Hc)) as H.
  destruct (cell_converts replace c); [| by rewrite H].
  destruct H as [q ->]. simpl.
  destruct (forallb (cell_converts replace) cells).
  - destruct IH as [qs ->]. by exists (q :: qs).
  - by rewrite IH.
Qed.

End column_conversion.

Lemma replace_price_text (s : str) :
  ∃ t, replace_price_cell (Text s) = Text t ∧ numeric t.
Proof. eexists. split; [done |]. apply strip_non_numeric_numeric. Qed.

Lemma replace_availability_text (s : str) :
  ∃ t, replace_availability_cell (Text s) = Text t ∧ numeric t.
Proof. eexists. split; [done |]. apply strip_non_numeric_numeric. Qed.

(** ** Prices: when the conversion raises *)

(** X2: When the three price columns are there and none of their cells is
    missing, [_parse_prices] either converts every cell or raises: it
    returns the three columns as floats when every text cell, after the two
    substitutions, has a digit and at most one dot, and raises the
    [ValueError] of the conversion otherwise. *)
Theorem parse_prices_converts_or_raises (df : DataFrame) (excl incl tax : list cell) :
  column (py "Price (excl. tax)") df = Some excl →
  column (py "Price (incl. tax)") df = Some incl →
  column (py "Tax") df = Some tax →
  NaN ∉ excl ++ incl ++ tax →
  if forallb (cell_converts replace_price_cell) (excl ++ incl ++ tax) then
    ∃ qexcl qincl qtax,
      _parse_prices df
      = Returned (price_frame (Float <$> qexcl) (Float <$> qincl) (Float <$> qtax))
  else _parse_prices df = Raised malformed_float.
Proof.
  intros H1 H2 H3 Hnan.
  rewrite (parse_prices_selected df excl incl tax H1 H2 H3). cbv zeta.
  rewrite !not_elem_of_app in Hnan. destruct Hnan as (Ne & Ni & Nt).
  unfold price_frame. cbn [existsb snd fst].
  assert (Hna : ∀ cells, NaN ∉ cells →
            existsb isna (replace_price_cell <$> cells) = false).
  { intros cells Hc. apply not_true_is_false.
    by rewrite (existsb_isna_replace _ replace_price_text). }
  rewrite !Hna by done. cbn [orb comprehension fst snd].
  rewrite !forallb_app.
  pose proof (astype_replace_column _ replace_price_text (λ _, eq_refl) excl Ne) as He.
  pose proof (astype_replace_column _ replace_price_text (λ _, eq_refl) incl Ni) as Hi.
  pose proof (astype_replace_column _ replace_price_text (λ _, eq_refl) tax Nt) as Ht.
  destruct (forallb _ excl); [destruct He as [qe ->] | by rewrite He].
  destruct (forallb _ incl); [destruct Hi as [qi ->] | by rewrite Hi].
  destruct (forallb _ tax); [destruct Ht as [qt ->] | by rewrite Ht].
  by exists qe, qi, qt.
Qed.

Ltac not_in_cells :=
  let H := fresh in
  intros H; repeat (apply elem_of_cons in H as [H|H]; [discriminate H |]);
  by apply elem_of_nil in H.

Lemma parse_prices_converts_or_raises_witness :
  _parse_prices (price_frame [Text (pound :: py "51.77")] [Text (py "1.2.3")]
                   [Text (pound :: py "0.00")])
    = Raised malformed_float
  ∧ ∃ qexcl qincl qtax,
      _parse_prices (price_frame [Text (pound :: py "51.77")] [Text (py "Free")]
                       [Text (py "5.")])
      = Returned (price_frame (Float <$> qexcl) (Float <$> qincl) (Float <$> qtax)).
Proof.
  split.
  - refine (parse_prices_converts_or_raises
              (price_frame [Text (pound :: py "51.77")] [Text (py "1.2.3")]
                 [Text (pound :: py "0.00")]) _ _ _ eq_refl eq_refl eq_refl _).
    simpl. not_in_cells.
  - refine (parse_prices_converts_or_raises
              (price_frame [Text (pound :: py "51.77")] [Text (py "Free")]
                 [Text (py "5.")]) _ _ _ eq_refl eq_refl eq_refl _).
    simpl. not_in_cells.
Defined.

(** ** Prices: missing columns *)

(** X3: [_parse_prices] guards against a table without any of the three price
    columns, with its own [ValueError]; a table with some of them and not
    all passes the guard and fails in the selection, with a [KeyError]. *)
Theorem parse_prices_missing_columns (df : DataFrame) :
  (Forall (λ label, column label df = None) price_columns →
   _parse_prices df
   = Raised (ValueError "A tax column and product price columns don't exist"))
  ∧ (Exists (λ label, is_Some (column label df)) price_columns →
     Exists (λ label, column label df = None) price_columns →
     _parse_prices df = Raised (KeyError "not in index")).
Proof.
  unfold price_columns. split.
  - intros H. apply Forall_cons in H as [H1 H]. apply Forall_cons in H as [H2 H].
    apply Forall_cons in H as [H3 _].
    unfold _parse_prices, price_columns. cbn [forallb]. by rewrite H1, H2, H3.
  - intros Hsome Hnone.
    rewrite !Exists_cons, Exists_nil in Hsome, Hnone.
    unfold _parse_prices, select_columns, price_columns.
    cbn [forallb comprehension].
    destruct (column (py "Price (excl. tax)") df) as [c1|];
      destruct (column (py "Price (incl. tax)") df) as [c2|];
      destruct (column (py "Tax") df) as [c3|]; try done.
    + destruct Hnone as [|[|[|[]]]]; done.
    + destruct Hsome as [[]|[[]|[[]|[]]]]; done.
Qed.

Lemma parse_prices_missing_columns_witness :
  _parse_prices [(py "Rating", [Text (py "Three")])]
    = Raised (ValueError "A tax column and product price columns don't exist")
  ∧ _parse_prices [(py "Tax", [Text (py "0.00")])] = Raised (KeyError "not in index").
Proof.
  split.
  - apply (parse_prices_missing_columns [(py "Rating", [Text (py "Three")])]).
    repeat constructor.
  - apply (parse_prices_missing_columns [(py "Tax", [Text (py "0.00")])]).
    + do 2 apply Exists_cons_tl. apply Exists_cons_hd. by eexists.
    + by apply Exists_cons_hd.
Defined.

(** ** Prices: applying the step twice *)

Lemma replace_price_cell_idemp (c : cell) :
  replace_price_cell (replace_price_cell c) = replace_price_cell c.
Proof.
  destruct c as [s| |]; [| done | done]. simpl. f_equal.
  pose proof (strip_non_numeric_numeric (sub_alternatives zero_synonyms (py "0") 0 s))
    as Hnum.
  rewrite sub_alternatives_copy.
  - by apply strip_non_numeric_id.
  - eapply Forall_impl; [exact Hnum |]. apply numeric_starts_none_zero.
Qed.

Lemma column_price_frame (excl incl tax : list cell) :
  column (py "Price (excl. tax)") (price_frame excl incl tax) = Some excl
  ∧ column (py "Price (incl. tax)") (price_frame excl incl tax) = Some incl
  ∧ column (py "Tax") (price_frame excl incl tax) = Some tax.
Proof. done. Qed.

Lemma astype_float_floats (cells cells' : list cell) :
  comprehension astype_float (replace_price_cell <$> cells) = Returned cells' →
  NaN ∉ cells →
  replace_price_cell <$> cells' = cells'
  ∧ (NaN ∉ cells')
  ∧ comprehension astype_float cells' = Returned cells'.
Proof.
  revert cells'. induction cells as [|c cells IH]; intros cells' H Hnan.
  { injection H as <-. split; [done |]. split; [apply not_elem_of_nil | done]. }
  apply not_elem_of_cons in Hnan as [Hc Hnan].
  rewrite fmap_cons in H. cbn [comprehension] in H.
  destruct (astype_float (replace_price_cell c)) as [c'|] eqn:Ec; [| done].
  simpl in H.
  destruct (comprehension astype_float (replace_price_cell <$> cells)) as [cs'|] eqn:Ecs;
    [| done].
  injection H as <-. destruct (IH cs' eq_refl Hnan) as (I1 & I2 & I3).
  assert (∃ q, c' = Float q) as [q ->].
  { destruct c as [s|q|]; [| |done]; simpl in Ec.
    - destruct (float_of_str _) as [q|]; [| done]. injection Ec as <-. eauto.
    - injection Ec as <-. eauto. }
  rewrite fmap_cons, I1. split; [done |]. split.
  - by apply not_elem_of_cons.
  - cbn [comprehension]. simpl. by rewrite I3.
Qed.

(** X4: What [_parse_prices] returns, it returns again when it is applied to
    its own result: the converted columns stay as they are, and so do the
    substituted ones. *)
Theorem parse_prices_idempotent (df result : DataFrame) :
  _parse_prices df = Returned result → _parse_prices result = Returned result.
Proof.
  intros H.
  assert (∃ excl incl tax,
            column (py "Price (excl. tax)") df = Some excl
            ∧ column (py "Price (incl. tax)") df = Some incl
            ∧ column (py "Tax") df = Some tax) as (excl & incl & tax & H1 & H2 & H3).
  { revert H. unfold _parse_prices, select_columns, price_columns.
    cbn [forallb comprehension].
    destruct (column (py "Price (excl. tax)") df) as [c1|];
      destruct (column (py "Price (incl. tax)") df) as [c2|];
      destruct (column (py "Tax") df) as [c3|]; try done.
    intros _. by exists c1, c2, c3. }
  rewrite (parse_prices_selected df excl incl tax H1 H2 H3) in H. cbv zeta in H.
  destruct (existsb _ (price_frame _ _ _)) eqn:Ena.
  - injection H as <-.
    destruct (column_price_frame (replace_price_cell <$> excl)
                (replace_price_cell <$> incl) (replace_price_cell <$> tax))
      as (C1 & C2 & C3).
    rewrite (parse_prices_selected _ _ _ _ C1 C2 C3). cbv zeta.
    rewrite <- !list_fmap_compose.
    rewrite !(list_fmap_ext (replace_price_cell ∘ replace_price_cell)
                replace_price_cell)
      by (intros; apply replace_price_cell_idemp).
    by rewrite Ena.
  - unfold price_frame in H, Ena. cbn [existsb fst snd] in Ena.
    apply orb_false_iff in Ena as [Ee Ena]. apply orb_false_iff in Ena as [Ei Ena].
    apply orb_false_iff in Ena as [Et _].
    assert (Hno : ∀ cells, existsb isna (replace_price_cell <$> cells) = false →
                           NaN ∉ cells).
    { intros cells E Hin. apply (existsb_isna_replace _ replace_price_text) in Hin;
        [congruence | done | done]. }
    apply Hno in Ee, Ei, Et.
    cbn [comprehension fst snd] in H.
    destruct (comprehension astype_float (replace_price_cell <$> excl)) as [e'|] eqn:Ce;
      [| done].
    destruct (comprehension astype_float (replace_price_cell <$> incl)) as [i'|] eqn:Ci;
      [| done].
    destruct (comprehension astype_float (replace_price_cell <$> tax)) as [t'|] eqn:Ct;
      [| done].
    injection H as <-.
    destruct (astype_float_floats _ _ Ce Ee) as (A1 & A2 & A3).
    destruct (astype_float_floats _ _ Ci Ei) as (B1 & B2 & B3).
    destruct (astype_float_floats _ _ Ct Et) as (D1 & D2 & D3).
    change [(py "Price (excl. tax)", e'); (py "Price (incl. tax)", i'); (py "Tax", t')]
      with (price_frame e' i' t').
    destruct (column_price_frame e' i' t') as (C1 & C2 & C3).
    rewrite (parse_prices_selected _ _ _ _ C1 C2 C3). cbv zeta.
    rewrite A1, B1, D1. unfold price_frame. cbn [existsb fst snd].
    assert (Hna : ∀ cells, NaN ∉ cells → existsb isna cells = false).
    { intros cells Hc. apply not_true_is_false. rewrite existsb_exists.
      intros (c & Hin & Hc'). destruct c; try done.
      by apply Hc, list_elem_of_In. }
    rewrite !Hna by done. cbn [orb comprehension fst snd].
    by rewrite A3, B3, D3.
Qed.

Lemma parse_prices_idempotent_witness :
  _parse_prices (price_frame [Float (5177 # 100)] [Float (0 # 1)] [Float (0 # 100)])
  = Returned (price_frame [Float (5177 # 100)] [Float (0 # 1)] [Float (0 # 100)]).
Proof.
  apply (parse_prices_idempotent
           (price_frame [Text (pound :: py "51.77")] [Text (py "Free")]
              [Text (pound :: py "0.00")])).
  reflexivity.
Defined.

(** ** Prices: what the texts read as *)

Lemma match_length_cons (alt : str) (alts : list str) (s : str) :
  match_length (alt :: alts) s =
    if matches_at alt s then Some (length alt) else match_length alts s.
Proof.
  unfold match_length. cbn [list_find].
  destruct (matches_at alt s) eqn:E.
  - by rewrite decide_True.
  - rewrite decide_False by done. by destruct (list_find _ alts) as [[i x]|].
Qed.

Lemma matches_at_refl (w : str) : matches_at w w = true.
Proof.
  induction w as [|c w IH]; [done |]. simpl.
  by rewrite bool_decide_eq_true_2, IH.
Qed.

(** An alternative that no other alternative matches is replaced as a
    whole. *)
Lemma synonym_becomes_zero (alternatives : list str) (s w : str) :
  Forall (λ alt, ∀ alt', alt' ∈ alternatives → matches_at alt' (lower alt) = true →
                 alt' = alt) alternatives →
  Forall (λ alt, alt ≠ []) alternatives →
  w ∈ alternatives → lower s = lower w →
  sub_alternatives alternatives (py "0") 0 s = py "0".
Proof.
  intros Hexact Hne Hw Hs.
  assert (Hm : match_length alternatives (lower s) = Some (length w)).
  { rewrite Hs. rewrite Forall_forall in Hexact. specialize (Hexact w Hw).
    clear Hne. induction alternatives as [|alt alts IH]; [by apply elem_of_nil in Hw |].
    rewrite match_length_cons.
    destruct (matches_at alt (lower w)) eqn:Hm.
    - by rewrite (Hexact alt (list_elem_of_here _ _) Hm).
    - apply elem_of_cons in Hw as [->|Hw].
      + by rewrite matches_at_lower, matches_at_refl in Hm.
      + apply IH; try done.
        intros alt' Halt'. apply Hexact. by apply list_elem_of_further. }
  assert (Hlen : length s = length w).
  { apply (f_equal length) in Hs. unfold lower in Hs. by rewrite !length_fmap in Hs. }
  rewrite Forall_forall in Hne. specialize (Hne w Hw).
  destruct w as [|p w]; [done |].
  by apply (sub_alternatives_whole alternatives (py "0") s (length w)).
Qed.

Ltac exact_alternatives alternatives :=
  let alts := eval vm_compute in alternatives in
  change alternatives with alts;
  repeat (apply List.Forall_cons;
          [ let alt' := fresh in let H := fresh in
            intros alt' H;
            repeat (apply elem_of_cons in H as [->|H]; [by (vm_compute; intros ?) |]);
            by apply elem_of_nil in H
          | ]);
  apply List.Forall_nil.

Lemma zero_synonym_becomes_zero (s w : str) :
  w ∈ zero_synonyms → lower s = lower w →
  sub_alternatives zero_synonyms (py "0") 0 s = py "0".
Proof.
  apply synonym_becomes_zero.
  - exact_alternatives zero_synonyms.
  - repeat constructor; done.
Qed.

Lemma stock_synonym_becomes_zero (s w : str) :
  w ∈ stock_synonyms → lower s = lower w →
  sub_alternatives stock_synonyms (py "0") 0 s = py "0".
Proof.
  apply synonym_becomes_zero.
  - exact_alternatives stock_synonyms.
  - repeat constructor; done.
Qed.

(** X5: The price texts of the site read as what they say: one of the words
    for a free product, in any case, converts to zero; a text without the
    letters f, g and n, such as a currency symbol before a decimal number,
    converts to the number its digits and its dot spell. *)
Theorem price_text_value (s : str) :
  (∀ w, w ∈ zero_synonyms → lower s = lower w →
     astype_float (replace_price_cell (Text s)) = Returned (Float (0 # 1)))
  ∧ (∀ ip fp,
       Forall (λ c, starts_none zero_synonyms c = true) s →
       strip_non_numeric s = ip ++ dot :: fp →
       forallb is_digit ip = true → forallb is_digit fp = true → ip ++ fp ≠ [] →
       astype_float (replace_price_cell (Text s))
       = Returned (Float (decimal_value (ip ++ fp) (length fp)))).
Proof.
  split.
  - intros w Hw Hs. unfold replace_price_cell.
    by rewrite (zero_synonym_becomes_zero s w Hw Hs).
  - intros ip fp Hcopy Hstrip Hip Hfp Hne. unfold replace_price_cell.
    rewrite sub_alternatives_copy by done. rewrite Hstrip.
    unfold astype_float. by rewrite float_of_str_decimal.
Qed.

Lemma price_text_value_witness :
  astype_float (replace_price_cell (Text (py "GIVE away"))) = Returned (Float (0 # 1))
  ∧ astype_float (replace_price_cell (Text (pound :: py "51.77")))
    = Returned (Float (decimal_value (py "5177") 2)).
Proof.
  split.
  - apply (proj1 (price_text_value (py "GIVE away")) (py "Give Away")).
    + unfold zero_synonyms. apply list_elem_of_In. simpl. auto.
    + reflexivity.
  - apply (proj2 (price_text_value (pound :: py "51.77")) (py "51") (py "77"));
      try reflexivity; [| discriminate].
    repeat constructor.
Defined.

(** ** Availability *)

Lemma astype_availability_reads (c : cell) (q : Q) :
  availability_reads c q →
  astype_float (replace_availability_cell c) = Returned (Float q).
Proof.
  intros [(ds & Hds & Hne & -> & ->)|(s & w & Hw & Hs & -> & ->)];
    unfold replace_availability_cell.
  - rewrite (sub_alternatives_app_copy stock_synonyms (py "0") (py "In stock (")) by done.
    rewrite sub_alternatives_app_start.
    + change (sub_alternatives stock_synonyms (py "0") 0 (py " available)"))
        with (py " available)").
      unfold strip_non_numeric. rewrite !filter_app.
      change (filter _ (py "In stock (")) with (@nil N).
      change (filter _ (py " available)")) with (@nil N).
      rewrite app_nil_l, app_nil_r.
      fold (strip_non_numeric ds). rewrite strip_non_numeric_id.
      * unfold astype_float. by rewrite float_of_str_integer.
      * apply Forall_forall. intros c Hc. left.
        rewrite forallb_forall in Hds. by apply Hds, list_elem_of_In.
    + apply Forall_forall. intros c Hc. apply numeric_starts_none_stock. left.
      rewrite forallb_forall in Hds. by apply Hds, list_elem_of_In.
  - by rewrite (stock_synonym_becomes_zero s w Hw Hs).
Qed.

(** X6: On the texts of the site the availability column becomes the count of
    items in stock: "In stock (N available)" reads as N, a synonym of "not
    in stock", in any case, as zero. *)
Theorem parse_product_availability_reads (df : DataFrame) (cells : list cell)
    (qs : list Q) :
  column (py "Availability") df = Some cells →
  Forall2 availability_reads cells qs →
  _parse_product_availability df = Returned (Float <$> qs).
Proof.
  intros Hcol Hreads. unfold _parse_product_availability. rewrite Hcol. cbv zeta.
  assert (Hnan : NaN ∉ cells).
  { intros Hin. destruct (proj1 (list_elem_of_lookup _ _) Hin) as [i Hi].
    destruct (Forall2_lookup_l _ _ _ _ _ Hreads Hi) as (q & _ & Hq).
    destruct Hq as [(ds & _ & _ & E & _)|(s & w & _ & _ & E & _)]; discriminate E. }
  assert (existsb isna (replace_availability_cell <$> cells) = false) as ->.
  { apply not_true_is_false.
    by rewrite (existsb_isna_replace _ replace_availability_text). }
  apply comprehension_returns, Forall2_fmap.
  eapply Forall2_impl; [exact Hreads |]. apply astype_availability_reads.
Qed.

Lemma parse_product_availability_reads_witness :
  _parse_product_availability
    [(py "Availability", [Text (py "In stock (22 available)"); Text (py "OUT OF STOCK")])]
  = Returned (Float <$> [decimal_value (py "22") 0; 0 # 1]).
Proof.
  apply (parse_product_availability_reads
           [(py "Availability",
             [Text (py "In stock (22 available)"); Text (py "OUT OF STOCK")])]
           _ _ eq_refl).
  constructor; [| constructor; [| constructor]].
  - left. exists (py "22"). repeat split; done.
  - right. exists (py "OUT OF STOCK"), (py "Out of stock"). repeat split; try done.
    unfold stock_synonyms. apply list_elem_of_In. simpl. auto.
Defined.

(** X7: [_parse_product_availability] has three ways out.  Without the column
    it raises its own [ValueError].  With a missing cell it returns the
    column unconverted, holding the substituted text.  Without missing
    cell it converts the column when every text has, after the two
    substitutions, a digit and at most one dot, and raises the [ValueError]
    of the conversion otherwise (as for the bare text "In stock"). *)
Theorem parse_product_availability_outcomes (df : DataFrame) :
  (column (py "Availability") df = None →
   _parse_product_availability df
   = Raised (ValueError "Product availability column doesn't exist"))
  ∧ (∀ cells, column (py "Availability") df = Some cells →
       (NaN ∈ cells →
        _parse_product_availability df
        = Returned (replace_availability_cell <$> cells))
       ∧ (NaN ∉ cells →
          if forallb (cell_converts replace_availability_cell) cells then
            ∃ qs, _parse_product_availability df = Returned (Float <$> qs)
          else _parse_product_availability df = Raised malformed_float)).
Proof.
  unfold _parse_product_availability. split; [by intros -> |].
  intros cells ->. cbv zeta. split.
  - intros Hnan.
    by rewrite (proj2 (existsb_isna_replace _ replace_availability_text
                         (λ _, eq_refl) eq_refl cells) Hnan).
  - intros Hnan.
    assert (existsb isna (replace_availability_cell <$> cells) = false) as ->.
    { apply not_true_is_false.
      by rewrite (existsb_isna_replace _ replace_availability_text). }
    exact (astype_replace_column _ replace_availability_text (λ _, eq_refl) cells Hnan).
Qed.

Lemma parse_product_availability_outcomes_witness :
  _parse_product_availability [(py "Tax", [Text (py "0.00")])]
    = Raised (ValueError "Product availability column doesn't exist")
  ∧ _parse_product_availability
      [(py "Availability", [Text (py "In stock (3 available)"); NaN])]
    = Returned [Text (py "3"); NaN]
  ∧ _parse_product_availability [(py "Availability", [Text (py "In stock")])]
    = Raised malformed_float.
Proof.
  split; [| split].
  - by apply (parse_product_availability_outcomes [(py "Tax", [Text (py "0.00")])]).
  - refine (proj1 (proj2 (parse_product_availability_outcomes
             [(py "Availability", [Text (py "In stock (3 available)"); NaN])])
             _ eq_refl) _).
    apply list_elem_of_In. simpl. auto.
  - refine (proj2 (proj2 (parse_product_availability_outcomes
             [(py "Availability", [Text (py "In stock")])]) _ eq_refl) _).
    not_in_cells.
Defined.

(** ** Records *)

Section dict_get_facts.
Context {K V : Type} `{EqDecision K}.

Lemma dict_get_set (k k' : K) (v : V) (d : list (K * V)) :
  dict_get k (dict_set k' v d) = if decide (k = k') then Some v else dict_get k d.
Proof.
  induction d as [|[k0 v0] d IH]; simpl.
  - by destruct (decide (k = k')).
  - destruct (decide (k' = k0)) as [->|N]; simpl.
    + by destruct (decide (k = k0)).
    + rewrite IH. destruct (decide (k = k0)) as [->|]; [| done].
      by rewrite decide_False by done.
Qed.

Lemma dict_get_None (k : K) (d : list (K * V)) :
  dict_get k d = None ↔ k ∉ d.*1.
Proof.
  induction d as [|[k0 v0] d IH]; simpl.
  - split; [intros _; apply not_elem_of_nil | done].
  - rewrite not_elem_of_cons.
    destruct (decide (k = k0)); [| rewrite IH]; split; try done; tauto.
Qed.

Lemma dict_set_keys (k : K) (v : V) (d : list (K * V)) :
  (dict_set k v d).*1 = if decide (k ∈ d.*1) then d.*1 else d.*1 ++ [k].
Proof.
  induction d as [|[k0 v0] d IH].
  - first [done | destruct (decide (k ∈ [])) as [Hin|_];
                   [by apply elem_of_nil in Hin | done]].
  - cbn [dict_set]. rewrite (fmap_cons fst (k0, v0) d). cbn [fst].
    destruct (decide (k = k0)) as [->|N].
    + rewrite fmap_cons. cbn [fst].
      by rewrite decide_True by apply list_elem_of_here.
    + rewrite fmap_cons, IH. cbn [fst]. destruct (decide (k ∈ d.*1)).
      * by rewrite decide_True by (by apply list_elem_of_further).
      * rewrite decide_False; [done |].
        intros [?|?]%elem_of_cons; done.
Qed.

Lemma dict_set_NoDup (k : K) (v : V) (d : list (K * V)) :
  NoDup d.*1 → NoDup (dict_set k v d).*1.
Proof.
  intros Hd. rewrite dict_set_keys. destruct (decide (k ∈ d.*1)); [done |].
  apply NoDup_app. split; [done |]. split; [| apply NoDup_singleton].
  intros x Hx ->%list_elem_of_singleton. done.
Qed.

Lemma dict_merge_NoDup (d1 d2 : list (K * V)) :
  NoDup d1.*1 → NoDup (dict_merge d1 d2).*1.
Proof.
  unfold dict_merge. revert d1.
  induction d2 as [|[k v] d2 IH]; intros d1 Hd1; [done |].
  simpl. apply IH. by apply dict_set_NoDup.
Qed.

(** In [{**d1, **d2}] the entries of [d2] win. *)
Lemma dict_get_merge (k : K) (d1 d2 : list (K * V)) :
  NoDup d2.*1 →
  dict_get k (dict_merge d1 d2) =
    match dict_get k d2 with
    | Some v => Some v
    | None => dict_get k d1
    end.
Proof.
  unfold dict_merge. revert d1.
  induction d2 as [|[k2 v2] d2 IH]; intros d1 Hd2; [done |].
  apply NoDup_cons in Hd2 as [Hk2 Hd2]. simpl.
  rewrite (IH _ Hd2), dict_get_set.
  destruct (decide (k = k2)) as [->|]; [| done].
  by rewrite (proj2 (dict_get_None k2 d2) Hk2).
Qed.

End dict_get_facts.

Lemma last_cons_or {A} (x : A) (l : list A) :
  last (x :: l) = match last l with Some y => Some y | None => Some x end.
Proof. destruct l; [done |]. rewrite last_cons. by destruct (last _). Qed.

Lemma omap_cons {A B} (f : A → option B) (x : A) (l : list A) :
  omap f (x :: l) = match f x with Some y => y :: omap f l | None => omap f l end.
Proof. done. Qed.

Lemma table_cell_cons (k : str) (tr : table_row) (rows : list table_row) :
  table_cell k (tr :: rows) =
    match table_cell k rows with
    | Some v => Some v
    | None => if decide (row_th tr = Some k) then row_td tr else None
    end.
Proof.
  unfold table_cell. rewrite omap_cons.
  destruct (decide (row_th tr = Some k)); [| by destruct (last _)].
  destruct (row_td tr) as [v|]; [| by destruct (last _)].
  apply last_cons_or.
Qed.

Lemma table_dict_spec (rows : list table_row) (d attributes : record) :
  table_dict rows d = Returned attributes →
  NoDup d.*1 →
  NoDup attributes.*1
  ∧ ∀ k, dict_get k attributes =
           match table_cell k rows with
           | Some v => Some v
           | None => dict_get k d
           end.
Proof.
  revert d. induction rows as [|tr rows IH]; intros d H Hd.
  { injection H as <-. by split. }
  cbn [table_dict] in H.
  destruct (row_th tr) as [th|] eqn:Eth; [| done].
  destruct (row_td tr) as [td|] eqn:Etd; [| done].
  destruct (IH _ H (dict_set_NoDup th td d Hd)) as [Hnd Hget].
  split; [done |]. intros k. rewrite Hget, table_cell_cons, dict_get_set, Eth, Etd.
  destruct (table_cell k rows); [done |].
  destruct (decide (k = th)) as [->|N].
  - by rewrite decide_True.
  - by rewrite decide_False by congruence.
Qed.

Lemma parse_product_info_fields (m : markup) (url : str) (r : record) :
  _parse_product_info m url = Returned (Some r) →
  ∃ title rating,
    product_title m = Some title ∧ title ≠ []
    ∧ rating_token m = Returned rating
    ∧ NoDup r.*1
    ∧ ∀ k, dict_get k r =
             match table_cell k (table_rows m) with
             | Some v => Some v
             | None => dict_get k (base_record title url rating)
             end.
Proof.
  unfold _parse_product_info, table_rows. intros H.
  destruct (product_title m) as [title|]; [| done].
  destruct (decide (title = [])) as [|Hne]; [done |].
  assert (Hbase : ∀ rating, NoDup (base_record title url rating).*1).
  { intros rating. apply NoDup_ListNoDup. vm_compute.
    repeat constructor; simpl; intuition discriminate. }
  destruct (product_table m) as [rows|]; simpl in H.
  - destruct (rating_token m) as [rating|]; [| done]. simpl in H.
    destruct (table_dict rows []) as [attributes|] eqn:Et; [| done].
    injection H as <-.
    destruct (table_dict_spec rows [] attributes Et (NoDup_nil_2)) as [Hnd Hget].
    exists title, rating. repeat split; try done.
    + by apply dict_merge_NoDup.
    + intros k. rewrite (dict_get_merge k _ _ Hnd), Hget. simpl.
      by destruct (table_cell k rows).
  - destruct (rating_token m) as [rating|]; [| done]. injection H as <-.
    exists title, rating. repeat split; try done.
Qed.


(** X8: A record that [_parse_product_info] returns has each key once.  Its
    fields are the three base fields, product name (not empty), URL and
    rating token, and the rows of the attribute table; where a header cell
    of the table reads like a base field, or like the header of an earlier
    row, the later value replaces the earlier one. *)
Theorem parse_product_info_record (m : markup) (url : str) (r : record) :
  _parse_product_info m url = Returned (Some r) →
  ∃ title rating,
    product_title m = Some title ∧ title ≠ []
    ∧ rating_token m = Returned rating
    ∧ NoDup r.*1
    ∧ ∀ k, dict_get k r =
             match table_cell k (table_rows m) with
             | Some v => Some v
             | None => dict_get k (base_record title url rating)
             end.
Proof. apply parse_product_info_fields. Qed.

Lemma parse_product_info_record_witness :
  ∃ title rating,
    product_title (detail_page (Some (py "Tea"))) = Some title ∧ title ≠ []
    ∧ rating_token (detail_page (Some (py "Tea"))) = Returned rating
    ∧ NoDup (base_record (py "Tea") (py "u") (py "Three")).*1
    ∧ ∀ k, dict_get k (base_record (py "Tea") (py "u") (py "Three")) =
             match table_cell k (table_rows (detail_page (Some (py "Tea")))) with
             | Some v => Some v
             | None => dict_get k (base_record title (py "u") rating)
             end.
Proof.
  apply (parse_product_info_record (detail_page (Some (py "Tea"))) (py "u")).
  reflexivity.
Defined.

(** X9: [_parse_product_info] raises nothing but the two classes the cohorts
    call parsing errors: [AttributeError] for a missing element and
    [IndexError] for a rating element with a single class token. *)
Theorem parse_product_info_raises (m : markup) (url : str) (e : exn) :
  _parse_product_info m url = Raised e →
  is_parsing_error e = true
  ∧ (product_title m = None ∨ star_rating m = None
     ∨ (∃ classes, star_rating m = Some classes ∧ (length classes ≤ 1)%nat)
     ∨ (∃ tr, tr ∈ table_rows m ∧ (row_th tr = None ∨ row_td tr = None))).
Proof.
  unfold _parse_product_info, table_rows. intros H.
  destruct (product_title m) as [title|]; [| injection H as <-; auto].
  destruct (decide (title = [])); [done |].
  assert (Hrating : ∀ e', rating_token m = Raised e' →
            is_parsing_error e' = true
            ∧ (star_rating m = None
               ∨ ∃ classes, star_rating m = Some classes ∧ (length classes ≤ 1)%nat)).
  { unfold rating_token. intros e'. destruct (star_rating m) as [classes|].
    - destruct (classes !! 1%nat) eqn:E; [done |]. intros [= <-].
      split; [done |]. right. exists classes. split; [done |].
      by apply lookup_ge_None in E.
    - intros [= <-]. auto. }
  assert (Htable : ∀ rows d e', table_dict rows d = Raised e' →
            is_parsing_error e' = true
            ∧ ∃ tr, tr ∈ rows ∧ (row_th tr = None ∨ row_td tr = None)).
  { induction rows as [|tr rows IH]; intros d e'; [done |]. cbn [table_dict].
    destruct (row_th tr) eqn:Eth.
    - destruct (row_td tr) eqn:Etd.
      + intros Hr. destruct (IH _ _ Hr) as (? & tr' & ? & ?).
        split; [done |]. exists tr'. split; [by apply list_elem_of_further | done].
      + intros [= <-]. split; [done |]. exists tr. split; [apply list_elem_of_here | auto].
    - intros [= <-]. split; [done |]. exists tr. split; [apply list_elem_of_here | auto]. }
  destruct (product_table m) as [rows|]; simpl in H.
  - destruct (rating_token m) as [rating|e'] eqn:Er.
    + simpl in H. destruct (table_dict rows []) as [attrs|e'] eqn:Et; [done |].
      injection H as <-. destruct (Htable _ _ _ Et). auto.
    + injection H as <-. destruct (Hrating _ eq_refl) as [? [?|?]]; auto.
  - destruct (rating_token m) as [rating|e'] eqn:Er; [done |].
    injection H as <-. destruct (Hrating _ eq_refl) as [? [?|?]]; auto.
Qed.

Lemma parse_product_info_raises_witness :
  is_parsing_error (no_attribute "get_text") = true
  ∧ (product_title blank_page = None ∨ star_rating blank_page = None
     ∨ (∃ classes, star_rating blank_page = Some classes ∧ (length classes ≤ 1)%nat)
     ∨ (∃ tr, tr ∈ table_rows blank_page ∧ (row_th tr = None ∨ row_td tr = None))).
Proof.
  apply (parse_product_info_raises blank_page (py "u")). reflexivity.
Defined.

(** ** Listing pages *)

(** X10: [_parse_product_paths] cuts the first nine characters off every
    [href]: the links "../../../<path>" of the site give back their paths,
    an [href] of nine characters or fewer gives the empty path, and an
    anchor without [href] makes the whole call raise a [TypeError]. *)
Theorem parse_product_paths_outcomes (m : markup) :
  (∀ paths, product_anchors m = (λ p, Some (py "../../../" ++ p)) <$> paths →
     _parse_product_paths m = Returned paths)
  ∧ (∀ hrefs, product_anchors m = Some <$> hrefs →
       ∃ paths, _parse_product_paths m = Returned paths
                ∧ length paths = length hrefs
                ∧ ∀ i h, hrefs !! i = Some h → (length h ≤ 9)%nat →
                         paths !! i = Some [])
  ∧ (None ∈ product_anchors m → _parse_product_paths m = Raised not_subscriptable).
Proof.
  unfold _parse_product_paths. split; [| split].
  - intros paths ->. apply comprehension_returns, Forall2_fmap_l, Forall_Forall2_diag.
    apply Forall_forall. intros p _. by simpl.
  - intros hrefs ->. exists (slice_from 9 <$> hrefs). split; [| split].
    + apply comprehension_returns, Forall2_fmap, Forall_Forall2_diag.
      by apply Forall_forall.
    + apply length_fmap.
    + intros i h Hi Hlen. rewrite list_lookup_fmap, Hi.
      cbn [fmap option_fmap option_map]. f_equal.
      unfold slice_from. by apply drop_ge.
  - intros Hin. apply list_elem_of_split in Hin as (before & after & ->).
    revert after. induction before as [|a before IH]; intros after; simpl.
    + done.
    + destruct a as [h|]; [| done]. simpl. by rewrite IH.
Qed.

Lemma parse_product_paths_outcomes_witness :
  _parse_product_paths (listing_page None [Some (py "../../../t_1/index.html")])
    = Returned [py "t_1/index.html"]
  ∧ (∃ paths, _parse_product_paths (listing_page None [Some (py "index")])
                = Returned paths ∧ paths !! 0%nat = Some [])
  ∧ _parse_product_paths (listing_page None [Some (py "../../../t_1/index.html"); None])
    = Raised not_subscriptable.
Proof.
  split; [| split].
  - by apply (proj1 (parse_product_paths_outcomes
                       (listing_page None [Some (py "../../../t_1/index.html")]))
                [py "t_1/index.html"]).
  - destruct (proj1 (proj2 (parse_product_paths_outcomes
                (listing_page None [Some (py "index")]))) [py "index"] eq_refl)
      as (paths & H1 & _ & H3).
    exists paths. split; [exact H1 |]. apply (H3 0%nat (py "index")); [done |].
    vm_compute. lia.
  - apply (parse_product_paths_outcomes
             (listing_page None [Some (py "../../../t_1/index.html"); None])).
    apply list_elem_of_In. simpl. auto.
Defined.

(** ** The category map *)

Lemma category_fold_entries (d : gmap str str) (l : list category_anchor)
    (k v : str) :
  foldl (λ d a, <[lower (anchor_text a) := slice 3 11 (anchor_href a)]> d) d l !! k
  = Some v →
  d !! k = Some v
  ∨ ∃ a, a ∈ l ∧ k = lower (anchor_text a) ∧ v = slice 3 11 (anchor_href a).
Proof.
  revert d. induction l as [|a l IH]; intros d; simpl; [auto |].
  intros H. destruct (IH _ H) as [Hd|(a' & Ha' & ? & ?)].
  - destruct (decide (lower (anchor_text a) = k)) as [<-|N].
    + rewrite lookup_insert_eq in Hd. injection Hd as <-.
      right. exists a. split; [apply list_elem_of_here | done].
    + rewrite lookup_insert_ne in Hd by done. auto.
  - right. exists a'. split; [by apply list_elem_of_further | done].
Qed.

Lemma category_fold_keeps (d : gmap str str) (l : list category_anchor) (k : str) :
  is_Some (d !! k) →
  is_Some (foldl (λ d a, <[lower (anchor_text a) := slice 3 11 (anchor_href a)]> d)
                 d l !! k).
Proof.
  revert d. induction l as [|a l IH]; intros d Hd; [done |].
  simpl. apply IH. rewrite lookup_insert. by case_decide.
Qed.

Lemma category_fold_has (d : gmap str str) (l : list category_anchor)
    (a : category_anchor) :
  a ∈ l →
  is_Some (foldl (λ d a, <[lower (anchor_text a) := slice 3 11 (anchor_href a)]> d)
                 d l !! lower (anchor_text a)).
Proof.
  revert d. induction l as [|b l IH]; intros d Ha; [by apply elem_of_nil in Ha |].
  simpl. apply elem_of_cons in Ha as [->|Ha]; [| by apply IH].
  apply category_fold_keeps. by rewrite lookup_insert_eq.
Qed.

(** X11: The map of [_parse_category_paths] has an entry for every category
    anchor and no other: each key is the lowered text of an anchor, hence
    its own lowered form, and each value is the [href] of an anchor without
    its first 3 and its last 11 characters, which for the links
    "../<path>/index.html" of the site is the path. *)
Theorem parse_category_paths_entries (m : markup) :
  (∀ k v, _parse_category_paths m !! k = Some v →
     lower k = k
     ∧ ∃ a, a ∈ category_anchors m ∧ k = lower (anchor_text a)
            ∧ v = slice 3 11 (anchor_href a))
  ∧ (∀ a, a ∈ category_anchors m →
       is_Some (_parse_category_paths m !! lower (anchor_text a)))
  ∧ (∀ before a after path,
       category_anchors m = before ++ a :: after →
       Forall (λ b, lower (anchor_text b) ≠ lower (anchor_text a)) after →
       anchor_href a = py "../" ++ path ++ py "/index.html" →
       _parse_category_paths m !! lower (anchor_text a) = Some path).
Proof.
  split; [| split].
  - intros k v H. apply category_fold_entries in H as [H|(a & Ha & -> & ->)].
    + by rewrite lookup_empty in H.
    + split; [apply lower_idemp |]. by exists a.
  - intros a Ha. by apply category_fold_has.
  - intros before a after path Hm Hafter Hhref.
    rewrite (parse_category_paths_last m before after a Hm Hafter), Hhref.
    f_equal. unfold slice. rewrite !length_app.
    change (length (py "../")) with 3%nat.
    change (length (py "/index.html")) with 11%nat.
    replace (3 + (length path + 11) - 11 - 3)%nat with (length path) by lia.
    rewrite (drop_app_length' (py "../")) by done.
    by rewrite take_app_length.
Qed.

Lemma parse_category_paths_entries_witness :
  (lower (py "travel") = py "travel"
   ∧ ∃ a, a ∈ category_anchors index_page ∧ py "travel" = lower (anchor_text a)
          ∧ py "books/travel_2" = slice 3 11 (anchor_href a))
  ∧ is_Some (_parse_category_paths index_page !! lower (py "Broken"))
  ∧ _parse_category_paths index_page !! lower (py "Travel") = Some (py "books/travel_2").
Proof.
  destruct (parse_category_paths_entries index_page) as (H1 & H2 & H3).
  split; [| split].
  - by apply H1.
  - apply (H2 {| anchor_text := py "Broken"; anchor_href := py "../books/x/" |}).
    apply list_elem_of_In. simpl. auto.
  - refine (H3 [] {| anchor_text := py "Travel";
                     anchor_href := py "../books/travel_2/index.html" |}
               _ (py "books/travel_2") eq_refl _ eq_refl).
    repeat constructor; vm_compute; discriminate.
Defined.

(** ** The crawl before its cohort *)

(** X13: Whatever goes wrong before the pagination cohort is raised to the
    caller with the log untouched: a failed request of the index page or of
    the first listing page, an anchor without [href] on the first page, a
    pager whose last character is no digit. *)
Theorem collect_paths_raises_before_cohort
    (site : str → reply) (category : str) (log : list diagnostic) (e : exn) :
  (_request_to_page site index_path = Raised e →
   _collect_paths site category log = (Raised e, log))
  ∧ (∀ index path,
       _request_to_page site index_path = Returned index →
       _parse_category_paths index !! lower category = Some path →
       path ≠ [] →
       (_request_to_page site (listing_path path) = Raised e →
        _collect_paths site category log = (Raised e, log))
       ∧ (∀ markup,
            _request_to_page site (listing_path path) = Returned markup →
            (_parse_product_paths markup = Raised e →
             _collect_paths site category log = (Raised e, log))
            ∧ (∀ first,
                 _parse_product_paths markup = Returned first →
                 _get_page_count markup = Raised e →
                 _collect_paths site category log = (Raised e, log)))).
Proof.
  unfold _collect_paths, mbind, coroutine_bind, call. split.
  - by intros ->.
  - intros index path -> Hcat Hpath. cbv beta iota.
    rewrite Hcat, decide_False by done. split.
    + by intros ->.
    + intros markup ->. cbv beta iota. split.
      * by intros ->.
      * intros first -> Hcount. cbv beta iota. by rewrite Hcount.
Qed.

Lemma collect_paths_raises_before_cohort_witness :
  _collect_paths (site_of []) (py "Travel") []
    = (Raised (ClientResponseError 404), [])
  ∧ _collect_paths (site_of [(py "category/books_1/index.html", Response 200 index_page)])
      (py "Travel") []
    = (Raised (ClientResponseError 404), [])
  ∧ _collect_paths (site_one_page [None] NoReply) (py "Travel") []
    = (Raised not_subscriptable, []).
Proof.
  split; [| split].
  - by apply (collect_paths_raises_before_cohort (site_of []) (py "Travel") []).
  - by apply (proj2 (collect_paths_raises_before_cohort
                       (site_of [(py "category/books_1/index.html",
                                  Response 200 index_page)])
                       (py "Travel") [] (ClientResponseError 404))
                index_page (py "books/travel_2")).
  - by apply (proj2 (proj2 (collect_paths_raises_before_cohort
                       (site_one_page [None] NoReply) (py "Travel") [] not_subscriptable)
                index_page (py "books/travel_2") eq_refl eq_refl ltac:(done))
                (listing_page None [None]) eq_refl).
Defined.

(** ** A category of one page *)

(** X14: When the first listing page has no pager, the crawl returns the paths
    of that page and nothing else of the site matters: the result is the
    same for every site that serves this index page and this listing
    page.  With no product on the page the result is the empty list and the
    line "Paths to products ... are not found" is printed. *)
Theorem collect_paths_single_page
    (site : str → reply) (category : str) (index : markup) (path : str)
    (markup : markup) (first : list str) (log : list diagnostic) :
  _request_to_page site index_path = Returned index →
  _parse_category_paths index !! lower category = Some path →
  path ≠ [] →
  _request_to_page site (listing_path path) = Returned markup →
  pager_current markup = None →
  _parse_product_paths markup = Returned first →
  _collect_paths site category log
  = (Returned first, log ++ if decide (first = []) then [NoPathsLine] else []).
Proof.
  intros Hindex Hcat Hpath Hlisting Hpager Hfirst.
  rewrite (collect_paths_after_first_page site category index path markup first []
             log Hindex Hcat Hpath Hlisting Hfirst
             (get_page_count_no_pager markup Hpager)).
  by rewrite decide_True.
Qed.

Lemma collect_paths_single_page_witness :
  _collect_paths
    (site_one_page [Some (py "../../../t_1/index.html");
                    Some (py "../../../t_2/index.html");
                    Some (py "../../../t_3/index.html")] NoReply)
    (py "TRAVEL") []
  = (Returned [py "t_1/index.html"; py "t_2/index.html"; py "t_3/index.html"], [])
  ∧ _collect_paths (site_one_page [] NoReply) (py "Travel") []
    = (Returned [], [NoPathsLine]).
Proof.
  split.
  - by apply (collect_paths_single_page _ (py "TRAVEL") index_page (py "books/travel_2")
                (listing_page None [Some (py "../../../t_1/index.html");
                                    Some (py "../../../t_2/index.html");
                                    Some (py "../../../t_3/index.html")])).
  - by apply (collect_paths_single_page _ (py "Travel") index_page (py "books/travel_2")
                (listing_page None [])).
Defined.

(** ** The pages the crawl reads *)

Lemma get_page_count_bound (m : markup) (pages : list nat) :
  _get_page_count m = Returned pages → Forall (λ n, 2 ≤ n ≤ 9)%nat pages.
Proof.
  unfold _get_page_count. intros H.
  assert (∃ d, (d ≤ 9)%nat ∧ pages = seq 2 (d - 1)) as (d & Hd & ->).
  { destruct (pager_current m) as [text|].
    - destruct (last text) as [c|]; [| done]. unfold int_of_char in H.
      destruct (is_digit c) eqn:Ec; [| done]. injection H as <-.
      unfold is_digit in Ec. apply andb_true_iff in Ec as [E1 E2].
      apply N.leb_le in E1, E2.
      exists (N.to_nat (c - 48)). split; [lia |]. unfold range. f_equal. lia.
    - injection H as <-. exists 0%nat. split; [lia | done]. }
  apply Forall_forall. intros n Hn%elem_of_seq. lia.
Qed.

(** X12: [_get_page_count] reads the last character of the pager's text and
    nothing else.  Without pager it returns no page; for a pager whose text
    ends in a digit [d] it returns the pages from 2 to [d]; for a pager
    without text it raises an [IndexError], and for a pager whose last
    character is no digit a [ValueError].  So it returns at most eight
    pages and none beyond page 9, whatever the pager says. *)
Theorem get_page_count_outcomes (m : markup) :
  (pager_current m = None → _get_page_count m = Returned [])
  ∧ (pager_current m = Some [] →
     _get_page_count m = Raised (IndexError "string index out of range"))
  ∧ (∀ text c, pager_current m = Some (text ++ [c]) →
       (is_digit c = true →
        _get_page_count m = Returned (seq 2 (N.to_nat (c - 48) - 1)))
       ∧ (is_digit c = false →
          _get_page_count m
          = Raised (ValueError "invalid literal for int() with base 10")))
  ∧ (∀ pages, _get_page_count m = Returned pages →
       (length pages ≤ 8)%nat ∧ Forall (λ n, 2 ≤ n ≤ 9)%nat pages).
Proof.
  split; [| split; [| split]].
  - apply get_page_count_no_pager.
  - intros H. unfold _get_page_count. by rewrite H.
  - intros text c H. rewrite (get_page_count_last_char m text c H).
    split; by intros ->.
  - intros pages H. split; [| by apply (get_page_count_bound m)].
    unfold _get_page_count in H. destruct (pager_current m) as [text|].
    + destruct (last text) as [c|]; [| done]. unfold int_of_char in H.
      destruct (is_digit c) eqn:Ec; [| done]. injection H as <-.
      unfold is_digit in Ec. apply andb_true_iff in Ec as [E1 E2].
      apply N.leb_le in E1, E2. unfold range. rewrite length_seq. lia.
    + injection H as <-. simpl. lia.
Qed.

Lemma get_page_count_outcomes_witness :
  _get_page_count (listing_page None []) = Returned []
  ∧ _get_page_count (page_with_pager []) = Raised (IndexError "string index out of range")
  ∧ _get_page_count (page_with_pager (py "Page 1 of 5")) = Returned [2; 3; 4; 5]%nat
  ∧ _get_page_count (page_with_pager (py "Page 1 of 199"))
    = Returned [2; 3; 4; 5; 6; 7; 8; 9]%nat
  ∧ _get_page_count (page_with_pager (py "Page 1 of many"))
    = Raised (ValueError "invalid literal for int() with base 10")
  ∧ (length [2; 3; 4; 5; 6; 7; 8; 9]%nat ≤ 8)%nat
  ∧ Forall (λ n, 2 ≤ n ≤ 9)%nat [2; 3; 4; 5; 6; 7; 8; 9]%nat.
Proof.
  split; [| split; [| split; [| split; [| split]]]].
  - by apply (proj1 (get_page_count_outcomes (listing_page None []))).
  - by apply (proj1 (proj2 (get_page_count_outcomes (page_with_pager [])))).
  - by apply (proj1 (proj2 (proj2 (get_page_count_outcomes
                (page_with_pager (py "Page 1 of 5")))))
             (py "Page 1 of ") 53).
  - by apply (proj1 (proj2 (proj2 (get_page_count_outcomes
                (page_with_pager (py "Page 1 of 199")))))
             (py "Page 1 of 19") 57).
  - by apply (proj1 (proj2 (proj2 (get_page_count_outcomes
                (page_with_pager (py "Page 1 of many")))))
             (py "Page 1 of man") 121).
  - by apply (proj2 (proj2 (proj2 (get_page_count_outcomes
                (page_with_pager (py "Page 1 of 199")))))
             [2; 3; 4; 5; 6; 7; 8; 9]%nat).
Defined.

Lemma request_to_page_ext (site1 site2 : str → reply) (path : str) :
  site1 path = site2 path → _request_to_page site1 path = _request_to_page site2 path.
Proof. unfold _request_to_page. by intros ->. Qed.

(** X15: The crawl of a category asks the site for the index page, for the first
    listing page and for pages 2 to 9 at most: two sites that agree on
    these paths give the same crawl, whatever else they serve. *)
Theorem collect_paths_reads_at_most_nine_pages
    (site1 site2 : str → reply) (category : str) (log : list diagnostic) :
  site1 index_path = site2 index_path →
  (∀ path, site1 (listing_path path) = site2 (listing_path path)) →
  (∀ path n, (2 ≤ n ≤ 9)%nat → site1 (page_path path n) = site2 (page_path path n)) →
  _collect_paths site1 category log = _collect_paths site2 category log.
Proof.
  intros Hindex Hlisting Hpages.
  unfold _collect_paths, mbind, coroutine_bind, call.
  rewrite (request_to_page_ext site1 site2 index_path Hindex).
  destruct (_request_to_page site2 index_path) as [index|]; [| done].
  destruct (_parse_category_paths index !! lower category) as [path|]; [| done].
  destruct (decide (path = [])); [done |].
  rewrite (request_to_page_ext site1 site2 _ (Hlisting path)).
  destruct (_request_to_page site2 (listing_path path)) as [markup|]; [| done].
  destruct (_parse_product_paths markup) as [first|]; [| done].
  destruct (_get_page_count markup) as [pages|] eqn:Hcount; [| done].
  pose proof (get_page_count_bound markup pages Hcount) as Hbound.
  assert ((λ n, _request_to_page site1 (page_path path n)) <$> pages
          = (λ n, _request_to_page site2 (page_path path n)) <$> pages) as ->;
    [| done].
  apply list_fmap_ext. intros i page Hpage.
  apply request_to_page_ext, Hpages.
  rewrite Forall_forall in Hbound. apply Hbound. by eapply list_elem_of_lookup_2.
Qed.

Lemma site_of_cons_ne (p : str * reply) (pages : list (str * reply)) (path : str) :
  p.1 ≠ path → site_of (p :: pages) path = site_of pages path.
Proof.
  intros Hne. unfold site_of. cbn [list_find].
  rewrite decide_False by done. by destruct (list_find _ pages) as [[i found]|].
Qed.

Lemma collect_paths_reads_at_most_nine_pages_witness :
  _collect_paths (site_of travel_pages) (py "Travel") []
  = _collect_paths (site_of travel_pages_and_stray) (py "Travel") [].
Proof.
  apply collect_paths_reads_at_most_nine_pages.
  - reflexivity.
  - intros path. symmetry. apply site_of_cons_ne.
    intros E. cbv in E. discriminate E.
  - intros path n _. symmetry. apply site_of_cons_ne.
    intros E. cbv - [str_of_nat] in E. discriminate E.
Defined.

(** ** What the crawl returns *)

Lemma extend_each_prefix (first : list str) (bodies : list markup) (results : list str) :
  extend_each first bodies = Returned results → first `prefix_of` results.
Proof.
  revert first. induction bodies as [|body bodies IH]; intros first; simpl.
  - by intros [= <-].
  - destruct (_parse_product_paths body) as [paths|]; [| done]. simpl.
    intros H. apply IH in H. etransitivity; [| exact H]. by apply prefix_app_r.
Qed.

(** X16: Whenever the crawl returns, the paths of the first listing page come
    first in its result, in their order on the page, and the lines already
    in the log are kept. *)
Theorem collect_paths_keeps_first_page
    (site : str → reply) (category : str) (index : markup) (path : str)
    (markup : markup) (first results : list str) (log log' : list diagnostic) :
  _request_to_page site index_path = Returned index →
  _parse_category_paths index !! lower category = Some path →
  _request_to_page site (listing_path path) = Returned markup →
  _parse_product_paths markup = Returned first →
  _collect_paths site category log = (Returned results, log') →
  first `prefix_of` results ∧ log `prefix_of` log'.
Proof.
  intros Hindex Hcat Hlisting Hfirst H.
  assert (Hpath : path ≠ []).
  { intros ->. revert H. unfold _collect_paths, mbind, coroutine_bind, call.
    rewrite Hindex. cbv beta iota. by rewrite Hcat. }
  destruct (_get_page_count markup) as [pages|e] eqn:Hcount.
  - rewrite (collect_paths_after_first_page site category index path markup first
               pages log Hindex Hcat Hpath Hlisting Hfirst Hcount) in H.
    destruct (decide (pages = [])).
    + injection H as <- <-. split; [done | by apply prefix_app_r].
    + destruct (TaskGroup _) as [bodies|group].
      * destruct (extend_each first bodies) as [results'|] eqn:Ee; [| done].
        injection H as <- <-. split; [by eapply extend_each_prefix |].
        by apply prefix_app_r.
      * injection H as <- <-. split; [done |].
        rewrite <- app_assoc. by apply prefix_app_r.
  - exfalso. revert H. unfold _collect_paths, mbind, coroutine_bind, call.
    rewrite Hindex. cbv beta iota. rewrite Hcat, decide_False by done.
    rewrite Hlisting. cbv beta iota. rewrite Hfirst. cbv beta iota.
    by rewrite Hcount.
Qed.

Lemma collect_paths_keeps_first_page_witness :
  [py "a_1/index.html"]
    `prefix_of` [py "a_1/index.html"; py "b_2/index.html"; py "c_3/index.html";
                 py "d_4/index.html"]
  ∧ [NoPathsLine] `prefix_of` [NoPathsLine].
Proof.
  apply (collect_paths_keeps_first_page
           (site_three_pages (Response 200 last_listing)) (py "Default") index_page
           (py "books/default_15") (listing_page (Some (py "Page 1 of 3"))
                                      [Some (py "../../../a_1/index.html")])
           _ _ [NoPathsLine] [NoPathsLine]); reflexivity.
Defined.

(** ** What [scrape] returns *)

Lemma comprehension_returned_inv {A B} (f : A → outcome B) (xs : list A)
    (ys : list B) :
  comprehension f xs = Returned ys → Forall2 (λ x y, f x = Returned y) xs ys.
Proof.
  revert ys. induction xs as [|x xs IH]; intros ys; simpl.
  - intros [= <-]. constructor.
  - destruct (f x) as [y|] eqn:Ex; [| done]. simpl.
    destruct (comprehension f xs) as [ys'|]; [| done]. simpl.
    intros [= <-]. constructor; [done | by apply IH].
Qed.

Lemma first_occurrences_nil_inv {K} `{EqDecision K} (l : list K) :
  first_occurrences l = [] → l = [].
Proof. by destruct l. Qed.

Lemma scrape_detail_failure (base_url : str) (site : str → reply) (category : str)
    (paths : list str) (log log0 : list diagnostic) (p : str) (e : exn) :
  _collect_paths site category log = (Returned paths, log0) →
  p ∈ paths → _request_to_page site p = Raised e →
  ∃ lines,
    scrape base_url site category log = (Returned None, log0 ++ lines)
    ∧ failure_lines (failures_of site paths) lines.
Proof.
  intros Hpaths Hp He.
  rewrite (scrape_after_paths base_url site category paths log log0 Hpaths)
    by (intros ->; by apply elem_of_nil in Hp).
  destruct (TaskGroup_some_raised (detail_tasks site paths) e)
    as (group & Hgroup & _ & _).
  { rewrite <- He. by apply list_elem_of_fmap_2. }
  rewrite Hgroup. exists (cohort_handlers group). split; [done |].
  by apply cohort_handlers_requests.
Qed.

Lemma scrape_returned_inv (base_url : str) (site : str → reply) (category : str)
    (log log' : list diagnostic) (result : option (list (option record))) :
  scrape base_url site category log = (Returned result, log') →
  match result with
  | Some records =>
      ∃ paths, _collect_paths site category log = (Returned paths, log')
               ∧ records ≠ []
               ∧ Forall2 (λ path r, record_of_path base_url site path = Returned r)
                         (first_occurrences paths) records
  | None =>
      _collect_paths site category log = (Returned [], log')
      ∨ ∃ paths log0 lines p e,
          _collect_paths site category log = (Returned paths, log0)
          ∧ p ∈ paths ∧ _request_to_page site p = Raised e
          ∧ log' = log0 ++ lines
          ∧ failure_lines (failures_of site paths) lines
  end.
Proof.
  intros H.
  destruct (_collect_paths site category log) as [[paths|e] log0] eqn:Hc.
  2: { revert H. unfold scrape, mbind at 1, coroutine_bind at 1. by rewrite Hc. }
  destruct (decide (paths = [])) as [->|Hne].
  { revert H. unfold scrape, mbind at 1, coroutine_bind at 1. rewrite Hc.
    intros [= <- <-]. by left. }
  rewrite (scrape_after_paths base_url site category paths log log0 Hc Hne) in H.
  destruct (TaskGroup (detail_tasks site paths)) as [bodies|group] eqn:Et.
  - destruct (comprehension _ _) as [records|] eqn:Er; [| done].
    injection H as <- <-. exists paths. split; [done |].
    apply comprehension_returned_inv in Er. split; [| done].
    intros ->. apply Forall2_nil_inv_r in Er.
    by apply first_occurrences_nil_inv in Er.
  - injection H as <- <-. right.
    pose proof (cohort_handlers_requests site paths group Et) as Hlines.
    apply TaskGroup_inr_inv in Et as [-> Hg].
    destruct (raised_of (detail_tasks site paths)) as [|e group] eqn:Er; [done |].
    assert (He : e ∈ raised_of (detail_tasks site paths))
      by (rewrite Er; apply list_elem_of_here).
    apply elem_of_raised_of, list_elem_of_fmap in He as (p & Hp & Hin).
    by exists paths, log0, (cohort_handlers (e :: group)), p, e.
Qed.

(** X18: The three ways [scrape] ends without raising: it returns [None] when
    the crawl gave no path; it returns [None] when a request of the detail
    cohort failed, with the lines of the failures added to the log ("The
    HTTP Error" alone when the failing requests all fail with client
    errors, "The error" alone when they all run into the total timeout);
    and otherwise it returns a list of records that is never empty, with
    one entry for each distinct path and no line added to the log. *)
Theorem scrape_returns (base_url : str) (site : str → reply) (category : str)
    (log log' : list diagnostic) (result : option (list (option record))) :
  scrape base_url site category log = (Returned result, log') →
  match result with
  | Some records =>
      ∃ paths, _collect_paths site category log = (Returned paths, log')
               ∧ records ≠ []
               ∧ Forall2 (λ path r, record_of_path base_url site path = Returned r)
                         (first_occurrences paths) records
  | None =>
      _collect_paths site category log = (Returned [], log')
      ∨ ∃ paths log0 lines p e,
          _collect_paths site category log = (Returned paths, log0)
          ∧ p ∈ paths ∧ _request_to_page site p = Raised e
          ∧ log' = log0 ++ lines
          ∧ failure_lines (failures_of site paths) lines
  end.
Proof. apply scrape_returned_inv. Qed.

Lemma scrape_returns_witness :
  (_collect_paths (site_one_page [Some (py "../../../t_1/index.html")] NoReply)
     (py "Travel") [] = (Returned [], [OtherErrorLine])
   ∨ ∃ paths log0 lines p e,
       _collect_paths (site_one_page [Some (py "../../../t_1/index.html")] NoReply)
         (py "Travel") [] = (Returned paths, log0)
       ∧ p ∈ paths
       ∧ _request_to_page
           (site_one_page [Some (py "../../../t_1/index.html")] NoReply) p = Raised e
       ∧ [OtherErrorLine] = log0 ++ lines
       ∧ failure_lines
           (failures_of (site_one_page [Some (py "../../../t_1/index.html")] NoReply)
              paths) lines)
  ∧ (_collect_paths (site_one_page [] NoReply) (py "Travel") []
       = (Returned [], [NoPathsLine])
     ∨ ∃ paths log0 lines p e,
         _collect_paths (site_one_page [] NoReply) (py "Travel") []
           = (Returned paths, log0)
         ∧ p ∈ paths ∧ _request_to_page (site_one_page [] NoReply) p = Raised e
         ∧ [NoPathsLine] = log0 ++ lines
         ∧ failure_lines (failures_of (site_one_page [] NoReply) paths) lines)
  ∧ ∃ paths, _collect_paths tea_site (py "Travel") [] = (Returned paths, [])
             ∧ [Some tea_record] ≠ []
             ∧ Forall2 (λ path r, record_of_path shop_url tea_site path = Returned r)
                       (first_occurrences paths) [Some tea_record].
Proof.
  split; [| split].
  - apply (scrape_returns shop_url
             (site_one_page [Some (py "../../../t_1/index.html")] NoReply)
             (py "Travel") [] [OtherErrorLine] None).
    reflexivity.
  - apply (scrape_returns shop_url (site_one_page [] NoReply) (py "Travel") []
             [NoPathsLine] None).
    reflexivity.
  - apply (scrape_returns shop_url tea_site (py "Travel") [] [] (Some [Some tea_record])).
    reflexivity.
Defined.

(** ** The session *)


Lemma session_closed_fresh (s : scraper) :
  session_closed {| _connector := _connector s;
                    _session := Some (length (sessions s));
                    sessions := sessions s ++ [false];
                    console := console s |} (length (sessions s))
  = connector_closed s.
Proof.
  unfold session_closed. cbn [sessions].
  by rewrite lookup_app_r, Nat.sub_diag.
Qed.

Lemma session_closed_fresh_old (s : scraper) (j : nat) :
  (j < length (sessions s))%nat →
  session_closed {| _connector := _connector s;
                    _session := Some (length (sessions s));
                    sessions := sessions s ++ [false];
                    console := console s |} j
  = session_closed s j.
Proof.
  intros Hj. unfold session_closed. cbn [sessions].
  by rewrite lookup_app_l.
Qed.

Lemma session_invariant_enter (s : scraper) :
  session_invariant s → session_invariant (__aenter__ s).
Proof.
  intros Hinv. pose proof Hinv as [Hheld Hopen]. unfold __aenter__.
  assert (Hfresh : (∀ j, (j < length (sessions s))%nat →
                         session_closed s j = true) →
    session_invariant {| _connector := _connector s;
                         _session := Some (length (sessions s));
                         sessions := sessions s ++ [false];
                         console := console s |}).
  { intros Hnone. split; cbn [_session sessions].
    - intros i [= <-]. rewrite length_app. simpl. lia.
    - rewrite length_app. simpl. intros j Hj Hc.
      destruct (decide (j < length (sessions s))%nat) as [Hlt|Hge].
      + rewrite session_closed_fresh_old in Hc by done.
        rewrite (Hnone j Hlt) in Hc. done.
      + f_equal. lia. }
  destruct (_session s) as [i|] eqn:Es.
  - destruct (session_closed s i) eqn:Ec; [| exact Hinv].
    apply Hfresh. intros j Hj.
    destruct (session_closed s j) eqn:Ej; [done |].
    specialize (Hopen j Hj Ej). injection Hopen as ->. congruence.
  - apply Hfresh. intros j Hj.
    destruct (session_closed s j) eqn:Ej; [done |].
    by specialize (Hopen j Hj Ej).
Qed.

(** [__aexit__] opens nothing. *)
Lemma session_closed_exit (s : scraper) (j : nat) :
  session_closed s j = true → session_closed (__aexit__ s) j = true.
Proof.
  unfold __aexit__. destruct (_session s) as [i|]; [| done].
  destruct (session_closed s i) eqn:Ec; [done |].
  unfold session_closed, connector_closed. cbn [sessions _connector].
  intros [Hj|Hj]%orb_true_iff; apply orb_true_iff.
  - left. destruct (decide (i = j)) as [->|Hne].
    + destruct (decide (j < length (sessions s))%nat).
      * by rewrite list_lookup_insert_eq.
      * by rewrite list_insert_ge by lia.
    + by rewrite list_lookup_insert_ne.
  - right. by destruct (_connector s) as [[]|].
Qed.

Lemma length_sessions_exit (s : scraper) :
  length (sessions (__aexit__ s)) = length (sessions s).
Proof.
  unfold __aexit__. destruct (_session s) as [i|]; [| done].
  destruct (session_closed s i); [done |]. apply length_insert.
Qed.

Lemma session_held_exit (s : scraper) :
  _session (__aexit__ s) = _session s.
Proof.
  unfold __aexit__. destruct (_session s) as [i|] eqn:E; [| done].
  by destruct (session_closed s i).
Qed.

Lemma all_closed_exit (s : scraper) :
  session_invariant s → all_closed (__aexit__ s).
Proof.
  intros [Hheld Hopen] j Hj. rewrite length_sessions_exit in Hj.
  destruct (session_closed s j) eqn:Ej; [by apply session_closed_exit |].
  pose proof (Hopen j Hj Ej) as Hs. unfold __aexit__. rewrite Hs, Ej.
  unfold session_closed. cbn [sessions].
  by rewrite list_lookup_insert_eq.
Qed.

Lemma session_invariant_exit (s : scraper) :
  session_invariant s → session_invariant (__aexit__ s).
Proof.
  intros Hinv. pose proof (all_closed_exit s Hinv) as Hall.
  destruct Hinv as [Hheld Hopen]. split.
  - intros i. rewrite session_held_exit, length_sessions_exit. apply Hheld.
  - intros j Hj Hc. by rewrite (Hall j Hj) in Hc.
Qed.

Lemma after_calls_snoc (with_connector : bool) (calls : list session_call)
    (c : session_call) :
  after_calls with_connector (calls ++ [c])
  = session_step (after_calls with_connector calls) c.
Proof. unfold after_calls. by rewrite foldl_app. Qed.

Lemma after_calls_invariant (with_connector : bool) (calls : list session_call) :
  session_invariant (after_calls with_connector calls).
Proof.
  induction calls as [|c calls IH] using rev_ind.
  - split; [done |]. intros j Hj. simpl in Hj. lia.
  - rewrite after_calls_snoc. destruct c; simpl.
    + by apply session_invariant_enter.
    + by apply session_invariant_exit.
Qed.

(** The scraper keeps the connector of [__init__], or has none. *)
Lemma session_step_connector (s : scraper) (c : session_call) :
  is_Some (_connector (session_step s c)) ↔ is_Some (_connector s).
Proof.
  destruct c; simpl; unfold __aenter__, __aexit__;
    destruct (_session s) as [i|]; try done;
    destruct (session_closed s i); try done.
  cbn [_connector]. by rewrite fmap_is_Some.
Qed.

Lemma after_calls_connector (with_connector : bool) (calls : list session_call) :
  is_Some (_connector (after_calls with_connector calls)) ↔ with_connector = true.
Proof.
  induction calls as [|c calls IH] using rev_ind.
  - destruct with_connector; simpl.
    + split; [done |]. intros _. by eexists.
    + split; [by intros [? ?] | done].
  - by rewrite after_calls_snoc, session_step_connector.
Qed.

Lemma filter_at_most_one {A} (P : A → Prop) `{∀ x, Decision (P x)} (l : list A) :
  NoDup l →
  (∀ x y, x ∈ l → y ∈ l → P x → P y → x = y) →
  (length (filter P l) ≤ 1)%nat.
Proof.
  induction 1 as [|x l Hx _ IH]; intros Hone; [simpl; lia |].
  rewrite filter_cons. destruct (decide (P x)) as [Hp|Hp].
  - assert (filter P l = []) as ->; [| simpl; lia].
    destruct (filter P l) as [|y l'] eqn:E; [done |]. exfalso.
    assert (y ∈ filter P l) as [Hy Hin]%list_elem_of_filter
      by (rewrite E; apply list_elem_of_here).
    rewrite (Hone x y) in Hx; [done | | | done..].
    + apply list_elem_of_here.
    + by apply list_elem_of_further.
  - apply IH. intros y z Hy Hz. apply Hone; by apply list_elem_of_further.
Qed.

(** X20: Whatever sequence of [__aenter__] and [__aexit__] calls a new
    scraper goes through, with a connector of its own or without, it never
    has two sessions open: the only session that can be open is the one it
    holds. *)
Theorem session_never_leaks (with_connector : bool) (calls : list session_call) :
  (open_sessions (after_calls with_connector calls) ≤ 1)%nat
  ∧ ∀ j, (j < length (sessions (after_calls with_connector calls)))%nat →
         session_closed (after_calls with_connector calls) j = false →
         _session (after_calls with_connector calls) = Some j.
Proof.
  destruct (after_calls_invariant with_connector calls) as [Hheld Hopen].
  split; [| exact Hopen].
  apply filter_at_most_one; [apply NoDup_seq |].
  intros j k Hj%elem_of_seq Hk%elem_of_seq Hcj Hck.
  assert (Some j = Some k) as [= ->]; [| done].
  rewrite <- (Hopen j), <- (Hopen k); [done | lia | done | lia | done].
Qed.

Lemma session_never_leaks_witness :
  (open_sessions (after_calls true [Enter; Exit; Enter; Enter]) ≤ 1)%nat
  ∧ _session (after_calls false [Enter; Exit; Enter]) = Some 1%nat.
Proof.
  split.
  - apply (session_never_leaks true [Enter; Exit; Enter; Enter]).
  - apply (proj2 (session_never_leaks false [Enter; Exit; Enter]) 1%nat).
    + simpl. lia.
    + reflexivity.
Defined.

Lemma enter_fresh (t : scraper) :
  (∀ i, _session t = Some i → session_closed t i = true) →
  __aenter__ t = {| _connector := _connector t;
                    _session := Some (length (sessions t));
                    sessions := sessions t ++ [false];
                    console := console t |}.
Proof.
  intros Ht. unfold __aenter__. destruct (_session t) as [i|]; [| done].
  by rewrite (Ht i eq_refl).
Qed.

(** Once the connector of [__init__] is closed, every session is closed
    from its birth and [__aenter__] creates one at each call. *)
Lemma enter_with_closed_connector (t : scraper) :
  connector_closed t = true →
  sessions (__aenter__ t) = sessions t ++ [false]
  ∧ _session (__aenter__ t) = Some (length (sessions t))
  ∧ session_closed (__aenter__ t) (length (sessions t)) = true
  ∧ sessions (__aenter__ (__aenter__ t)) = sessions t ++ [false; false].
Proof.
  intros Hconn.
  assert (He : __aenter__ t = {| _connector := _connector t;
                                 _session := Some (length (sessions t));
                                 sessions := sessions t ++ [false];
                                 console := console t |}).
  { apply enter_fresh. intros i' _. unfold session_closed. rewrite Hconn.
    apply orb_true_r. }
  rewrite He. cbn [sessions _session]. split; [done |]. split; [done |].
  split; [by rewrite session_closed_fresh |].
  rewrite enter_fresh.
  - cbn [sessions]. by rewrite <- app_assoc.
  - intros i' _. unfold session_closed, connector_closed. cbn [_connector].
    unfold connector_closed in Hconn. rewrite Hconn. apply orb_true_r.
Qed.

(** X21: [async with] on a scraper, whatever it went through before.  While
    the connector of [__init__] is not closed, and always when there is
    none, entering leaves the scraper with an open session, and entering
    again changes nothing.  Leaving closes every session; leaving again
    only prints "ClientSession have already closed".  Entering after that
    creates one more session: without connector of [__init__] it is open;
    with one it is closed from its birth, for the connector it shares was
    closed with the first session, and every further entering creates yet
    another session. *)
Theorem session_enter_exit (with_connector : bool) (calls : list session_call) :
  let s := after_calls with_connector calls in
  let entered := __aenter__ s in
  let left := __aexit__ entered in
  (connector_closed s = false →
   ∃ i, _session entered = Some i
        ∧ (i < length (sessions entered))%nat
        ∧ session_closed entered i = false
        ∧ __aenter__ entered = entered)
  ∧ (connector_closed s = true →
     sessions entered = sessions s ++ [false]
     ∧ _session entered = Some (length (sessions s))
     ∧ session_closed entered (length (sessions s)) = true
     ∧ sessions (__aenter__ entered) = sessions s ++ [false; false])
  ∧ all_closed left
  ∧ (_connector (__aexit__ left) = _connector left
     ∧ sessions (__aexit__ left) = sessions left
     ∧ _session (__aexit__ left) = _session left
     ∧ console (__aexit__ left)
       = console left ++ ["ClientSession have already closed"%string])
  ∧ (with_connector = false →
     sessions (__aenter__ left) = sessions left ++ [false]
     ∧ _session (__aenter__ left) = Some (length (sessions left))
     ∧ session_closed (__aenter__ left) (length (sessions left)) = false)
  ∧ (with_connector = true →
     connector_closed left = true
     ∧ sessions (__aenter__ left) = sessions left ++ [false]
     ∧ _session (__aenter__ left) = Some (length (sessions left))
     ∧ session_closed (__aenter__ left) (length (sessions left)) = true
     ∧ sessions (__aenter__ (__aenter__ left)) = sessions left ++ [false; false]).
Proof.
  intros s entered left.
  pose proof (after_calls_invariant with_connector calls) as Hinv. fold s in Hinv.
  pose proof (session_invariant_enter s Hinv) as Hinv1. fold entered in Hinv1.
  pose proof (all_closed_exit _ Hinv1) as Hclosed. fold left in Hclosed.
  pose proof enter_fresh as Hfresh.
  assert (Hsome : ∃ i, _session entered = Some i ∧ (i < length (sessions entered))%nat).
  { destruct Hinv1 as [Hheld _]. unfold entered, __aenter__ in *.
    destruct (_session s) as [i|] eqn:Es.
    - destruct (session_closed s i); [by eexists; split; [| apply Hheld] |].
      exists i. split; [done |]. by apply Hheld.
    - by eexists; split; [| apply Hheld]. }
  destruct Hsome as (i & Hi & Hlt).
  assert (Hleft : _session left = Some i)
    by (unfold left; by rewrite session_held_exit).
  assert (Hc : session_closed left i = true).
  { apply Hclosed. unfold left. by rewrite length_sessions_exit. }
  split; [| split; [| split; [done | split; [| split]]]].
  - intros Hconn.
    assert (Hopen : session_closed entered i = false).
    { unfold entered, __aenter__ in *. destruct (_session s) as [i'|] eqn:Es.
      - destruct (session_closed s i') eqn:Ec.
        + injection Hi as <-. by rewrite session_closed_fresh.
        + rewrite Es in Hi. by injection Hi as <-.
      - injection Hi as <-. by rewrite session_closed_fresh. }
    exists i. split; [done |]. split; [done |]. split; [done |].
    unfold __aenter__ at 1. by rewrite Hi, Hopen.
  - apply enter_with_closed_connector.
  - assert (__aexit__ left
            = {| _connector := _connector left;
                 _session := _session left;
                 sessions := sessions left;
                 console := console left
                            ++ ["ClientSession have already closed"%string] |}) as ->.
    { unfold __aexit__ at 1. by rewrite Hleft, Hc. }
    done.
  - intros ->.
    rewrite (Hfresh left) by (intros i' Hi'; congruence).
    cbn [sessions _session]. split; [done |]. split; [done |].
    rewrite session_closed_fresh. unfold connector_closed.
    destruct (_connector left) as [b|] eqn:E; [| done].
    assert (is_Some (_connector (after_calls false (calls ++ [Enter; Exit]))))
      as Hsome%after_calls_connector; [| done].
    unfold after_calls. rewrite foldl_app. simpl. fold (after_calls false calls).
    fold s entered left. by rewrite E.
  - intros ->.
    assert (connector_closed left = true) as Hcl;
      [| split; [exact Hcl | by apply enter_with_closed_connector]].
    assert (is_Some (_connector s)) as [b Hb] by by apply after_calls_connector.
    unfold left, __aexit__. rewrite Hi.
    destruct (session_closed entered i) eqn:Ec.
    + unfold connector_closed. cbn [_connector].
      assert (Hce : _connector entered = Some b).
      { unfold entered, __aenter__. destruct (_session s) as [i'|]; [| done].
        by destruct (session_closed s i'). }
      rewrite Hce. simpl.
      destruct b; [done |]. exfalso.
      destruct (proj1 (orb_true_iff _ _) Ec) as [Hown|Hconn].
      * unfold entered, __aenter__ in *. destruct (_session s) as [i'|] eqn:Es.
        -- destruct (session_closed s i') eqn:Ec'.
           ++ injection Hi as <-. cbn [sessions] in Hown.
              by rewrite lookup_app_r, Nat.sub_diag in Hown.
           ++ rewrite Es in Hi. injection Hi as <-.
              unfold session_closed, connector_closed in Ec'.
              rewrite Hb in Ec'. simpl in Ec'. rewrite orb_false_r in Ec'.
              congruence.
        -- injection Hi as <-. cbn [sessions] in Hown.
           by rewrite lookup_app_r, Nat.sub_diag in Hown.
      * unfold connector_closed in Hconn. by rewrite Hce in Hconn.
    + unfold connector_closed. cbn [_connector].
      assert (Hce : is_Some (_connector entered)).
      { unfold entered, __aenter__. destruct (_session s) as [i'|]; [| by eexists].
        destruct (session_closed s i'); by eexists. }
      by destruct Hce as [b' ->].
Qed.

Lemma session_enter_exit_witness :
  (∃ i, _session (__aenter__ (after_calls true [])) = Some i
        ∧ (i < length (sessions (__aenter__ (after_calls true []))))%nat
        ∧ session_closed (__aenter__ (after_calls true [])) i = false
        ∧ __aenter__ (__aenter__ (after_calls true []))
          = __aenter__ (after_calls true []))
  ∧ (connector_closed (__aexit__ (__aenter__ (after_calls true []))) = true
     ∧ sessions (__aenter__ (__aexit__ (__aenter__ (after_calls true []))))
       = sessions (__aexit__ (__aenter__ (after_calls true []))) ++ [false]
     ∧ _session (__aenter__ (__aexit__ (__aenter__ (after_calls true []))))
       = Some (length (sessions (__aexit__ (__aenter__ (after_calls true [])))))
     ∧ session_closed (__aenter__ (__aexit__ (__aenter__ (after_calls true []))))
         (length (sessions (__aexit__ (__aenter__ (after_calls true []))))) = true
     ∧ sessions (__aenter__ (__aenter__ (__aexit__ (__aenter__ (after_calls true [])))))
       = sessions (__aexit__ (__aenter__ (after_calls true []))) ++ [false; false])
  ∧ (sessions (__aenter__ (after_calls true [Enter; Exit]))
     = sessions (after_calls true [Enter; Exit]) ++ [false]
     ∧ _session (__aenter__ (after_calls true [Enter; Exit])) = Some 1%nat
     ∧ session_closed (__aenter__ (after_calls true [Enter; Exit])) 1 = true
     ∧ sessions (__aenter__ (__aenter__ (after_calls true [Enter; Exit])))
       = sessions (after_calls true [Enter; Exit]) ++ [false; false])
  ∧ (sessions (__aenter__ (__aexit__ (__aenter__ (after_calls false []))))
     = sessions (__aexit__ (__aenter__ (after_calls false []))) ++ [false]
     ∧ _session (__aenter__ (__aexit__ (__aenter__ (after_calls false []))))
       = Some 1%nat
     ∧ session_closed (__aenter__ (__aexit__ (__aenter__ (after_calls false []))))
         1 = false).
Proof.
  pose proof (session_enter_exit true []) as H1. cbv zeta in H1.
  pose proof (session_enter_exit true [Enter; Exit]) as H2. cbv zeta in H2.
  pose proof (session_enter_exit false []) as H3. cbv zeta in H3.
  destruct H1 as (Hopen & _ & _ & _ & _ & Hconnector).
  destruct H2 as (_ & Hclosed & _).
  destruct H3 as (_ & _ & _ & _ & Hagain & _).
  split; [| split; [| split]].
  - apply Hopen. reflexivity.
  - apply Hconnector. reflexivity.
  - apply Hclosed. reflexivity.
  - apply Hagain. reflexivity.
Defined.

(** ** Tables *)

Lemma column_dict_get (label : str) (df : DataFrame) :
  column label df = dict_get label df.
Proof.
  unfold column. induction df as [|[l cells] df IH]; [done |].
  cbn [list_find dict_get fst]. destruct (decide (l = label)) as [->|N].
  - by rewrite decide_True.
  - rewrite decide_False by done. rewrite <- IH.
    by destruct (list_find _ df) as [[i found]|].
Qed.

Lemma column_dict_set (label label' : str) (cells : list cell) (df : DataFrame) :
  column label (dict_set label' cells df) =
    if decide (label = label') then Some cells else column label df.
Proof. rewrite !column_dict_get. apply dict_get_set. Qed.

Lemma column_dict_set_ne (label label' : str) (cells : list cell) (df : DataFrame) :
  label ≠ label' → column label (dict_set label' cells df) = column label df.
Proof. intros H. by rewrite column_dict_set, decide_False. Qed.

Lemma dict_get_labelled {V} (f : str → V) (labels : list str) (label : str) :
  dict_get label ((λ l, (l, f l)) <$> labels) =
    if decide (label ∈ labels) then Some (f label) else None.
Proof.
  induction labels as [|l labels IH].
  - by rewrite decide_False by apply not_elem_of_nil.
  - rewrite fmap_cons. cbn [dict_get]. destruct (decide (label = l)) as [->|N].
    + by rewrite decide_True by apply list_elem_of_here.
    + rewrite IH. destruct (decide (label ∈ labels)).
      * by rewrite decide_True by (by apply list_elem_of_further).
      * rewrite decide_False; [done |]. intros [?|?]%elem_of_cons; done.
Qed.

Lemma elem_of_record_labels (records : list record) (label : str) :
  label ∈ record_labels records ↔ ∃ r, r ∈ records ∧ label ∈ r.*1.
Proof.
  unfold record_labels.
  rewrite elem_of_first_occurrences, list_elem_of_In, in_concat.
  split.
  - intros (keys & Hk & Hl).
    apply list_elem_of_In, list_elem_of_fmap in Hk as (r & -> & Hr).
    exists r. split; [done | by apply list_elem_of_In].
  - intros (r & Hr & Hl). exists (r.*1). split; [| by apply list_elem_of_In].
    apply list_elem_of_In, list_elem_of_fmap. eauto.
Qed.

Lemma column_frame_of_records (records : list record) (label : str) :
  column label (frame_of_records records) =
    if decide (label ∈ record_labels records) then Some (record_cell label <$> records)
    else None.
Proof.
  rewrite column_dict_get. unfold frame_of_records.
  apply (dict_get_labelled (λ l, record_cell l <$> records)).
Qed.

Lemma parse_currency_ext (df1 df2 : DataFrame) :
  column (py "Price (incl. tax)") df1 = column (py "Price (incl. tax)") df2 →
  _parse_currency df1 = _parse_currency df2.
Proof. unfold _parse_currency. by intros ->. Qed.

Lemma parse_prices_ext (df1 df2 : DataFrame) :
  Forall (λ label, column label df1 = column label df2) price_columns →
  _parse_prices df1 = _parse_prices df2.
Proof.
  unfold price_columns. intros H.
  apply Forall_cons in H as [H1 H]. apply Forall_cons in H as [H2 H].
  apply Forall_cons in H as [H3 _].
  unfold _parse_prices, select_columns, price_columns. cbn [forallb comprehension].
  by rewrite H1, H2, H3.
Qed.

Lemma parse_product_availability_ext (df1 df2 : DataFrame) :
  column (py "Availability") df1 = column (py "Availability") df2 →
  _parse_product_availability df1 = _parse_product_availability df2.
Proof. unfold _parse_product_availability. by intros ->. Qed.

Lemma parse_prices_labels (df prices : DataFrame) :
  _parse_prices df = Returned prices → prices.*1 = price_columns.
Proof.
  intros H.
  assert (∃ excl incl tax,
            column (py "Price (excl. tax)") df = Some excl
            ∧ column (py "Price (incl. tax)") df = Some incl
            ∧ column (py "Tax") df = Some tax) as (excl & incl & tax & H1 & H2 & H3).
  { revert H. unfold _parse_prices, select_columns, price_columns.
    cbn [forallb comprehension].
    destruct (column (py "Price (excl. tax)") df) as [c1|];
      destruct (column (py "Price (incl. tax)") df) as [c2|];
      destruct (column (py "Tax") df) as [c3|]; try done.
    intros _. by exists c1, c2, c3. }
  rewrite (parse_prices_selected df excl incl tax H1 H2 H3) in H. cbv zeta in H.
  destruct (existsb _ _); [by injection H as <- |].
  unfold price_frame in H. cbn [comprehension fst snd] in H.
  destruct (comprehension astype_float (replace_price_cell <$> excl)); [| done].
  destruct (comprehension astype_float (replace_price_cell <$> incl)); [| done].
  destruct (comprehension astype_float (replace_price_cell <$> tax)); [| done].
  by injection H as <-.
Qed.

Lemma setitems_columns (other : DataFrame) (fr : frame) :
  frame_columns (setitems other fr) = dict_merge (frame_columns fr) other
  ∧ frame_index (setitems other fr) = frame_index fr.
Proof.
  unfold setitems, dict_merge. revert fr.
  induction other as [|[l cells] other IH]; intros fr; [done |].
  simpl. destruct (IH (setitem l cells fr)) as [-> ->]. done.
Qed.

Lemma column_dict_merge_ne (label : str) (df other : DataFrame) :
  NoDup other.*1 → label ∉ other.*1 →
  column label (dict_merge df other) = column label df.
Proof.
  intros Hnd Hl. rewrite !column_dict_get, (dict_get_merge label df other Hnd).
  by rewrite (proj2 (dict_get_None label other) Hl).
Qed.

Lemma all_records_fmap_Some (records : list record) :
  all_records (Some <$> records) = Some records.
Proof.
  induction records as [|r records IH]; [done |].
  rewrite fmap_cons. cbn [all_records]. by rewrite IH.
Qed.

(** ** [save_data] *)

Section save_facts.
Variable base_url : str.
Variable site : str → reply.
Variable DataFrame_of_mixed : list (option record) → outcome DataFrame.
Variable to_csv : frame → option str → outcome ().
Variable to_excel : frame → option str → outcome ().

Local Abbreviation save := (save_data base_url site DataFrame_of_mixed to_csv to_excel).
Local Abbreviation table := (save_table DataFrame_of_mixed to_csv to_excel).

(** X22: [save_data] without data returns [DataFrame()] and prints its line,
    whatever the format and the switches, an unsupported format included:
    so it is when the category has no product, and when a request of the
    detail cohort has failed, after the lines of the failures ("The HTTP
    Error" alone for client errors, "The error" alone for total timeouts).
    An exception of the crawl is raised. *)
Theorem save_data_without_data (category fmt : str) (path : option str)
    (product_name_as_index rating_as_float parse_prices parse_currency
       parse_product_availability : bool) (log : list diagnostic) :
  (∀ log', _collect_paths site category log = (Returned [], log') →
     save category fmt path product_name_as_index rating_as_float parse_prices
       parse_currency parse_product_availability log
     = (Returned (Some empty_frame), log', [no_data_line]))
  ∧ (∀ paths log0 p e,
       _collect_paths site category log = (Returned paths, log0) →
       p ∈ paths → _request_to_page site p = Raised e →
       ∃ lines,
         save category fmt path product_name_as_index rating_as_float parse_prices
           parse_currency parse_product_availability log
         = (Returned (Some empty_frame), log0 ++ lines, [no_data_line])
         ∧ failure_lines (failures_of site paths) lines)
  ∧ (∀ e log', _collect_paths site category log = (Raised e, log') →
       save category fmt path product_name_as_index rating_as_float parse_prices
         parse_currency parse_product_availability log
       = (Raised e, log', [])).
Proof.
  split; [| split].
  - intros log' Hc. unfold save_data, scrape, mbind, coroutine_bind.
    by rewrite Hc.
  - intros paths log0 p e Hc Hp He. unfold save_data.
    destruct (scrape_detail_failure base_url site category paths log log0 p e
                Hc Hp He) as (lines & -> & Hlines).
    by exists lines.
  - intros e log' Hc. unfold save_data, scrape, mbind, coroutine_bind.
    by rewrite Hc.
Qed.

Lemma save_data_with_data (category fmt : str) (path : option str)
    (b1 b2 b3 b4 b5 : bool) (log log' : list diagnostic)
    (data : list (option record)) :
  scrape base_url site category log = (Returned (Some data), log') →
  save category fmt path b1 b2 b3 b4 b5 log
  = (table data fmt path b1 b2 b3 b4 b5, log', []).
Proof.
  intros Hs. unfold save_data. rewrite Hs.
  destruct data as [|r data]; [| done].
  by destruct (scrape_returned_inv base_url site category log log' (Some []) Hs)
    as (paths & _ & Hne & _).
Qed.

(** X23: The four steps of [save_data] do not disturb one another: each one
    gives what it gives on the table as [DataFrame(data)] makes it, although
    it runs on the table the steps before it have changed.  The result
    holds the ratings as floats, the currency read off the price text
    before the prices are converted, the three price columns and the
    availability; the format is looked at last, and a format that is none
    of "df", "csv" and "excel" raises a [ValueError] only then. *)
Theorem save_data_steps (category fmt : str) (path : option str)
    (log log' : list diagnostic) (records : list record)
    (rating_cells ratings currency : list cell) (prices : DataFrame)
    (availability : list cell) :
  scrape base_url site category log = (Returned (Some (Some <$> records)), log') →
  column (py "Rating") (frame_of_records records) = Some rating_cells →
  convert_ratings rating_cells = Returned ratings →
  _parse_currency (frame_of_records records) = Returned currency →
  _parse_prices (frame_of_records records) = Returned prices →
  _parse_product_availability (frame_of_records records) = Returned availability →
  let result := normalized_frame (frame_of_records records) ratings currency prices
                  availability in
  save category fmt path false true true true true log
  = (if decide (fmt = py "df") then Returned (Some result)
     else if decide (fmt = py "csv") then to_csv result path;; mret None
     else if decide (fmt = py "excel") then to_excel result path;; mret None
     else Raised (ValueError "Unsupported format: "),
     log', []).
Proof.
  intros Hs Hrating Hconv Hcur Hprices Havail result.
  rewrite (save_data_with_data _ _ _ _ _ _ _ _ _ _ _ Hs). f_equal. f_equal.
  unfold save_table, DataFrame_of. rewrite all_records_fmap_Some.
  cbn [mbind outcome_bind mret outcome_ret].
  unfold getitem. cbn [frame_columns]. rewrite Hrating.
  cbn [mbind outcome_bind mret outcome_ret].
  fold (convert_ratings rating_cells). rewrite Hconv.
  cbn [mbind outcome_bind mret outcome_ret setitem frame_columns frame_index].
  rewrite (parse_currency_ext _ (frame_of_records records))
    by (by apply column_dict_set_ne).
  rewrite Hcur. cbn [mbind outcome_bind mret outcome_ret setitem frame_columns frame_index].
  rewrite (parse_prices_ext _ (frame_of_records records)).
  2: { unfold price_columns. repeat (apply List.Forall_cons || apply List.Forall_nil);
       by rewrite !column_dict_set_ne. }
  rewrite Hprices. cbn [mbind outcome_bind mret outcome_ret].
  pose proof (parse_prices_labels _ _ Hprices) as Hlabels.
  unfold setitem. cbn [frame_columns frame_index].
  match goal with
  | |- context [setitems prices ?fr] =>
      destruct (setitems_columns prices fr) as [Hcols Hidx];
      cbn [frame_columns frame_index] in Hcols, Hidx
  end.
  rewrite Hcols.
  rewrite (parse_product_availability_ext _ (frame_of_records records)).
  2: { rewrite column_dict_merge_ne.
       - by rewrite !column_dict_set_ne.
       - rewrite Hlabels. apply NoDup_ListNoDup. vm_compute.
         repeat constructor; simpl; intuition discriminate.
       - rewrite Hlabels. vm_compute. intros H.
         repeat (apply elem_of_cons in H as [H|H]; [discriminate H |]).
         by apply elem_of_nil in H. }
  rewrite Havail. cbn [mbind outcome_bind mret outcome_ret].
  rewrite Hidx. done.
Qed.

End save_facts.

Lemma save_data_without_data_witness :
  save_data shop_url (site_one_page [] NoReply) no_mixed_frame file_written file_written
    (py "Travel") (py "pdf") None false true true true true []
    = (Returned (Some empty_frame), [NoPathsLine], [no_data_line])
  ∧ save_data shop_url (site_one_page [Some (py "../../../t_1/index.html")] NoReply)
      no_mixed_frame file_written file_written
      (py "Travel") (py "pdf") None false true true true true []
    = (Returned (Some empty_frame), [] ++ [OtherErrorLine], [no_data_line])
  ∧ save_data shop_url
      (site_one_page [Some (py "../../../t_1/index.html")] (Response 503 blank_page))
      no_mixed_frame file_written file_written
      (py "Travel") (py "csv") None false true true true true []
    = (Returned (Some empty_frame), [] ++ [HttpErrorLine], [no_data_line])
  ∧ save_data shop_url (site_of []) no_mixed_frame file_written file_written
      (py "Travel") (py "df") None false true true true true []
    = (Raised (ClientResponseError 404), [], []).
Proof.
  split; [| split; [| split]].
  - by apply (save_data_without_data shop_url (site_one_page [] NoReply)).
  - destruct (proj1 (proj2 (save_data_without_data shop_url
                (site_one_page [Some (py "../../../t_1/index.html")] NoReply)
                no_mixed_frame file_written file_written
                (py "Travel") (py "pdf") None false true true true true []))
                [py "t_1/index.html"] [] (py "t_1/index.html") TimeoutError
                eq_refl ltac:(apply list_elem_of_here) eq_refl)
      as (lines & Heq & _ & _ & Htimeout).
    rewrite Heq, Htimeout; [reflexivity |]. vm_compute. repeat constructor.
  - destruct (proj1 (proj2 (save_data_without_data shop_url
                (site_one_page [Some (py "../../../t_1/index.html")]
                   (Response 503 blank_page))
                no_mixed_frame file_written file_written
                (py "Travel") (py "csv") None false true true true true []))
                [py "t_1/index.html"] [] (py "t_1/index.html")
                (ClientResponseError 503)
                eq_refl ltac:(apply list_elem_of_here) eq_refl)
      as (lines & Heq & _ & Hclient & _).
    rewrite Heq, Hclient; [reflexivity |]. vm_compute. repeat constructor.
  - by apply (save_data_without_data shop_url (site_of [])).
Defined.

Lemma save_data_steps_witness :
  save_data shop_url tea_site no_mixed_frame file_written file_written
    (py "Travel") (py "df") None false true true true true []
    = (Returned (Some (normalized_frame (frame_of_records [tea_record])
                         [Float 3] [Text [pound]]
                         (price_frame [Float (5177 # 100)] [Float (5177 # 100)]
                            [Float (0 # 100)])
                         [Float (22 # 1)])),
       [], [])
  ∧ save_data shop_url tea_site no_mixed_frame file_written file_written
      (py "Travel") (py "pdf") None false true true true true []
    = (Raised (ValueError "Unsupported format: "), [], []).
Proof.
  split.
  - exact (save_data_steps shop_url tea_site no_mixed_frame file_written file_written
             (py "Travel") (py "df") None [] [] [tea_record] [Text (py "Three")]
             [Float 3] [Text [pound]]
             (price_frame [Float (5177 # 100)] [Float (5177 # 100)] [Float (0 # 100)])
             [Float (22 # 1)] eq_refl eq_refl eq_refl eq_refl eq_refl eq_refl).
  - exact (save_data_steps shop_url tea_site no_mixed_frame file_written file_written
             (py "Travel") (py "pdf") None [] [] [tea_record] [Text (py "Three")]
             [Float 3] [Text [pound]]
             (price_frame [Float (5177 # 100)] [Float (5177 # 100)] [Float (0 # 100)])
             [Float (22 # 1)] eq_refl eq_refl eq_refl eq_refl eq_refl eq_refl).
Defined.

(** X24: With its default switches [save_data] needs the attribute table of the
    product pages: when no record has the key "Price (incl. tax)", as
    for pages without table, the currency step raises the [ValueError]
    "Product price columns don't exist", whatever the format, provided the
    step before it, on the ratings, has not raised. *)
Theorem save_data_without_price_column
    (base_url : str) (site : str → reply)
    (DataFrame_of_mixed : list (option record) → outcome DataFrame)
    (to_csv to_excel : frame → option str → outcome ())
    (category fmt : str) (path : option str)
    (rating_as_float parse_prices parse_product_availability : bool)
    (log log' : list diagnostic) (records : list record) :
  scrape base_url site category log = (Returned (Some (Some <$> records)), log') →
  (∀ r, r ∈ records → py "Price (incl. tax)" ∉ r.*1) →
  (rating_as_float = true →
   ∃ rating_cells ratings,
     column (py "Rating") (frame_of_records records) = Some rating_cells
     ∧ convert_ratings rating_cells = Returned ratings) →
  save_data base_url site DataFrame_of_mixed to_csv to_excel category fmt path
    false rating_as_float parse_prices true parse_product_availability log
  = (Raised (ValueError "Product price columns don't exist"), log', []).
Proof.
  intros Hs Hkeys Hratings.
  rewrite (save_data_with_data _ _ _ _ _ _ _ _ _ _ _ _ _ _ _ _ Hs). f_equal. f_equal.
  unfold save_table, DataFrame_of. rewrite all_records_fmap_Some.
  cbn [mbind outcome_bind mret outcome_ret].
  assert (Hnone : column (py "Price (incl. tax)") (frame_of_records records) = None).
  { rewrite column_frame_of_records, decide_False; [done |].
    intros (r & Hr & Hin)%elem_of_record_labels. by apply (Hkeys r Hr). }
  destruct rating_as_float.
  - destruct (Hratings eq_refl) as (rating_cells & ratings & Hcol & Hconv).
    unfold getitem. cbn [frame_columns]. rewrite Hcol.
    cbn [mbind outcome_bind mret outcome_ret].
    fold (convert_ratings rating_cells). rewrite Hconv.
    cbn [mbind outcome_bind mret outcome_ret setitem frame_columns frame_index].
    rewrite (parse_currency_ext _ (frame_of_records records))
      by (by apply column_dict_set_ne).
    unfold _parse_currency. by rewrite Hnone.
  - cbn [mbind outcome_bind mret outcome_ret frame_columns].
    unfold _parse_currency. by rewrite Hnone.
Qed.

Lemma save_data_without_price_column_witness :
  save_data shop_url
    (site_one_page [Some (py "../../../t_1/index.html")]
       (Response 200 (detail_page (Some (py "Tea")))))
    no_mixed_frame file_written file_written
    (py "Travel") (py "df") None false true true true true []
  = (Raised (ValueError "Product price columns don't exist"), [], []).
Proof.
  apply (save_data_without_price_column shop_url _ no_mixed_frame file_written
           file_written (py "Travel") (py "df") None true true true [] []
           [base_record (py "Tea") (shop_url ++ py "t_1/index.html") (py "Three")]).
  - reflexivity.
  - intros r Hr%list_elem_of_singleton. subst r. vm_compute. intros H.
    repeat (apply elem_of_cons in H as [H|H]; [discriminate H |]).
    by apply elem_of_nil in H.
  - intros _. exists [Text (py "Three")], [Float 3]. split; reflexivity.
Defined.

(** ** The clauses of the cohorts *)

(** X17: What the [except*] clauses of a cohort print for a group of
    exceptions: "The HTTP Error" when the group holds a client error, a
    connection timeout included; "The parsing result in the error" when it
    holds an [AttributeError] or an [IndexError]; "The error" when it holds
    anything else, such as the [TimeoutError] of a total timeout; each line
    once, in this order, and at least one line for a group that is not
    empty.  The line "The timeout is reached" is never printed: a
    connection timeout is a client error, and the first clause has taken
    it. *)
Theorem cohort_handlers_lines (group : list exn) :
  cohort_handlers group
  = (if existsb is_ClientError group then [HttpErrorLine] else [])
    ++ (if existsb is_parsing_error group then [ParsingErrorLine] else [])
    ++ (if existsb (λ e, negb (is_ClientError e) && negb (is_parsing_error e)) group
        then [OtherErrorLine] else [])
  ∧ (TimeoutLine ∉ cohort_handlers group)
  ∧ (group ≠ [] → cohort_handlers group ≠ []).
Proof.
  pose proof (cohort_handlers_eq group) as Heq.
  split; [exact Heq |]. rewrite Heq. split.
  - destruct (existsb is_ClientError group), (existsb is_parsing_error group),
      (existsb _ group); cbn [app];
      intros H; repeat (apply elem_of_cons in H as [H|H]; [discriminate H |]);
      by apply elem_of_nil in H.
  - intros Hne. destruct group as [|e group]; [done |]. cbn [existsb].
    destruct e; simpl; try done;
      destruct (existsb is_ClientError group), (existsb is_parsing_error group);
      done.
Qed.

Lemma cohort_handlers_lines_witness :
  let group := [ConnectionTimeoutError; IndexError "list index out of range"] in
  group ≠ []
  ∧ cohort_handlers group = [HttpErrorLine; ParsingErrorLine]
  ∧ (TimeoutLine ∉ cohort_handlers group)
  ∧ cohort_handlers group ≠ [].
Proof.
  intros group.
  destruct (cohort_handlers_lines group) as (Heq & Hno & Hne).
  split; [done |]. split; [exact Heq |]. split; [exact Hno |]. by apply Hne.
Defined.

(** ** The fields of the records [scrape] yields *)

(** X19: Every record in the list [scrape] returns is what
    [_parse_product_info] makes of the page served for one of the paths of
    the crawl, the path at the same place among the distinct paths, with
    the base URL followed by that path as its URL.  It has the three keys
    "Product name", "URL" and "Rating", each key once, and its field "URL"
    is that URL unless the attribute table of the page has a row headed
    "URL". *)
Theorem scrape_record_fields (base_url : str) (site : str → reply) (category : str)
    (log log' : list diagnostic) (records : list (option record))
    (i : nat) (r : record) :
  scrape base_url site category log = (Returned (Some records), log') →
  records !! i = Some (Some r) →
  ∃ paths path body,
    _collect_paths site category log = (Returned paths, log')
    ∧ first_occurrences paths !! i = Some path
    ∧ _request_to_page site path = Returned body
    ∧ _parse_product_info body (base_url ++ path) = Returned (Some r)
    ∧ NoDup r.*1
    ∧ is_Some (dict_get (py "Product name") r)
    ∧ is_Some (dict_get (py "URL") r)
    ∧ is_Some (dict_get (py "Rating") r)
    ∧ (table_cell (py "URL") (table_rows body) = None →
       dict_get (py "URL") r = Some (base_url ++ path)).
Proof.
  intros Hs Hi.
  destruct (scrape_returned_inv base_url site category log log' (Some records) Hs)
    as (paths & Hc & _ & Hall).
  destruct (Forall2_lookup_r _ _ _ _ _ Hall Hi) as (path & Hpath & Hrec).
  unfold record_of_path in Hrec.
  destruct (_request_to_page site path) as [body|] eqn:Hbody; [| done].
  simpl in Hrec.
  destruct (parse_product_info_fields body (base_url ++ path) r Hrec)
    as (title & rating & _ & _ & _ & Hnd & Hget).
  exists paths, path, body. repeat split; try done.
  - rewrite Hget. by destruct (table_cell _ _).
  - rewrite Hget. by destruct (table_cell _ _).
  - rewrite Hget. by destruct (table_cell _ _).
  - intros Hnone. by rewrite Hget, Hnone.
Qed.

Lemma scrape_record_fields_witness :
  ∃ paths path body,
    _collect_paths tea_site (py "Travel") [] = (Returned paths, [])
    ∧ first_occurrences paths !! 0%nat = Some path
    ∧ _request_to_page tea_site path = Returned body
    ∧ _parse_product_info body (shop_url ++ path) = Returned (Some tea_record)
    ∧ NoDup tea_record.*1
    ∧ is_Some (dict_get (py "Product name") tea_record)
    ∧ is_Some (dict_get (py "URL") tea_record)
    ∧ is_Some (dict_get (py "Rating") tea_record)
    ∧ (table_cell (py "URL") (table_rows body) = None →
       dict_get (py "URL") tea_record = Some (shop_url ++ path)).
Proof.
  apply (scrape_record_fields shop_url tea_site (py "Travel") [] []
           [Some tea_record] 0%nat tea_record); reflexivity.
Defined.

(** ** Ratings, read backwards *)

(** X1: [_convert_rating] returns nothing but the five values 1.0 to 5.0, and
    only for a text that is a rating word once lowered; for a cell that is
    no text, a missing value included, it raises the [TypeError] "Rating
    must be string", and for any other text the [ValueError] "Rating must
    be parsable". *)
Theorem convert_rating_outcomes (c : cell) :
  (∀ q, _convert_rating c = Returned q →
     ∃ s n, c = Text s ∧ q = inject_Z (Z.of_nat (S n))
            ∧ rating_words !! n = Some (lower s))
  ∧ (∀ e, _convert_rating c = Raised e →
       (e = TypeError "Rating must be string" ∧ ∀ s, c ≠ Text s)
       ∨ (e = ValueError "Rating must be parsable"
          ∧ ∃ s, c = Text s ∧ lower s ∉ rating_words)).
Proof.
  unfold _convert_rating. destruct c as [s|q'|].
  - cbv zeta. split.
    + intros q H. exists s.
      destruct (decide (lower s = py "one")) as [E|_];
        [injection H as <-; exists 0%nat; by rewrite E |].
      destruct (decide (lower s = py "two")) as [E|_];
        [injection H as <-; exists 1%nat; by rewrite E |].
      destruct (decide (lower s = py "three")) as [E|_];
        [injection H as <-; exists 2%nat; by rewrite E |].
      destruct (decide (lower s = py "four")) as [E|_];
        [injection H as <-; exists 3%nat; by rewrite E |].
      destruct (decide (lower s = py "five")) as [E|_];
        [injection H as <-; exists 4%nat; by rewrite E |].
      discriminate H.
    + intros e H. right.
      destruct (decide (lower s = py "one")) as [|N1]; [discriminate H |].
      destruct (decide (lower s = py "two")) as [|N2]; [discriminate H |].
      destruct (decide (lower s = py "three")) as [|N3]; [discriminate H |].
      destruct (decide (lower s = py "four")) as [|N4]; [discriminate H |].
      destruct (decide (lower s = py "five")) as [|N5]; [discriminate H |].
      injection H as <-. split; [done |]. exists s. split; [done |].
      unfold rating_words. intros Hin.
      repeat (apply elem_of_cons in Hin as [Hin|Hin]; [done |]).
      by apply elem_of_nil in Hin.
  - split; [done |]. intros e [= <-]. left. by split.
  - split; [done |]. intros e [= <-]. left. by split.
Qed.

Lemma convert_rating_outcomes_witness :
  (∃ s n, Text (py "FOUR") = Text s ∧ 4%Q = inject_Z (Z.of_nat (S n))
          ∧ rating_words !! n = Some (lower s))
  ∧ ((TypeError "Rating must be string" = TypeError "Rating must be string"
      ∧ ∀ s, NaN ≠ Text s)
     ∨ (TypeError "Rating must be string" = ValueError "Rating must be parsable"
        ∧ ∃ s, NaN = Text s ∧ lower s ∉ rating_words)).
Proof.
  split.
  - by apply (proj1 (convert_rating_outcomes (Text (py "FOUR")))).
  - by apply (proj2 (convert_rating_outcomes NaN)).
Defined.
